(** * Lattice-dynamics Firetasks of atomate: a shallow embedding

    Source: [atomate/vasp/firetasks/lattice_dynamics.py].

    Every Firetask is a Python method [run_task(self, fw_spec)] that reads
    and writes files of the current working directory, calls into external
    libraries (pymatgen, hiPhive, numpy, pymongo) and may raise.  The
    embedding keeps that shape:

    - the working directory is a finite map from file names to artifacts,
      together with the chronological log of what the task wrote and ran;
    - a task is a state transformer that either returns or raises, and the
      state reached when it raises is the state at the [raise];
    - external libraries are parameters (section variables), their data
      types are the fields of the class [Domain]. *)

From Stdlib Require Import QArith Qcanon SpecFloat.
From stdpp Require Import gmap strings list fin_maps numbers sorting relations pretty.

Local Open Scope string_scope.
Local Open Scope list_scope.

(** ** Python exceptions and outcomes *)

Module Py.

Inductive exn : Type :=
| RuntimeError (msg : string)
| ValueError (msg : string)
| KeyError (key : string)
| IndexError (msg : string)
| TypeError (msg : string)
| NameError (name : string)
| UnboundLocalError (name : string)
| FileNotFoundError (path : string)
| DuplicateKeyError (key : string).

Inductive outcome (A : Type) : Type :=
| Returned (a : A)
| Raised (e : exn).

Arguments Returned {A} a.
Arguments Raised {A} e.

(** A computation over a state [S]: the state is threaded through, and kept
    as it is at the moment an exception is raised (files written so far stay
    written). *)
Definition task (S A : Type) : Type := S -> outcome A * S.

Definition ret {S A} (a : A) : task S A := fun s => (Returned a, s).

Definition raise {S A} (e : exn) : task S A := fun s => (Raised e, s).

Definition bind {S A B} (m : task S A) (k : A -> task S B) : task S B :=
  fun s =>
    match m s with
    | (Returned a, s') => k a s'
    | (Raised e, s') => (Raised e, s')
    end.

(** An external call that does not touch the state but may raise. *)
Definition lift {S A} (o : outcome A) : task S A := fun s => (o, s).

(** [d[key]] on a dict. *)
Definition getitem {S V} (d : gmap string V) (key : string) : task S V :=
  match d !! key with
  | Some v => ret v
  | None => raise (KeyError key)
  end.

(** [l[i]] on a list, for a non-negative index. *)
Definition index {S A} (l : list A) (i : nat) : task S A :=
  match l !! i with
  | Some a => ret a
  | None => raise (IndexError "list index out of range")
  end.

(** [needle in hay] on [str]. *)
Fixpoint contains (needle hay : string) : bool :=
  String.prefix needle hay ||
  match hay with
  | EmptyString => false
  | String _ rest => contains needle rest
  end.

End Py.

Import Py.

Declare Scope task_scope.
Delimit Scope task_scope with task.
Notation "x <~ m ;; k" := (bind m (fun x => k))
  (at level 100, m at next level, right associativity) : task_scope.
Notation "m ;;; k" := (bind m (fun _ => k))
  (at level 100, right associativity) : task_scope.
Local Open Scope task_scope.

(** ** The objects of the external libraries *)

Class Domain : Type := {
  Structure : Type;       (* pymatgen.core.structure.Structure *)
  Matrix : Type;          (* a supercell matrix *)
  Forces : Type;          (* the forces on the sites of one supercell *)
  Atoms : Type;           (* ase.Atoms *)
  ForceConstants : Type;  (* hiphive.ForceConstants *)
  Parameters : Type;      (* the fitted parameter vector *)
  ClusterSpace : Type;    (* hiphive.ClusterSpace *)
  Cutoff : Type;          (* one trial: the cutoff radii per order *)
  Phonopy : Type;         (* the phonopy object passed between the analyses *)
  Control : Type;         (* pymatgen.io.shengbte.Control *)
  Data : Type;            (* any other JSON-serialisable value *)
}.

(** ** The working directory *)

Module Store.
Section Store.
Context `{Domain}.

(** The value of a key in [fitting_data] and [thermal_data]. *)
Inductive value : Type :=
| VInt (n : Z)
| VNum (q : Qc)
| VData (d : Data).

Record structure_data : Type := StructureData {
  sd_structure : Structure;
  sd_supercell_structure : Structure;
  sd_supercell_matrix : Matrix;
}.

Inductive artifact : Type :=
| StructuresJson (l : list Structure)            (* perturbed_structures.json *)
| ForcesJson (l : list Forces)                   (* perturbed_forces.json *)
| StructureDataJson (sd : structure_data)        (* structure_data.json *)
| DictJson (d : gmap string value)               (* fitting_data.json, thermal_data_qha.json *)
| ListsJson (d : gmap string (list value))       (* thermal_data_renorm.json *)
| FcsFile (fcs : ForceConstants)                 (* fcs.write(...) *)
| ParametersTxt (p : Parameters)                 (* np.savetxt(...) *)
| ClusterSpaceFile (cs : ClusterSpace)           (* cs.write(...) *)
| ShengBTEFile (fcs : ForceConstants) (a : Atoms) (order : Z)
                                                 (* fcs.write_to_shengBTE(...) *)
| PhonopyText (fcs : ForceConstants)             (* fcs.write_to_phonopy(..., format="text") *)
| ControlFile (c : Control)                      (* control.to_file() *)
| TextFile (s : string).                         (* an open(...,"w") stream *)

Inductive event : Type :=
| Wrote (path : string)
| Ran (cmd : list string).

Record world : Type := World {
  files : gmap string artifact;
  log : list event;
}.

(** The world a task starts in: the directory as it is, nothing logged. *)
Definition boot (fs : gmap string artifact) : world :=
  {| files := fs; log := [] |}.

(** Any of [dumpfn(obj, path)], [obj.write(path)], [np.savetxt(path, obj)]. *)
Definition write (path : string) (a : artifact) : task world unit :=
  fun w => (Returned tt,
            {| files := <[path := a]> (files w); log := log w ++ [Wrote path] |}).

(** [loadfn(path)]. *)
Definition loadfn (path : string) : task world artifact :=
  fun w =>
    match files w !! path with
    | Some a => (Returned a, w)
    | None => (Raised (FileNotFoundError path), w)
    end.

Definition written (path : string) (w : world) : Prop := Wrote path ∈ log w.

(** What the tasks expect to find in the three files of the aggregation
    step; a file holding something else makes the first use of the loaded
    object fail. *)
Definition load_structures (path : string) : task world (list Structure) :=
  a <~ loadfn path ;;
  match a with
  | StructuresJson l => ret l
  | _ => raise (TypeError path)
  end.

Definition load_forces (path : string) : task world (list Forces) :=
  a <~ loadfn path ;;
  match a with
  | ForcesJson l => ret l
  | _ => raise (TypeError path)
  end.

Definition load_structure_data (path : string) : task world structure_data :=
  a <~ loadfn path ;;
  match a with
  | StructureDataJson sd => ret sd
  | _ => raise (TypeError path)
  end.

End Store.
End Store.

Import Store.

(** ** CollectPerturbedStructures *)

Module CollectPerturbedStructures.
Section Task.
Context `{Domain}.

(** An element of [fw_spec["perturbed_tasks"]]. *)
Record perturbed_task : Type := PerturbedTask {
  parent_structure : Structure;
  supercell_matrix : Matrix;
  structure : Structure;
  forces : Forces;
}.

(** An element of [fw_spec["calc_locs"]]. *)
Record calc_loc : Type := CalcLoc {
  name : string;
  path : string;
}.

(** The two keys of [fw_spec] the task reads; [None] is an absent key. *)
Record fw_spec : Type := FwSpec {
  perturbed_tasks : option (list perturbed_task);
  calc_locs : option (list calc_loc);
}.

(** [VaspDrone(...).assimilate(opt_loc)] followed by
    [Structure.from_dict(opt_doc["calcs_reversed"][0]["output"]["structure"])]. *)
Variable assimilate_structure : string -> outcome Structure.

(** [SupercellTransformation(supercell_matrix).apply_transformation(structure)]. *)
Variable apply_transformation : Matrix -> Structure -> Structure.

Definition is_optimiz (c : calc_loc) : bool := contains "optimiz" (name c).

Definition run_task (spec : fw_spec) : task world unit :=
  let results := default [] (perturbed_tasks spec) in
  if decide (length results = 0%nat) then
    raise (RuntimeError "No perturbed tasks found in firework spec")
  else
    let structures := structure <$> results in
    let forces := forces <$> results in
    let calc_locs := default [] (calc_locs spec) in
    let opt_calc_locs := List.filter is_optimiz calc_locs in
    structure <~
      match last opt_calc_locs with
      | Some opt => lift (assimilate_structure (path opt))
      | None => r0 <~ index results 0 ;; ret (parent_structure r0)
      end ;;
    r0 <~ index results 0 ;;
    let supercell_matrix := supercell_matrix r0 in
    let supercell_structure := apply_transformation supercell_matrix structure in
    let structure_data :=
      {| sd_structure := structure;
         sd_supercell_structure := supercell_structure;
         sd_supercell_matrix := supercell_matrix |} in
    write "perturbed_structures.json" (StructuresJson structures) ;;;
    write "perturbed_forces.json" (ForcesJson forces) ;;;
    write "structure_data.json" (StructureDataJson structure_data).

(** The parent structure as the specification words it: the structure of
    the last calculation whose name contains "optimiz" when there is one,
    the parent structure of the first sample otherwise. *)
Inductive canonical_parent (locs : list calc_loc) (first : perturbed_task)
    : outcome Structure -> Prop :=
| parent_of_optimization before opt after :
    locs = before ++ opt :: after ->
    is_optimiz opt = true ->
    Forall (fun c => is_optimiz c = false) after ->
    canonical_parent locs first (assimilate_structure (path opt))
| parent_of_first_sample :
    Forall (fun c => is_optimiz c = false) locs ->
    canonical_parent locs first (Returned (parent_structure first)).

(** The world the task leaves when it returns. *)
Definition aggregated (fs : gmap string artifact)
    (results : list perturbed_task) (parent : Structure) (matrix : Matrix)
    : world :=
  {| files :=
       <["structure_data.json" :=
           StructureDataJson
             {| sd_structure := parent;
                sd_supercell_structure := apply_transformation matrix parent;
                sd_supercell_matrix := matrix |}]>
       (<["perturbed_forces.json" := ForcesJson (forces <$> results)]>
       (<["perturbed_structures.json" := StructuresJson (structure <$> results)]>
        fs));
     log := [Wrote "perturbed_structures.json"; Wrote "perturbed_forces.json";
             Wrote "structure_data.json"] |}.

End Task.
End CollectPerturbedStructures.

(** ** RunHiPhive *)

Module RunHiPhive.
Section Task.
Context `{Domain}.

(** The optional parameters of the task; [None] is an absent key. *)
Record params : Type := Params {
  cutoffs : option (list Cutoff);
  separate_fit : option bool;
  bulk_modulus : option Data;
  imaginary_tol : option Data;
  fit_method : option string;
}.

(** Constants imported from [atomate.vasp.analysis.lattice_dynamics]. *)
Variable IMAGINARY_TOL : Data.
Variable FIT_METHOD : string.
Variable T_QHA : Data.

(** Functions imported from the analysis module, pymatgen and hiPhive. *)
Variable get_cutoffs : Structure -> list Cutoff.
Variable get_atoms : Structure -> Atoms.
Variable get_displacements : Atoms -> Atoms -> Forces.
Variable new_array : string -> Forces -> Atoms -> Atoms.
Variable with_positions_of : Atoms -> Atoms -> Atoms.
Variable fit_force_constants :
  Structure -> Matrix -> list Atoms -> list Cutoff -> bool -> Data -> string ->
  option ForceConstants * Parameters * ClusterSpace * gmap string value.
Variable harmonic_properties :
  Structure -> Matrix -> ForceConstants -> Data -> Data ->
  gmap string value * Phonopy.
Variable anharmonic_properties :
  Phonopy -> ForceConstants -> Data -> value -> value -> option Data ->
  gmap string value * Phonopy.

(** The body of the loop over [zip(all_structures, all_forces)]. *)
Definition displaced_atoms (supercell_atoms : Atoms)
    (sf : Structure * Forces) : Atoms :=
  let atoms := get_atoms sf.1 in
  let displacements := get_displacements atoms supercell_atoms in
  let atoms := new_array "displacements" displacements atoms in
  let atoms := new_array "forces" sf.2 atoms in
  with_positions_of supercell_atoms atoms.

(** [self.get("cutoffs") or get_cutoffs(supercell_structure)]: an absent
    key and an empty list are both falsy. *)
Definition cutoffs_or (self : params) (supercell_structure : Structure)
    : list Cutoff :=
  match cutoffs self with
  | Some (c :: cs) => c :: cs
  | _ => get_cutoffs supercell_structure
  end.

(** [d.pop(key)]. *)
Definition pop (key : string) (d : gmap string value)
    : task world (value * gmap string value) :=
  v <~ getitem d key ;; ret (v, delete key d).

(** [v == 0] for the value stored under ["n_imaginary"]. *)
Definition is_zero (v : value) : bool :=
  match v with
  | VInt n => bool_decide (n = 0%Z)
  | VNum q => bool_decide (q = 0%Qc)
  | VData _ => false
  end.

(** Lines 151-182 once the three files are loaded: the call of the fitting
    function with the arguments the task gives it. *)
Definition fit (self : params) (all_structures : list Structure)
    (all_forces : list Forces) (structure_data : structure_data)
    : option ForceConstants * Parameters * ClusterSpace * gmap string value :=
  let imaginary_tol := default IMAGINARY_TOL (imaginary_tol self) in
  let fit_method := default FIT_METHOD (fit_method self) in
  let separate_fit := default false (separate_fit self) in
  let parent_structure := sd_structure structure_data in
  let supercell_structure := sd_supercell_structure structure_data in
  let supercell_matrix := sd_supercell_matrix structure_data in
  let cutoffs := cutoffs_or self supercell_structure in
  let supercell_atoms := get_atoms supercell_structure in
  let structures :=
    displaced_atoms supercell_atoms <$> zip all_structures all_forces in
  fit_force_constants parent_structure supercell_matrix structures cutoffs
    separate_fit imaginary_tol fit_method.

(** Lines 190-192. *)
Definition harmonic (self : params) (structure_data : structure_data)
    (fcs : ForceConstants) : gmap string value * Phonopy :=
  harmonic_properties (sd_structure structure_data)
    (sd_supercell_matrix structure_data) fcs T_QHA
    (default IMAGINARY_TOL (imaginary_tol self)).

Definition run_task (self : params) : task world unit :=
  all_structures <~ load_structures "perturbed_structures.json" ;;
  all_forces <~ load_forces "perturbed_forces.json" ;;
  structure_data <~ load_structure_data "structure_data.json" ;;
  let parent_structure := sd_structure structure_data in
  let bulk_modulus := bulk_modulus self in
  let '(fcs, param, cs, fitting_data) :=
    fit self all_structures all_forces structure_data in
  match fcs with
  | None => raise (RuntimeError "Could not find a force constant solution")
  | Some fcs =>
      let '(thermal_data, phonopy) := harmonic self structure_data fcs in
      heat_capacity <~ getitem thermal_data "heat_capacity" ;;
      n_imaginary <~ getitem thermal_data "n_imaginary" ;;
      let '(anharmonic_data, phonopy) :=
        anharmonic_properties phonopy fcs T_QHA heat_capacity n_imaginary
          bulk_modulus in
      popped <~ pop "n_imaginary" thermal_data ;;
      let fitting_data := <["n_imaginary" := popped.1]> fitting_data in
      let thermal_data := anharmonic_data ∪ popped.2 in
      write "fitting_data.json" (DictJson fitting_data) ;;;
      write "thermal_data_qha.json" (DictJson thermal_data) ;;;
      write "force_constants.fcs" (FcsFile fcs) ;;;
      write "parameters.txt" (ParametersTxt param) ;;;
      write "cluster_space.cs" (ClusterSpaceFile cs) ;;;
      n <~ getitem fitting_data "n_imaginary" ;;
      if is_zero n then
        let atoms := get_atoms parent_structure in
        write "FORCE_CONSTANTS_3RD" (ShengBTEFile fcs atoms 3) ;;;
        write "FORCE_CONSTANTS_2ND" (PhonopyText fcs)
      else
        ret tt
  end.

(** The directory holds the three files of the aggregation step. *)
Definition aggregated_in (fs : gmap string artifact)
    (structures : list Structure) (forces : list Forces) (sd : structure_data)
    : Prop :=
  fs !! "perturbed_structures.json" = Some (StructuresJson structures) /\
  fs !! "perturbed_forces.json" = Some (ForcesJson forces) /\
  fs !! "structure_data.json" = Some (StructureDataJson sd).

End Task.
End RunHiPhive.

(** ** Control flow shared by the tasks with loops *)

Module Loops.

(** [[f(x) for x in l]], evaluated left to right, stopping at the first
    exception. *)
Fixpoint map_task {S A B} (f : A -> task S B) (l : list A) : task S (list B) :=
  match l with
  | [] => ret []
  | x :: l' => y <~ f x ;; ys <~ map_task f l' ;; ret (y :: ys)
  end.

(** [for x in l: acc = body(acc, x)]. *)
Fixpoint fold_task {S A B} (body : B -> A -> task S B) (acc : B) (l : list A)
    : task S B :=
  match l with
  | [] => ret acc
  | x :: l' => acc' <~ body acc x ;; fold_task body acc' l'
  end.

(** [enumerate(l)]. *)
Definition enumerate {A} (l : list A) : list (nat * A) :=
  imap (fun i x => (i, x)) l.

(** A module-level name that the module itself never binds: it is looked up
    in the globals when the expression is evaluated. *)
Definition global {S A} (name : string) (binding : option A) : task S A :=
  match binding with
  | Some a => ret a
  | None => raise (NameError name)
  end.

(** A local variable of the function, [None] while nothing was assigned. *)
Definition local {S A} (name : string) (binding : option A) : task S A :=
  match binding with
  | Some a => ret a
  | None => raise (UnboundLocalError name)
  end.

End Loops.

Import Loops.

(** ** RunHiPhiveRenorm *)

Module RunHiPhiveRenorm.
Section Task.
Context `{Domain}.

Record params : Type := Params {
  cs : ClusterSpace;
  fcs : ForceConstants;
  param : Parameters;
  bulk_modulus : option Data;
  T_renorm : option (list Qc);
  imaginary_tol : option Data;
  fit_method : option string;
}.

(** What [renormalization] returns for one temperature: the keys the task
    reads, the remaining thermal properties under [thermo]. *)
Record renorm_result : Type := RenormResult {
  n_imaginary : Z;
  r_fcs : list ForceConstants;
  r_param : list Parameters;
  temperature : list Qc;
  thermal_expansion : list Qc;
  thermo : gmap string (list Data);
}.

(** The names the function body uses and the module neither defines nor
    imports. *)
Record globals : Type := Globals {
  nconfig : option Data;
  conv_thresh : option Data;
  thermal_expansion_fn : option (list Qc -> list Qc -> list Data);
  setup_TE_renorm :
    option (Structure -> list Qc -> list Data ->
            list Structure * list ClusterSpace * list ForceConstants);
}.

Variable IMAGINARY_TOL : Data.
Variable FIT_METHOD : string.
Variable T_RENORM : list Qc.

Variable get_atoms : Structure -> Atoms.
Variable renormalization :
  Structure -> Matrix -> ClusterSpace -> ForceConstants -> Parameters ->
  Qc -> Data -> Data -> Data -> option renorm_result.

(** [np.argsort]. *)
Variable argsort : list Qc -> list nat.

(** [str] of a number, as ["{}".format] prints it. *)
Variable str : Qc -> string.

Definition fcs_name (T : Qc) : string := "force_constants_" +:+ str T +:+ "K.fcs".
Definition parameters_name (T : Qc) : string := "parameters_" +:+ str T +:+ "K.txt".
Definition phonopy_name (T : Qc) : string := "FORCE_CONSTANTS_2ND_" +:+ str T +:+ "K".

(** [result[key]] for the keys of [thermal_keys]. *)
Definition item (r : renorm_result) (key : string) : task world (list value) :=
  if decide (key = "temperature") then ret (VNum <$> temperature r)
  else if decide (key = "thermal_expansion") then ret (VNum <$> thermal_expansion r)
  else l <~ getitem (thermo r) key ;; ret (VData <$> l).

(** The local variables that outlive the statement assigning them. *)
Record locals : Type := Locals {
  T : option Qc;
  result : option (option renorm_result);
  T_real : list Qc;
  cte_real : list Qc;
  fcs_real : list ForceConstants;
  param_real : list Parameters;
}.

(** Lines 277-279 and 288-290: the same three statements. *)
Definition write_directly (T : option Qc) (r : renorm_result) : task world unit :=
  fcs <~ index (r_fcs r) 0 ;;
  T1 <~ local "T" T ;;
  write (fcs_name T1) (FcsFile fcs) ;;;
  T2 <~ local "T" T ;;
  p <~ index (r_param r) 0 ;;
  write (parameters_name T2) (ParametersTxt p).

(** One element of the generator given to the first [Parallel]; its [T] is
    the generator's own variable. *)
Definition first_pass (g : globals) (self : params) (sd : structure_data)
    (imaginary_tol : Data) (T : Qc) : task world (option renorm_result) :=
  nconfig <~ global "nconfig" (nconfig g) ;;
  conv_thresh <~ global "conv_thresh" (conv_thresh g) ;;
  ret (renormalization (sd_structure sd) (sd_supercell_matrix sd)
         (cs self) (fcs self) (param self) T nconfig conv_thresh imaginary_tol).

(** The body of [for result in renorm_results]. *)
Definition partition_result (bulk_modulus : option Data)
    (l : locals) (res : option renorm_result) : task world locals :=
  let l := {| T := T l; result := Some res; T_real := T_real l;
              cte_real := cte_real l; fcs_real := fcs_real l;
              param_real := param_real l |} in
  match res with
  | None => ret l
  | Some r =>
      if bool_decide (0 < n_imaginary r)%Z || bool_decide (bulk_modulus = None)
      then write_directly (T l) r ;;; ret l
      else ret {| T := T l; result := result l;
                  T_real := T_real l ++ temperature r;
                  cte_real := cte_real l ++ thermal_expansion r;
                  fcs_real := fcs_real l ++ r_fcs r;
                  param_real := param_real l ++ r_param r |}
  end.

(** [np.array(l)[ind]]. *)
Definition take_indices {A} (l : list A) (ind : list nat) : task world (list A) :=
  map_task (index l) ind.

(** One element of the generator given to the second [Parallel]. *)
Definition second_pass (g : globals) (self : params) (sd : structure_data)
    (imaginary_tol : Data)
    (TE : list Structure * list ClusterSpace * list ForceConstants)
    (tT : nat * Qc) : task world (option renorm_result) :=
  structure <~ index TE.1.1 tT.1 ;;
  cs <~ index TE.1.2 tT.1 ;;
  fcs <~ index TE.2 tT.1 ;;
  nconfig <~ global "nconfig" (nconfig g) ;;
  conv_thresh <~ global "conv_thresh" (conv_thresh g) ;;
  ret (renormalization structure (sd_supercell_matrix sd) cs fcs (param self)
         tT.2 nconfig conv_thresh imaginary_tol).

Definition thermal_keys : list string :=
  ["temperature"; "free_energy"; "entropy"; "heat_capacity";
   "gruneisen"; "thermal_expansion"; "expansion_ratio"].

(** [thermal_data[key].append(result[key][0])]. *)
Definition append_key (r : renorm_result)
    (thermal_data : gmap string (list value)) (key : string)
    : task world (gmap string (list value)) :=
  column <~ getitem thermal_data key ;;
  values <~ item r key ;;
  v <~ index values 0 ;;
  ret (<[key := column ++ [v]]> thermal_data).

(** The body of [for t, result in enumerate(renorm_results)]; it assigns
    [T] before it formats the file names. *)
Definition write_renormalized
    (acc : option Qc * gmap string (list value))
    (res : option renorm_result)
    : task world (option Qc * gmap string (list value)) :=
  match res with
  | None => raise (TypeError "'NoneType' object is not subscriptable")
  | Some r =>
      T0 <~ index (temperature r) 0 ;;
      let T := Some T0 in
      fcs <~ index (r_fcs r) 0 ;;
      T1 <~ local "T" T ;;
      write (fcs_name T1) (FcsFile fcs) ;;;
      T2 <~ local "T" T ;;
      p <~ index (r_param r) 0 ;;
      write (parameters_name T2) (ParametersTxt p) ;;;
      thermal_data <~ fold_task (append_key r) acc.2 thermal_keys ;;
      (if bool_decide (0 < n_imaginary r)%Z then ret tt
       else T3 <~ local "T" T ;; write (phonopy_name T3) (PhonopyText fcs)) ;;;
      ret (T, thermal_data)
  end.

(** [d.pop(key)] on the dict of lists. *)
Definition pop (key : string) (d : gmap string (list value))
    : task world (gmap string (list value)) :=
  getitem d key ;;; ret (delete key d).

Definition run_task (g : globals) (self : params) : task world unit :=
  let imaginary_tol := default IMAGINARY_TOL (imaginary_tol self) in
  let fit_method := default FIT_METHOD (fit_method self) in
  structure_data <~ load_structure_data "structure_data.json" ;;
  let parent_structure := sd_structure structure_data in
  let supercell_atoms := get_atoms (sd_supercell_structure structure_data) in
  let bulk_modulus := bulk_modulus self in
  let T_renorm := default T_RENORM (T_renorm self) in
  renorm_results <~
    map_task (first_pass g self structure_data imaginary_tol) T_renorm ;;
  l <~ fold_task (partition_result bulk_modulus)
         {| T := None; result := None; T_real := []; cte_real := [];
            fcs_real := []; param_real := [] |} renorm_results ;;
  if decide (length (T_real l) = 0%nat) then ret tt
  else if bool_decide (length (T_real l) = 1%nat)
          && bool_decide (T_real l !! 0%nat = Some 0%Qc) then
    res <~ local "result" (result l) ;;
    match res with
    | None => raise (TypeError "'NoneType' object is not subscriptable")
    | Some r => write_directly (T l) r
    end
  else
    let ind := argsort (T_real l) in
    T_real <~ take_indices (T_real l) ind ;;
    cte_real <~ take_indices (cte_real l) ind ;;
    thermal_expansion <~ global "thermal_expansion" (thermal_expansion_fn g) ;;
    let dLfrac_real := thermal_expansion T_real cte_real in
    setup_TE_renorm <~ global "setup_TE_renorm" (setup_TE_renorm g) ;;
    let TE := setup_TE_renorm parent_structure T_real dLfrac_real in
    renorm_results <~
      map_task (second_pass g self structure_data imaginary_tol TE)
        (enumerate T_real) ;;
    let thermal_data : gmap string (list value) :=
      list_to_map ((fun key => (key, [])) <$> thermal_keys) in
    acc <~ fold_task write_renormalized (T l, thermal_data) renorm_results ;;
    thermal_data <~ pop "n_imaginary" acc.2 ;;
    write "thermal_data_renorm.json" (ListsJson thermal_data).

(** A record goes to the direct write when it has imaginary modes or when
    no bulk modulus was given. *)
Definition direct (bulk_modulus : option Data) (res : option renorm_result)
    : Prop :=
  exists r, res = Some r /\ ((0 < n_imaginary r)%Z \/ bulk_modulus = None).

(** The files of the second pass. *)
Definition renormalized_file (e : event) : Prop :=
  exists T, e = Wrote (fcs_name T) \/ e = Wrote (parameters_name T) \/
            e = Wrote (phonopy_name T).

End Task.
End RunHiPhiveRenorm.

(** ** The numpy operations of RunShengBTE *)

Module Np.

(** *** The two dtypes

    [np.array] of a list of Python ints that fit in 64 bits is an array of
    dtype int64; of a list that holds a float, an array of dtype float64
    (the ints of the list are converted). These are the arrays covered
    here, one-dimensional; a float64 is an IEEE 754 binary64 value, with
    the operations of [SpecFloat]. *)
Abbreviation float64 := spec_float.

Definition prec : Z := 53.
Definition emax : Z := 1024.

Definition isnan (x : float64) : bool :=
  match x with
  | S754_nan => true
  | _ => false
  end.

(** The conversion of an integer to float64, to the nearest value, ties
    to even. *)
Definition float_of_int (n : Z) : float64 :=
  binary_normalize prec emax n 0 false.

(** The result of an int64 operation whose exact result is [n]: the
    arithmetic wraps around. *)
Definition wrap (n : Z) : Z := ((n + 2 ^ 63) `mod` 2 ^ 64 - 2 ^ 63)%Z.

(** [np.int64] and [np.float64] scalars. *)
Inductive scalar : Type :=
| Int64 (n : Z)
| Float64 (x : float64).

Inductive ndarray : Type :=
| IntArray (l : list Z)
| FloatArray (l : list float64).

(** What the task uses of the scalars of a dtype. *)
Record dtype (A : Type) : Type := Dtype {
  less_equal : A -> A -> bool;     (* x <= y *)
  nan : A -> bool;                 (* np.isnan(x) *)
  equal_zero : A -> bool;          (* x == 0 *)
  subtract : A -> A -> A;          (* x - y *)
  to_float : A -> float64;         (* the operand of a true division *)
  item : A -> scalar;
}.
Arguments less_equal {A}. Arguments nan {A}. Arguments equal_zero {A}.
Arguments subtract {A}. Arguments to_float {A}. Arguments item {A}.

Definition int64 : dtype Z :=
  {| less_equal x y := (x <=? y)%Z;
     nan _ := false;
     equal_zero x := (x =? 0)%Z;
     subtract x y := wrap (x - y);
     to_float := float_of_int;
     item := Int64 |}.

Definition float64_ : dtype float64 :=
  {| less_equal x y := SFleb x y;
     nan := isnan;
     equal_zero x := SFeqb x (S754_zero false);
     subtract x y := SFsub prec emax x y;
     to_float x := x;
     item := Float64 |}.

Section Dtype.
Context {A : Type} (d : dtype A).

(** The step of the reductions [np.maximum.reduce], [np.minimum.reduce]:
    a [nan] is kept once met. Of two equal values the one met first is
    kept. *)
Definition max2 (x y : A) : A :=
  if less_equal d y x || nan d x then x else y.
Definition min2 (x y : A) : A :=
  if less_equal d x y || nan d x then x else y.

(** [np.max(np.array(l))] and [np.min(np.array(l))]. *)
Definition max {S} (l : list A) : task S A :=
  match l with
  | [] => raise (ValueError "zero-size array to reduction operation maximum which has no identity")
  | x :: l' => ret (foldl max2 x l')
  end.

Definition min {S} (l : list A) : task S A :=
  match l with
  | [] => raise (ValueError "zero-size array to reduction operation minimum which has no identity")
  | x :: l' => ret (foldl min2 x l')
  end.

(** The order of a sort: [nan] comes last. *)
Definition sorts_before (x y : A) : Prop :=
  nan d y || (negb (nan d x) && less_equal d x y).

(** [np.partition(l, kth)[kth]]: the element that a sort puts at [kth]. *)
Definition partition_at {S} (l : list A) (kth : nat) : task S A :=
  match merge_sort sorts_before l !! kth with
  | Some x => ret x
  | None => raise (ValueError "kth out of bounds")
  end.

(** [x / n] for a numpy scalar [x] and a Python [int] [n]: both become
    float64 and are divided as such; numpy warns on a zero divisor and
    returns the special value. *)
Definition true_divide (x : A) (n : Z) : float64 :=
  SFdiv prec emax (to_float d x) (float_of_int n).

(** The comparison as a relation. *)
Definition le (x y : A) : Prop := less_equal d x y.

End Dtype.

(** The words of the specification: the largest and the smallest value of
    a sequence under an order, and the value that is smallest once one
    occurrence of the smallest is set aside. *)
Section Words.
Context {A : Type} (R : relation A).

Definition maximum (l : list A) (x : A) : Prop :=
  x ∈ l /\ Forall (fun y => R y x) l.

Definition minimum (l : list A) (x : A) : Prop :=
  x ∈ l /\ Forall (fun y => R x y) l.

Definition second_smallest (l : list A) (x : A) : Prop :=
  exists m rest, l ≡ₚ m :: rest /\ minimum l m /\ minimum rest x.

End Words.

(** [x <= y] on float64. *)
Definition float_le (x y : float64) : Prop := SFleb x y.

Section Order.
Context {A : Type} (d : dtype A).

(** The minimum is exactly zero. *)
Definition minimum_zero (l : list A) : Prop :=
  exists m, minimum (le d) l m /\ equal_zero d m.

(** What the reductions and the sort rely on: away from [nan] the
    comparison is a total preorder, and values that compare equal are zero
    together. *)
Definition ordered : Prop :=
  (forall x y, nan d x = false -> nan d y = false ->
     less_equal d x y \/ less_equal d y x) /\
  (forall x y z, less_equal d x y -> less_equal d y z -> less_equal d x z) /\
  (forall x y, less_equal d x y -> less_equal d y x ->
     equal_zero d x = equal_zero d y) /\
  (forall x y, less_equal d x y -> nan d x = false /\ nan d y = false).

End Order.

(** The number that a finite float64 stands for. *)
Definition value (x : float64) : option Qc :=
  match x with
  | S754_zero _ => Some 0%Qc
  | S754_finite s m e =>
      let m := if s then Z.neg m else Z.pos m in
      Some (if decide (0 <= e)%Z then Qc_of_Z (m * 2 ^ e)
            else (Qc_of_Z m / Qc_of_Z (2 ^ (- e)))%Qc)
  | _ => None
  end.

(** The words of the specification: [step] is [(hi - lo) / (n - k)]. *)
Definition quotient (lo hi : Qc) (n k : Z) (step : float64) : Prop :=
  value step = Some ((hi - lo) / Qc_of_Z (n - k))%Qc.

End Np.

(** ** RunShengBTE *)

Module RunShengBTE.
Section Task.
Context `{Domain}.

(** What [self.get("temperature", T_KLAT)] can be, by the [isinstance]
    tests of the task. *)
Inductive temperature_value : Type :=
| TNumber (x : Qc)                 (* int, float *)
| TSequence (a : Np.ndarray)       (* list, np.ndarray: [np.array] of it *)
| TDict (d : gmap string Qc)       (* dict *)
| TOther (repr : string).          (* anything else: None, a str, a tuple *)

(** What the task stores under [t_min], [t_max] and [t_step]: a value of
    the dict, or a numpy scalar. *)
Inductive number : Type :=
| PyNumber (q : Qc)
| NpScalar (x : Np.scalar).

Inductive control_value : Type :=
| CBool (b : bool)
| CNum (q : Qc)
| CTemperature (t : temperature_value)
| CData (d : Data).

Inductive command : Type :=
| CmdString (s : string)
| CmdList (l : list string).

(** The task object is a dict: its parameters, and the keys the task adds
    to itself. *)
Record params : Type := Params {
  shengbte_cmd : option command;
  temperature : option temperature_value;
  control_kwargs : option (gmap string control_value);
  t : option Qc;
  t_min : option number;
  t_max : option number;
  t_step : option number;
}.

Record state : Type := State {
  self : params;
  cwd : world;
}.

Definition in_cwd {A} (m : task world A) : task state A :=
  fun s =>
    let '(o, w) := m (cwd s) in (o, {| self := self s; cwd := w |}).

Definition get_self : task state params := fun s => (Returned (self s), s).

Definition update_self (f : params -> params) : task state unit :=
  fun s => (Returned tt, {| self := f (self s); cwd := cwd s |}).

Definition set_t (x : Qc) (p : params) : params :=
  {| shengbte_cmd := shengbte_cmd p; temperature := temperature p;
     control_kwargs := control_kwargs p;
     t := Some x; t_min := t_min p; t_max := t_max p; t_step := t_step p |}.
Definition set_t_min (x : number) (p : params) : params :=
  {| shengbte_cmd := shengbte_cmd p; temperature := temperature p;
     control_kwargs := control_kwargs p;
     t := t p; t_min := Some x; t_max := t_max p; t_step := t_step p |}.
Definition set_t_max (x : number) (p : params) : params :=
  {| shengbte_cmd := shengbte_cmd p; temperature := temperature p;
     control_kwargs := control_kwargs p;
     t := t p; t_min := t_min p; t_max := Some x; t_step := t_step p |}.
Definition set_t_step (x : number) (p : params) : params :=
  {| shengbte_cmd := shengbte_cmd p; temperature := temperature p;
     control_kwargs := control_kwargs p;
     t := t p; t_min := t_min p; t_max := t_max p; t_step := Some x |}.

Variable T_KLAT : temperature_value.

(** [np.diag(supercell_matrix).tolist()]. *)
Variable diag : Matrix -> Data.
(** [Control().from_structure(structure, **control_dict)]; pymatgen raises
    on the keywords it does not accept. *)
Variable from_structure :
  Structure -> gmap string control_value -> outcome Control.
(** [env_chk(cmd, fw_spec)]. *)
Variable env_chk : command -> command.
(** [shlex.split(os.path.expandvars(s))]. *)
Variable shlex_split : string -> list string.
(** [subprocess.call(cmd, stdout=f_std, stderr=f_err)]: the exit code and
    the directory as the process leaves it, or the exception raised when
    the process cannot be started. *)
Variable subprocess_call :
  list string -> gmap string artifact -> outcome (Z * gmap string artifact).
(** [os.getcwd()]. *)
Variable getcwd : string.

(** Lines 525-531: the branch of a list or an array, on the scalars of
    its dtype. *)
Definition sequence_parameters {A} (d : Np.dtype A) (temperature : list A)
    : task state (A * A * Np.float64) :=
  t_max <~ Np.max d temperature ;;
  t_min <~ Np.min d temperature ;;
  if Np.equal_zero d t_min then
    t_min <~ Np.partition_at d temperature 1 ;;
    let t_step :=
      Np.true_divide d (Np.subtract d t_max t_min)
        (Z.of_nat (length temperature) - 2) in
    ret (t_min, t_max, t_step)
  else
    let t_step :=
      Np.true_divide d (Np.subtract d t_max t_min)
        (Z.of_nat (length temperature) - 1) in
    ret (t_min, t_max, t_step).

(** Lines 525-534. *)
Definition store_sequence {A} (d : Np.dtype A) (temperature : list A)
    : task state unit :=
  p <~ sequence_parameters d temperature ;;
  update_self (set_t_min (NpScalar (Np.item d p.1.1))) ;;;
  update_self (set_t_max (NpScalar (Np.item d p.1.2))) ;;;
  update_self (set_t_step (NpScalar (Np.Float64 p.2))).

(** Lines 522-540. *)
Definition set_temperature (temperature : temperature_value) : task state unit :=
  match temperature with
  | TNumber x => update_self (set_t x)
  | TSequence (Np.IntArray l) => store_sequence Np.int64 l
  | TSequence (Np.FloatArray l) => store_sequence Np.float64_ l
  | TDict d =>
      lo <~ getitem d "min" ;;
      update_self (set_t_min (PyNumber lo)) ;;;
      hi <~ getitem d "max" ;;
      update_self (set_t_max (PyNumber hi)) ;;;
      step <~ getitem d "step" ;;
      update_self (set_t_step (PyNumber step))
  | TOther _ =>
      raise (ValueError "Unsupported temperature type, must be float or dict")
  end.

Definition control_dict (me : params) (supercell_matrix : Matrix)
    : gmap string control_value :=
  <["scalebroad" := CNum (Q2Qc (1 # 2))]>
  (<["nonanalytic" := CBool false]>
  (<["isotopes" := CBool false]>
  (<["temperature" := CTemperature (default T_KLAT (temperature me))]>
  (<["scell" := CData (diag supercell_matrix)]> ∅)))).

(** The [with] block: both streams are opened for writing, then the
    process runs, unless it cannot be started. *)
Definition call (cmd : list string) : task world Z :=
  write "shengbte.out" (TextFile "") ;;;
  write "shengbte_err.txt" (TextFile "") ;;;
  fun w =>
    match subprocess_call cmd (files w) with
    | Returned r =>
        (Returned r.1, {| files := r.2; log := log w ++ [Ran cmd] |})
    | Raised e => (Raised e, w)
    end.

(** The words of the specification: from [s] to [s'] the task has stored
    the three parameters, and nothing else has changed. *)
Definition stores (s s' : state) (lo hi step : number) : Prop :=
  (t_min (self s') = Some lo) /\ (t_max (self s') = Some hi) /\
  (t_step (self s') = Some step) /\
  (t (self s') = t (self s)) /\
  (shengbte_cmd (self s') = shengbte_cmd (self s)) /\
  (temperature (self s') = temperature (self s)) /\
  (control_kwargs (self s') = control_kwargs (self s)) /\
  (cwd s' = cwd s).

Definition failed_message : string :=
  "Running ShengBTE failed. Check '" +:+ getcwd +:+
  "/shengbte_err.txt' for details.".

(** Everything up to the call of the solver: lines 517-561. *)
Definition prepare : task state (list string) :=
  structure_data <~ in_cwd (load_structure_data "structure_data.json") ;;
  let structure := sd_structure structure_data in
  let supercell_matrix := sd_supercell_matrix structure_data in
  me <~ get_self ;;
  set_temperature (default T_KLAT (temperature me)) ;;;
  me <~ get_self ;;
  let control_dict := control_dict me supercell_matrix in
  let control_kwargs := default ∅ (control_kwargs me) in
  let control_dict := control_kwargs ∪ control_dict in
  control <~ lift (from_structure structure control_dict) ;;
  in_cwd (write "CONTROL" (ControlFile control)) ;;;
  cmd <~ match shengbte_cmd me with
         | Some c => ret c
         | None => raise (KeyError "shengbte_cmd")
         end ;;
  let shengbte_cmd :=
    match env_chk cmd with
    | CmdString s => shlex_split s
    | CmdList l => l
    end in
  ret shengbte_cmd.

Definition run_task : task state unit :=
  shengbte_cmd <~ prepare ;;
  return_code <~ in_cwd (call shengbte_cmd) ;;
  if decide (return_code = 1%Z) then raise (RuntimeError failed_message)
  else ret tt.

End Task.
End RunShengBTE.

(** ** ShengBTEToDb: the table of thermal conductivities, lines 616-622 *)

Module ShengBTEToDb.
Section Parse.
Context {A S : Type}.

(** What [np.loadtxt] returns: the array is squeezed, so a file with one
    row (or one column) gives one dimension, a single number none. *)
Inductive ndarray : Type :=
| Scalar (x : A)
| Vector (v : list A)
| Table (rows : list (list A)).

Definition ndim (a : ndarray) : nat :=
  match a with
  | Scalar _ => 0
  | Vector _ => 1
  | Table _ => 2
  end.

(** [bte_data[None, :]]. *)
Definition pad (a : ndarray) : ndarray :=
  match a with
  | Vector v => Table [v]
  | _ => a
  end.

(** [bte_data[:, 0].tolist()]. *)
Definition column_0 (a : ndarray) : task S (list A) :=
  match a with
  | Table rows => map_task (fun row => index row 0) rows
  | _ => raise (IndexError "too many indices for array")
  end.

(** [bte_data[:, 1:10]]: a slice never raises, it is cut at the width of
    the table. *)
Definition columns_1_10 (a : ndarray) : task S (list (list A)) :=
  match a with
  | Table rows => ret ((fun row => take 9 (drop 1 row)) <$> rows)
  | _ => raise (IndexError "too many indices for array")
  end.

(** [.reshape(-1, 3, 3)] on the values in row-major order. *)
Fixpoint reshape_3_3 (flat : list A) : option (list (list (list A))) :=
  match flat with
  | [] => Some []
  | a :: b :: c :: d :: e :: f :: g :: h :: i :: rest =>
      match reshape_3_3 rest with
      | Some tensors => Some ([[a; b; c]; [d; e; f]; [g; h; i]] :: tensors)
      | None => None
      end
  | _ => None
  end.

Definition reshape (block : list (list A)) : task S (list (list (list A))) :=
  match reshape_3_3 (concat block) with
  | Some tensors => ret tensors
  | None => raise (ValueError "cannot reshape array into shape (3,3)")
  end.

Definition parse (bte_data : ndarray) : task S (list A * list (list (list A))) :=
  let bte_data := if decide (ndim bte_data = 1%nat) then pad bte_data else bte_data in
  temperatures <~ column_0 bte_data ;;
  block <~ columns_1_10 bte_data ;;
  kappa <~ reshape block ;;
  ret (temperatures, kappa).

(** The words of the specification: the tensor of a row holds its columns
    1 to 9, three to a line. *)
Definition tensor_of_row (row : list A) (tensor : list (list A)) : Prop :=
  exists k11 k12 k13 k21 k22 k23 k31 k32 k33,
    tensor = [[k11; k12; k13]; [k21; k22; k23]; [k31; k32; k33]] /\
    row !! 1%nat = Some k11 /\ row !! 2%nat = Some k12 /\
    row !! 3%nat = Some k13 /\ row !! 4%nat = Some k21 /\
    row !! 5%nat = Some k22 /\ row !! 6%nat = Some k23 /\
    row !! 7%nat = Some k31 /\ row !! 8%nat = Some k32 /\
    row !! 9%nat = Some k33.

Definition temperature_of_row (row : list A) (T : A) : Prop :=
  row !! 0%nat = Some T.

End Parse.
Arguments ndarray A : clear implicits.
End ShengBTEToDb.

(** ** _get_fc_fitting_id *)

Module FcFittingId.

(** A document of the [counter] collection: its integer fields, the [_id]
    being the key under which the collection holds it. *)
Abbreviation document := (gmap string Z).
Abbreviation collection := (gmap string document).

(** [find_one_and_update({"_id": id}, {"$inc": {field: amount}},
    return_document=ReturnDocument.AFTER)]: one operation of the server. *)
Definition find_one_and_update (id field : string) (amount : Z)
    : task collection (option document) :=
  fun db =>
    match db !! id with
    | None => (Returned None, db)
    | Some doc =>
        let doc' := <[field := (default 0 (doc !! field) + amount)%Z]> doc in
        (Returned (Some doc'), <[id := doc']> db)
    end.

(** [insert({"_id": id, ...})]: one operation of the server; [_id] is unique. *)
Definition insert (id : string) (doc : document) : task collection unit :=
  fun db =>
    match db !! id with
    | None => (Returned tt, <[id := doc]> db)
    | Some _ => (Raised (DuplicateKeyError id), db)
    end.

Definition _get_fc_fitting_id : task collection Z :=
  fc_id <~ find_one_and_update "fc_fitting_id" "c" 1 ;;
  match fc_id with
  | None => insert "fc_fitting_id" {[ "c" := 1%Z ]} ;;; ret 1%Z
  | Some doc => getitem doc "c"
  end.

(** *** Several callers on one collection

    Each caller is at one of the points of [_get_fc_fitting_id] between two
    operations of the server; the operations themselves are indivisible. *)
Inductive caller : Type :=
| Start                 (* before [find_one_and_update] *)
| FoundNone             (* [fc_id is None], before [insert] *)
| Done (fc_id : Z)      (* returned [fc_id] *)
| Failed (e : exn).     (* raised *)

Definition after_find (o : outcome (option document)) : caller :=
  match o with
  | Returned None => FoundNone
  | Returned (Some doc) =>
      match doc !! "c" with
      | Some c => Done c
      | None => Failed (KeyError "c")
      end
  | Raised e => Failed e
  end.

Definition after_insert (o : outcome unit) : caller :=
  match o with
  | Returned _ => Done 1
  | Raised e => Failed e
  end.

Inductive step : collection * list caller -> collection * list caller -> Prop :=
| step_find db callers i :
    callers !! i = Some Start ->
    step (db, callers)
         (let r := find_one_and_update "fc_fitting_id" "c" 1 db in
          (r.2, <[i := after_find r.1]> callers))
| step_insert db callers i :
    callers !! i = Some FoundNone ->
    step (db, callers)
         (let r := insert "fc_fitting_id" {[ "c" := 1%Z ]} db in
          (r.2, <[i := after_insert r.1]> callers)).

(** The ids handed out so far. *)
Definition fc_id_of (c : caller) : option Z :=
  match c with
  | Done fc_id => Some fc_id
  | _ => None
  end.

Definition allocated (callers : list caller) : list Z :=
  omap fc_id_of callers.

(** The value of the counter, [None] without a counter document. *)
Definition counter (db : collection) : option Z :=
  doc ← db !! "fc_fitting_id"; Some (default 0%Z (doc !! "c")).

(** What holds of every configuration that callers starting together can
    reach: no id was handed out twice, and every id handed out is at most
    the value the counter document holds. *)
Definition consistent (cfg : collection * list caller) : Prop :=
  NoDup (allocated cfg.2) /\
  forall fc_id, fc_id ∈ allocated cfg.2 ->
    exists c, counter cfg.1 = Some c /\ (fc_id <= c)%Z.

(** [k] calls one after the other, and the ids they return. *)
Fixpoint calls (k : nat) : task collection (list Z) :=
  match k with
  | O => ret []
  | S k' =>
      fc_id <~ _get_fc_fitting_id ;;
      fc_ids <~ calls k' ;;
      ret (fc_id :: fc_ids)
  end.

(** A caller that neither waits between its two operations nor raised. *)
Definition undisturbed (c : caller) : Prop :=
  c = Start \/ exists fc_id, c = Done fc_id.

(** What holds of every configuration reached from a counter document
    that held [n] when the callers started: the ids handed out are the
    next ones after [n], none is skipped, and the counter holds the last. *)
Definition in_sequence (n : Z) (cfg : collection * list caller) : Prop :=
  Forall undisturbed cfg.2 /\
  allocated cfg.2 ≡ₚ seqZ (n + 1) (Z.of_nat (length (allocated cfg.2))) /\
  counter cfg.1 = Some (n + Z.of_nat (length (allocated cfg.2)))%Z.

End FcFittingId.

(** ** The database of the persistence tasks

    The tasks hold a connection [mmdb]; what they do to the database is the
    allocation of a fitting id in the [counter] collection, modelled above,
    and inserts, kept here as the journal of what was inserted where. The
    grid storage is a parameter of the tasks that use it. *)

Module Database.
Section Database.
Context `{Domain}.
Context {Grid : Type}.

(** The value of a key of an inserted document. *)
Inductive field : Type :=
| FNone                                   (* None *)
| FInt (n : Z)
| FStr (s : string)
| FData (d : Data)
| FDataList (l : list Data)
| FMatrix (m : Matrix)
| FDict (d : gmap string value)
| FNumbers (l : list Qc)
| FTensors (l : list (list (list Qc))).

Record database : Type := Db {
  counter : FcFittingId.collection;
  inserted : list (string * gmap string field);
  grid : Grid;
}.

(** The working directory and the database of a task. *)
Record site : Type := Site {
  cwd : world;
  db : database;
}.

Definition in_cwd {A} (m : task world A) : task site A :=
  fun s => ((m (cwd s)).1, {| cwd := (m (cwd s)).2; db := db s |}).

Definition in_counter {A} (m : task FcFittingId.collection A) : task site A :=
  fun s =>
    ((m (counter (db s))).1,
     {| cwd := cwd s;
        db := {| counter := (m (counter (db s))).2;
                 inserted := inserted (db s); grid := grid (db s) |} |}).

(** [mmdb.db[collection].insert_one(data)]. *)
Definition insert_one (collection : string) (data : gmap string field)
    : task site unit :=
  fun s =>
    (Returned tt,
     {| cwd := cwd s;
        db := {| counter := counter (db s);
                 inserted := inserted (db s) ++ [(collection, data)];
                 grid := grid (db s) |} |}).

(** [d.get(key, None)]. *)
Definition get_or_none (d : gmap string field) (key : string) : field :=
  default FNone (d !! key).

(** The value the counter holds after the next allocation: one more than
    what it holds now, 1 without a counter document. *)
Definition next_id (s : site) : Z :=
  (default 0 (FcFittingId.counter (counter (db s))) + 1)%Z.

End Database.
Arguments database {_} Grid.
Arguments site {_} Grid.
End Database.

(** ** ForceConstantsToDb and _get_fc_fsid *)

Module ForceConstantsToDb.
Section Task.
Import Database.
Context `{Domain}.
Context {Grid ObjectId FcArray : Type}.

Record params : Type := Params {
  renormalized : option bool;
  mesh_density : option Data;
  additional_fields : option (gmap string (@field _));
}.

(** [MESH_DENSITY = 100.0]. *)
Variable MESH_DENSITY : Data.

(** [mmdb.insert_gridfs(payload, collection=...)], its first result. *)
Variable insert_gridfs : string -> string -> Grid -> ObjectId * Grid.
(** How an [ObjectId] is kept in a document. *)
Variable FObjectId : ObjectId -> @field _.

(** [fcs.get_fc_array(order=2)]. *)
Variable get_fc_array : ForceConstants -> FcArray.
(** [get_phonon_band_structure_from_fc(...).to_json()] and its two
    siblings. *)
Variable uniform_bs_json : Structure -> Matrix -> FcArray -> string.
Variable lm_bs_json : Structure -> Matrix -> FcArray -> string.
Variable dos_json : Structure -> Matrix -> FcArray -> Data -> string.
(** [json.dumps({str(k): v.tolist() for k, v in fcs.get_fc_dict().items()})]. *)
Variable fc_json : ForceConstants -> string.

(** [structure.as_dict()], [structure.composition.reduced_formula],
    [f.tolist()]. *)
Variable as_dict : Structure -> Data.
Variable reduced_formula : Structure -> string.
Variable tolist : Forces -> Data.
(** [datetime.utcnow()], [os.getcwd()]. *)
Variable utcnow : Data.
Variable getcwd : string.
(** [jsanitize(v, strict=True, allow_bson=True)] on the value of a key;
    on a dict it keeps the keys and sanitizes the values. *)
Variable sanitize : @field _ -> @field _.

Definition gridfs (payload collection : string) : task (site Grid) ObjectId :=
  fun s =>
    let r := insert_gridfs payload collection (grid (db s)) in
    (Returned r.1,
     {| cwd := cwd s;
        db := {| counter := counter (db s); inserted := inserted (db s);
                 grid := r.2 |} |}).

Definition _get_fc_fsid (structure : Structure) (supercell_matrix : Matrix)
    (fcs : ForceConstants) (mesh_density : Data)
    : task (site Grid) (ObjectId * ObjectId * ObjectId * ObjectId) :=
  let phonopy_fc := get_fc_array fcs in
  let uniform_bs := uniform_bs_json structure supercell_matrix phonopy_fc in
  let lm_bs := lm_bs_json structure supercell_matrix phonopy_fc in
  let dos := dos_json structure supercell_matrix phonopy_fc mesh_density in
  dos_fsid <~ gridfs dos "phonon_dos_fs" ;;
  uniform_bs_fsid <~ gridfs uniform_bs "phonon_bandstructure_fs" ;;
  lm_bs_fsid <~ gridfs lm_bs "phonon_bandstructure_fs" ;;
  fc_fsid <~ gridfs (fc_json fcs) "phonon_force_constants_fs" ;;
  ret (dos_fsid, uniform_bs_fsid, lm_bs_fsid, fc_fsid).

Definition load_dict (path : string) : task world (gmap string value) :=
  a <~ loadfn path ;;
  match a with
  | DictJson d => ret d
  | _ => raise (TypeError path)
  end.

(** [ForceConstants.read(path)]. *)
Definition read_fcs (path : string) : task world ForceConstants :=
  a <~ loadfn path ;;
  match a with
  | FcsFile fcs => ret fcs
  | _ => raise (TypeError path)
  end.

(** The files the task reads, in the order it reads them. *)
Definition inputs : list string :=
  ["structure_data.json"; "perturbed_forces.json";
   "perturbed_structures.json"; "fitting_data.json";
   "thermal_data_qha.json"; "force_constants.fcs"].

Definition metadata (fitting_id : Z) : gmap string (@field _) :=
  <["fc_fitting_id" := FInt fitting_id]> {[ "fc_fitting_dir" := FStr getcwd ]}.

(** The dict built at lines 375-390, before any [update]. *)
Definition document (tags : @field _) (sd : structure_data)
    (structures : list Structure) (forces : list Forces)
    (fitting_data thermal_data : gmap string value)
    (ids : ObjectId * ObjectId * ObjectId * ObjectId)
    : gmap string (@field _) :=
  <["created_at" := FData utcnow]>
  (<["tags" := tags]>
  (<["formula_pretty" := FStr (reduced_formula (sd_structure sd))]>
  (<["structure" := FData (as_dict (sd_structure sd))]>
  (<["supercell_matrix" := FMatrix (sd_supercell_matrix sd)]>
  (<["supercell_structure" := FData (as_dict (sd_supercell_structure sd))]>
  (<["perturbed_structures" := FDataList (as_dict <$> structures)]>
  (<["perturbed_forces" := FDataList (tolist <$> forces)]>
  (<["fitting_data" := FDict fitting_data]>
  (<["thermal_data" := FDict thermal_data]>
  (<["force_constants_fs_id" := FObjectId ids.2]>
  (<["phonon_dos_fs_id" := FObjectId ids.1.1.1]>
  (<["phonon_bandstructure_uniform_fs_id" := FObjectId ids.1.1.2]>
  (<["phonon_bandstructure_line_fs_id" := FObjectId ids.1.2]> ∅))))))))))))).

(** The task returns [FWAction(update_spec=metadata)]. *)
Definition run_task (self : params) (fw_spec : gmap string (@field _))
    : task (site Grid) (gmap string (@field _)) :=
  let renormalized := default false (renormalized self) in
  let mesh_density := default MESH_DENSITY (mesh_density self) in
  structure_data <~ in_cwd (load_structure_data "structure_data.json") ;;
  forces <~ in_cwd (load_forces "perturbed_forces.json") ;;
  structures <~ in_cwd (load_structures "perturbed_structures.json") ;;
  let structure := sd_structure structure_data in
  let supercell_matrix := sd_supercell_matrix structure_data in
  fitting_data <~ in_cwd (load_dict "fitting_data.json") ;;
  thermal_data <~ in_cwd (load_dict "thermal_data_qha.json") ;;
  fcs <~ in_cwd (read_fcs "force_constants.fcs") ;;
  ids <~ _get_fc_fsid structure supercell_matrix fcs mesh_density ;;
  let data :=
    document (get_or_none fw_spec "tags") structure_data structures forces
      fitting_data thermal_data ids in
  let data := default ∅ (additional_fields self) ∪ data in
  fitting_id <~ in_counter FcFittingId._get_fc_fitting_id ;;
  let metadata := metadata fitting_id in
  let data := metadata ∪ data in
  let data := sanitize <$> data in
  insert_one "lattice_dynamics" data ;;;
  ret metadata.

End Task.
End ForceConstantsToDb.

(** ** ShengBTEToDb, the whole task *)

Module ShengBTEToDbTask.
Section Task.
Import Database.
Context `{Domain}.
Context {Grid : Type}.

Record params : Type := Params {
  additional_fields : option (gmap string (@field _));
}.

(** [control.get_structure()], [np.diag(control["scell"]).tolist()],
    [control.as_dict()]. *)
Variable get_structure : Control -> Structure.
Variable scell_matrix : Control -> Data.
Variable control_as_dict : Control -> Data.
(** [np.loadtxt] on what the file holds. *)
Variable loadtxt : artifact -> outcome (ShengBTEToDb.ndarray Qc).
Variable as_dict : Structure -> Data.
Variable reduced_formula : Structure -> string.
Variable utcnow : Data.
Variable getcwd : string.

(** [Control().from_file(path)]. *)
Definition from_file (path : string) : task world Control :=
  a <~ loadfn path ;;
  match a with
  | ControlFile c => ret c
  | _ => raise (TypeError path)
  end.

(** [Path(path).exists()]. *)
Definition exists_ (path : string) : task world bool :=
  fun w => (Returned (bool_decide (is_Some (files w !! path))), w).

(** Lines 609-614. *)
Definition output_file : task world string :=
  conv <~ exists_ "BTE.KappaTensorVsT_CONV" ;;
  if conv then ret "BTE.KappaTensorVsT_CONV"
  else
    rta <~ exists_ "BTE.KappaTensorVsT_RTA" ;;
    if rta then ret "BTE.KappaTensorVsT_RTA"
    else raise (RuntimeError "Could not find ShengBTE output files.").

(** The dict built at lines 624-636. *)
Definition document (control : Control) (temperatures : list Qc)
    (kappa : list (list (list Qc))) (fw_spec : gmap string (@field _))
    : gmap string (@field _) :=
  let structure := get_structure control in
  <["structure" := FData (as_dict structure)]>
  (<["supercell_matrix" := FData (scell_matrix control)]>
  (<["temperatures" := FNumbers temperatures]>
  (<["lattice_thermal_conductivity" := FTensors kappa]>
  (<["control" := FData (control_as_dict control)]>
  (<["tags" := get_or_none fw_spec "tags"]>
  (<["formula_pretty" := FStr (reduced_formula structure)]>
  (<["shengbte_dir" := FStr getcwd]>
  (<["fc_fitting_id" := get_or_none fw_spec "fc_fitting_id"]>
  (<["fc_fitting_dir" := get_or_none fw_spec "fc_fitting_dir"]>
  (<["created_at" := FData utcnow]> ∅)))))))))).

Definition run_task (self : params) (fw_spec : gmap string (@field _))
    : task (site Grid) unit :=
  control <~ in_cwd (from_file "CONTROL") ;;
  filename <~ in_cwd output_file ;;
  content <~ in_cwd (loadfn filename) ;;
  bte_data <~ lift (loadtxt content) ;;
  parsed <~ ShengBTEToDb.parse bte_data ;;
  let data := document control parsed.1 parsed.2 fw_spec in
  let data := default ∅ (additional_fields self) ∪ data in
  insert_one "lattice_thermal_conductivity" data.

End Task.
End ShengBTEToDbTask.

(** ** A small instance of the external objects, to run the tasks on *)

Module Sample.

#[local] Instance domain : Domain :=
  {| Structure := string; Matrix := list Z; Forces := list Z; Atoms := string;
     ForceConstants := string; Parameters := list Z; ClusterSpace := string;
     Cutoff := list Z; Phonopy := string; Control := string; Data := Z |}.

Module Collect.
Import CollectPerturbedStructures.

Definition drone (path : string) : outcome Structure :=
  Returned ("relaxed:" +:+ path).

Definition supercell (matrix : Matrix) (s : Structure) : Structure :=
  "supercell:" +:+ s.

Definition sample : perturbed_task :=
  {| parent_structure := "Si2"; supercell_matrix := [2; 2; 2]%Z;
     structure := "Si16 displaced"; forces := [1; -1]%Z |}.

Definition optimization : calc_loc :=
  {| name := "structure optimization"; path := "/calc/a" |}.
Definition tight_optimization : calc_loc :=
  {| name := "tight structure optimization"; path := "/calc/b" |}.
Definition static : calc_loc :=
  {| name := "static"; path := "/calc/c" |}.

Definition spec : fw_spec :=
  {| perturbed_tasks := Some [sample];
     calc_locs := Some [optimization; tight_optimization; static] |}.

Definition no_samples : fw_spec :=
  {| perturbed_tasks := Some []; calc_locs := None |}.

End Collect.

Module HiPhive.
Import RunHiPhive.

Definition get_cutoffs (s : Structure) : list Cutoff := [[5; 4; 3]%Z].
Definition get_atoms (s : Structure) : Atoms := s.
Definition get_displacements (a b : Atoms) : Forces := [].
Definition new_array (key : string) (x : Forces) (a : Atoms) : Atoms := a.
Definition with_positions_of (a b : Atoms) : Atoms := b.

(** No solution for "glass", one for every other parent. *)
Definition fit_force_constants (parent : Structure) (m : Matrix)
    (structures : list Atoms) (cutoffs : list Cutoff) (separate : bool)
    (tol : Data) (method : string)
    : option ForceConstants * Parameters * ClusterSpace * gmap string value :=
  (if decide (parent = "glass") then None else Some ("fcs:" +:+ parent),
   [1; 2]%Z, "cs", {[ "fit_method" := VData 0%Z ]}).

(** Two imaginary modes for "SrTiO3", none for every other parent. *)
Definition harmonic_properties (parent : Structure) (m : Matrix)
    (fcs : ForceConstants) (T tol : Data) : gmap string value * Phonopy :=
  (<["heat_capacity" := VData 25%Z]>
     {[ "n_imaginary" := VInt (if decide (parent = "SrTiO3") then 2 else 0) ]},
   "phonopy").

Definition anharmonic_properties (ph : Phonopy) (fcs : ForceConstants)
    (T : Data) (heat_capacity n_imaginary : value) (bulk : option Data)
    : gmap string value * Phonopy :=
  ({[ "gruneisen" := VData 1%Z ]}, ph).

Definition self : params :=
  {| cutoffs := None; separate_fit := None; bulk_modulus := None;
     imaginary_tol := None; fit_method := None |}.

Definition diagnostics : gmap string value := {[ "fit_method" := VData 0%Z ]}.

Definition heat_capacity : value := VData 25%Z.

Definition thermal_data (n : Z) : gmap string value :=
  <["heat_capacity" := heat_capacity]> {[ "n_imaginary" := VInt n ]}.

Definition context (parent : Structure) : structure_data :=
  {| sd_structure := parent; sd_supercell_structure := "supercell:" +:+ parent;
     sd_supercell_matrix := [2; 2; 2]%Z |}.

Definition directory (parent : Structure) : gmap string artifact :=
  <["perturbed_structures.json" := StructuresJson ["displaced"]]>
  (<["perturbed_forces.json" := ForcesJson [[1; -1]%Z]]>
  (<["structure_data.json" := StructureDataJson (context parent)]> ∅)).

Definition run (parent : Structure) : outcome unit * world :=
  run_task 0%Z "rfe" 300%Z get_cutoffs get_atoms get_displacements new_array
    with_positions_of fit_force_constants harmonic_properties
    anharmonic_properties self (boot (directory parent)).

End HiPhive.

Module Renorm.
Import RunHiPhiveRenorm.

Definition get_atoms (s : Structure) : Atoms := s.

(** One record per temperature, with one imaginary mode at 300 K and none
    elsewhere. *)
Definition record (T : Qc) : renorm_result :=
  {| n_imaginary := if decide (T = Qc_of_Z 300) then 1 else 0;
     r_fcs := ["renormalized fcs"]; r_param := [[7]%Z];
     temperature := [T]; thermal_expansion := [0%Qc];
     thermo :=
       list_to_map
         ((fun key => (key, [0%Z])) <$>
          ["free_energy"; "entropy"; "heat_capacity"; "gruneisen";
           "expansion_ratio"]) |}.

Definition renormalization (s : Structure) (m : Matrix) (cs : ClusterSpace)
    (fcs : ForceConstants) (p : Parameters) (T : Qc)
    (nconfig conv_thresh tol : Data) : option renorm_result :=
  Some (record T).

Definition argsort (l : list Qc) : list nat := seq 0 (length l).

(** Integral temperatures print as their integer. *)
Definition str (T : Qc) : string := pretty (Qnum (this T)).

Definition self (T_renorm : list Qc) (bulk_modulus : option Data) : params :=
  {| cs := "cs"; fcs := "fcs"; param := [1; 2]%Z;
     bulk_modulus := bulk_modulus; T_renorm := Some T_renorm;
     imaginary_tol := None; fit_method := None |}.

Definition directory : gmap string artifact :=
  {[ "structure_data.json" :=
       StructureDataJson
         {| sd_structure := "Si2"; sd_supercell_structure := "Si16";
            sd_supercell_matrix := [2; 2; 2]%Z |} ]}.

(** The module as it is: none of the four names is bound. *)
Definition unbound : globals :=
  {| nconfig := None; conv_thresh := None; thermal_expansion_fn := None;
     setup_TE_renorm := None |}.

(** The module with the four names bound. *)
Definition bound : globals :=
  {| nconfig := Some 50%Z; conv_thresh := Some 1%Z;
     thermal_expansion_fn := Some (fun T cte => (fun _ => 0%Z) <$> T);
     setup_TE_renorm :=
       Some (fun s T dL =>
               ((fun _ => s) <$> T, (fun _ => "cs") <$> T,
                (fun _ => "fcs") <$> T)) |}.

Definition run (g : globals) (T_renorm : list Qc) (bulk_modulus : option Data)
    : outcome unit * world :=
  run_task 0%Z "rfe" [] get_atoms renormalization argsort str g
    (self T_renorm bulk_modulus) (boot directory).

End Renorm.

Module ShengBTE.
Import RunShengBTE.

Definition T_KLAT : temperature_value := TNumber (Qc_of_Z 300).
Definition diag (m : Matrix) : Data := 0%Z.
(** As pymatgen does, the sample refuses a temperature that is neither a
    number nor a dict. *)
Definition from_structure (s : Structure) (d : gmap string control_value)
    : outcome Control :=
  match d !! "temperature" with
  | Some (CTemperature (TSequence _)) | Some (CTemperature (TOther _)) =>
      Raised (ValueError "Unsupported temperature type, must be float or dict")
  | _ => Returned ("CONTROL of " +:+ s)
  end.
Definition env_chk (c : command) : command := c.
Definition shlex_split (s : string) : list string := [s].

(** A solver that exits with the code its command line names; there is
    no executable of the name [missing]. *)
Definition subprocess_call (cmd : list string) (fs : gmap string artifact)
    : outcome (Z * gmap string artifact) :=
  match cmd with
  | ["exit 1"] => Returned (1%Z, fs)
  | ["exit 2"] => Returned (2%Z, fs)
  | ["missing"] => Raised (FileNotFoundError "missing")
  | _ => Returned (0%Z, fs)
  end.

Definition getcwd : string := "/work".

Definition context : structure_data :=
  {| sd_structure := "Si2"; sd_supercell_structure := "Si16";
     sd_supercell_matrix := [2; 2; 2]%Z |}.

Definition directory : gmap string artifact :=
  {[ "structure_data.json" := StructureDataJson context ]}.

Definition start (cmd : string) (temperature : option temperature_value)
    : state :=
  {| self :=
       {| shengbte_cmd := Some (CmdString cmd); temperature := temperature;
          control_kwargs := None;
          t := None; t_min := None; t_max := None; t_step := None |};
     cwd := boot directory |}.

Definition run (cmd : string) (temperature : option temperature_value)
    : outcome unit * state :=
  run_task T_KLAT diag from_structure env_chk shlex_split subprocess_call
    getcwd (start cmd temperature).

Definition grid : list Z := [0; 100; 200; 300]%Z.

(** 100.0, 0.1, 0.2 and 0.3 as float64. *)
Definition f100 : Np.float64 := S754_finite false 7036874417766400 (-46).
Definition f0_1 : Np.float64 := S754_finite false 7205759403792794 (-56).
Definition f0_2 : Np.float64 := S754_finite false 7205759403792794 (-55).
Definition f0_3 : Np.float64 := S754_finite false 5404319552844595 (-54).

(** The largest finite float64. *)
Definition fmax : Np.float64 := S754_finite false 9007199254740991 971.

(** The two extreme int64 values, and -1.0: what their spread wraps to. *)
Definition extremes : list Z :=
  [-9223372036854775808; 9223372036854775807]%Z.
Definition minus_one : Np.float64 := S754_finite true 4503599627370496 (-52).

(** 0.09999999999999999, the float64 result of [(0.3 - 0.1) / 2]. *)
Definition f0_0999 : Np.float64 := S754_finite false 7205759403792793 (-56).

End ShengBTE.

Module Kappa.

Definition one_row : list Z := [300; 11; 12; 13; 21; 22; 23; 31; 32; 33]%Z.

Definition two_rows : list (list Z) :=
  [ [300; 11; 12; 13; 21; 22; 23; 31; 32; 33];
    [400; 41; 42; 43; 51; 52; 53; 61; 62; 63] ]%Z.

End Kappa.

Module Counter.
Import FcFittingId.

Definition at_41 : collection := {[ "fc_fitting_id" := {[ "c" := 41%Z ]} ]}.

End Counter.

Module Persist.
Import Database ForceConstantsToDb.

(** Grid storage as the list of what was put in, the id of an object being
    its position. *)
Definition insert_gridfs (payload collection : string)
    (g : list (string * string)) : nat * list (string * string) :=
  (length g, g ++ [(collection, payload)]).
Definition FObjectId (n : nat) : field := FInt (Z.of_nat n).
Definition get_fc_array (fcs : ForceConstants) : string := fcs.
Definition uniform_bs_json (s : Structure) (m : Matrix) (fc : string)
    : string := "bands of " +:+ s.
Definition lm_bs_json (s : Structure) (m : Matrix) (fc : string)
    : string := "line bands of " +:+ s.
Definition dos_json (s : Structure) (m : Matrix) (fc : string) (d : Data)
    : string := "dos of " +:+ s.
Definition fc_json (fcs : ForceConstants) : string := fcs.
Definition as_dict (s : Structure) : Data := 0%Z.
Definition reduced_formula (s : Structure) : string := s.
Definition tolist (f : Forces) : Data := 0%Z.
Definition utcnow : Data := 0%Z.
Definition getcwd : string := "/fit".
Definition sanitize (v : field) : field := v.

Definition directory : gmap string artifact :=
  <["structure_data.json" := StructureDataJson ShengBTE.context]>
  (<["perturbed_forces.json" := ForcesJson [[1; -1]%Z]]>
  (<["perturbed_structures.json" := StructuresJson ["displaced"]]>
  (<["fitting_data.json" := DictJson ∅]>
  (<["thermal_data_qha.json" := DictJson ∅]>
  (<["force_constants.fcs" := FcsFile "fcs:Si2"]> ∅))))).

(** The user asks for a fitting id, a structure and a name of their own. *)
Definition fields : gmap string field :=
  <["fc_fitting_id" := FInt 7]>
  (<["structure" := FStr "mine"]> {[ "name" := FStr "kappa" ]}).

Definition self : params :=
  {| renormalized := None; mesh_density := None;
     additional_fields := Some fields |}.

Definition start : site (list (string * string)) :=
  {| cwd := boot directory;
     db := {| counter := Counter.at_41; inserted := []; grid := [] |} |}.

Definition run
    : outcome (gmap string field) * site (list (string * string)) :=
  run_task 100%Z insert_gridfs FObjectId get_fc_array uniform_bs_json
    lm_bs_json dos_json fc_json as_dict reduced_formula tolist utcnow getcwd
    sanitize self ∅ start.

(** What the run hands to the Fireworks that follow. *)
Definition update_spec : gmap string field := metadata getcwd 42.

(** The same site before the fit left its force constants. *)
Definition unfitted : site (list (string * string)) :=
  {| cwd := boot (delete "force_constants.fcs" directory);
     db := {| counter := Counter.at_41; inserted := []; grid := [] |} |}.

End Persist.

Module Conductivity.
Import Database ShengBTEToDbTask.

Definition get_structure (c : Control) : Structure := c.
Definition scell_matrix (c : Control) : Data := 0%Z.
Definition control_as_dict (c : Control) : Data := 0%Z.
Definition as_dict (s : Structure) : Data := 0%Z.
Definition reduced_formula (s : Structure) : string := s.
Definition utcnow : Data := 0%Z.
Definition getcwd : string := "/bte".

(** Two output files of one row each, told apart by their temperature. *)
Definition loadtxt (a : artifact) : outcome (ShengBTEToDb.ndarray Qc) :=
  match a with
  | TextFile "converged" => Returned (ShengBTEToDb.Vector (Qc_of_Z <$> Kappa.one_row))
  | TextFile "relaxation time" =>
      Returned (ShengBTEToDb.Vector (Qc_of_Z <$> (400 :: drop 1 Kappa.one_row)%Z))
  | _ => Raised (ValueError "could not convert string to float")
  end.

Definition only_control : gmap string artifact :=
  {[ "CONTROL" := ControlFile "CONTROL of Si2" ]}.
Definition converged : gmap string artifact :=
  <["BTE.KappaTensorVsT_CONV" := TextFile "converged"]> only_control.
Definition both : gmap string artifact :=
  <["BTE.KappaTensorVsT_RTA" := TextFile "relaxation time"]> converged.

Definition self : params := {| additional_fields := None |}.

Definition start (directory : gmap string artifact) : site unit :=
  {| cwd := boot directory;
     db := {| counter := Counter.at_41; inserted := []; grid := tt |} |}.

Definition run (fw_spec : gmap string field)
    (directory : gmap string artifact) : outcome unit * site unit :=
  run_task get_structure scell_matrix control_as_dict loadtxt as_dict
    reduced_formula utcnow getcwd self fw_spec (start directory).

(** The same task run later, in another directory. *)
Definition run' (fw_spec : gmap string field)
    (directory : gmap string artifact) : outcome unit * site unit :=
  run_task get_structure scell_matrix control_as_dict loadtxt as_dict
    reduced_formula 1%Z "/bte/again" self fw_spec (start directory).

End Conductivity.

End Sample.

(** Membership of an event in a log that is written out. *)
Ltac log_in :=
  unfold written; cbn [log]; rewrite ?elem_of_cons; auto 12.
Ltac log_notin :=
  unfold written; cbn [log];
  let Hin := fresh "Hin" in
  intros Hin; rewrite ?elem_of_cons, elem_of_nil in Hin;
  intuition discriminate.


(** * Properties *)

(** ** Python strings *)

Section ContainsFacts.

Lemma prefix_app (p s : string) :
  String.prefix p s = true <-> exists rest, s = p +:+ rest.
Proof.
  revert s. induction p as [|a p IH]; intros [|b s]; simpl.
  - split; [intros _; by exists "" | done].
  - split; [intros _; by exists (String b s) | done].
  - split; [done | intros [rest Hrest]; discriminate].
  - destruct (Ascii.ascii_dec a b) as [->|Hne].
    + rewrite IH. split; intros [rest Hrest]; exists rest.
      * by rewrite Hrest.
      * by injection Hrest.
    + split; [done | intros [rest Hrest]; injection Hrest; congruence].
Qed.

(** [contains] is Python's substring test. *)
Lemma contains_spec (needle hay : string) :
  contains needle hay = true <->
  exists before after, hay = before +:+ needle +:+ after.
Proof.
  induction hay as [|a hay IH]; cbn [contains].
  - rewrite orb_false_r, prefix_app. split.
    + intros [rest Hrest]. by exists "", rest.
    + intros [[|b before] [after Hhay]]; simpl in Hhay; [by exists after | done].
  - rewrite orb_true_iff, prefix_app, IH. split.
    + intros [[rest Hrest] | (before & after & Hhay)].
      * by exists "", rest.
      * exists (String a before), after. simpl. by rewrite Hhay.
    + intros [[|b before] [after Hhay]]; simpl in Hhay.
      * left. by exists after.
      * right. exists before, after. by injection Hhay.
Qed.

End ContainsFacts.

(** ** CollectPerturbedStructures *)

Section CollectFacts.
Import CollectPerturbedStructures.
Context `{Domain}.
Variable assimilate_structure : string -> outcome Structure.
Variable apply_transformation : Matrix -> Structure -> Structure.

Local Abbreviation run_task := (run_task assimilate_structure apply_transformation).

Lemma filter_none (locs : list calc_loc) :
  Forall (fun c => is_optimiz c = false) locs ->
  List.filter is_optimiz locs = [].
Proof.
  induction 1 as [|c locs Hc _ IH]; simpl; [done |]. by rewrite Hc.
Qed.

Lemma last_filter_optimiz (before after : list calc_loc) (opt : calc_loc) :
  is_optimiz opt = true ->
  Forall (fun c => is_optimiz c = false) after ->
  last (List.filter is_optimiz (before ++ opt :: after)) = Some opt.
Proof.
  intros Hopt Hafter.
  rewrite List.filter_app. simpl. rewrite Hopt, (filter_none after Hafter).
  by rewrite last_snoc.
Qed.

(** C4. On a non-empty list of samples the task returns, and the
    [structure_data.json] it writes holds the supercell matrix of the first
    sample, the canonical parent structure (last "optimiz" calculation if
    any, first sample's parent otherwise) and the supercell obtained by
    applying the transformation of that matrix to that parent. *)
Theorem collect_structure_context (spec : fw_spec) (fs : gmap string artifact)
    (first : perturbed_task) (others : list perturbed_task) (parent : Structure) :
  perturbed_tasks spec = Some (first :: others) ->
  canonical_parent assimilate_structure (default [] (calc_locs spec)) first
    (Returned parent) ->
  run_task spec (boot fs) =
    (Returned tt,
     aggregated apply_transformation fs (first :: others) parent
       (supercell_matrix first)).
Proof.
  intros Hresults Hparent. unfold run_task. rewrite Hresults. simpl.
  inversion Hparent as [before opt after Hlocs Hopt Hafter Hdrone | Hnone].
  - rewrite Hlocs, (last_filter_optimiz before after opt Hopt Hafter).
    unfold bind at 1, lift. rewrite Hdrone. reflexivity.
  - rewrite (filter_none _ Hnone). reflexivity.
Qed.

(** C9. Without samples the task raises the error of its first lines and
    leaves the directory as it found it: nothing was written. *)
Theorem collect_empty_raises (spec : fw_spec) (fs : gmap string artifact) :
  default [] (perturbed_tasks spec) = [] ->
  run_task spec (boot fs) =
    (Raised (RuntimeError "No perturbed tasks found in firework spec"),
     boot fs).
Proof.
  intros Hempty. unfold run_task. rewrite Hempty. reflexivity.
Qed.

End CollectFacts.

Section CollectWitnesses.
Local Existing Instance Sample.domain.

Lemma collect_structure_context_witness :
  files (CollectPerturbedStructures.run_task Sample.Collect.drone
           Sample.Collect.supercell Sample.Collect.spec (boot ∅)).2
    !! "structure_data.json" =
  Some (StructureDataJson
          {| sd_structure := "relaxed:/calc/b";
             sd_supercell_structure := "supercell:relaxed:/calc/b";
             sd_supercell_matrix := [2; 2; 2]%Z |}).
Proof.
  rewrite (collect_structure_context Sample.Collect.drone
             Sample.Collect.supercell Sample.Collect.spec ∅
             Sample.Collect.sample [] "relaxed:/calc/b").
  - reflexivity.
  - reflexivity.
  - apply (CollectPerturbedStructures.parent_of_optimization Sample.Collect.drone _ _
             [Sample.Collect.optimization] Sample.Collect.tight_optimization
             [Sample.Collect.static]).
    + reflexivity.
    + reflexivity.
    + repeat constructor.
Defined.

Lemma collect_empty_raises_witness :
  CollectPerturbedStructures.run_task Sample.Collect.drone
    Sample.Collect.supercell Sample.Collect.no_samples (boot ∅) =
  (Raised (RuntimeError "No perturbed tasks found in firework spec"), boot ∅).
Proof.
  apply (collect_empty_raises Sample.Collect.drone Sample.Collect.supercell).
  reflexivity.
Defined.

End CollectWitnesses.

(** ** Running a task step by step *)

Section TaskFacts.
Context {S A B : Type}.

Lemma bind_returned (m : task S A) (k : A -> task S B) (s s' : S) (a : A) :
  m s = (Returned a, s') -> bind m k s = k a s'.
Proof. intros Hm. unfold bind. by rewrite Hm. Qed.

Lemma bind_raised (m : task S A) (k : A -> task S B) (s s' : S) (e : exn) :
  m s = (Raised e, s') -> bind m k s = (Raised e, s').
Proof. intros Hm. unfold bind. by rewrite Hm. Qed.

Lemma getitem_some {V} (d : gmap string V) (key : string) (v : V) (s : S) :
  d !! key = Some v -> getitem d key s = (Returned v, s).
Proof. intros Hd. unfold getitem. by rewrite Hd. Qed.

Lemma getitem_none {V} (d : gmap string V) (key : string) (s : S) :
  d !! key = None -> getitem (S := S) d key s = (Raised (KeyError key), s).
Proof. intros Hd. unfold getitem. by rewrite Hd. Qed.

End TaskFacts.

Section StoreFacts.
Context `{Domain}.

Lemma load_structures_some (w : world) (path : string) (l : list Structure) :
  files w !! path = Some (StructuresJson l) ->
  load_structures path w = (Returned l, w).
Proof. intros Hf. unfold load_structures, bind, loadfn. by rewrite Hf. Qed.

Lemma load_forces_some (w : world) (path : string) (l : list Forces) :
  files w !! path = Some (ForcesJson l) ->
  load_forces path w = (Returned l, w).
Proof. intros Hf. unfold load_forces, bind, loadfn. by rewrite Hf. Qed.

Lemma load_structure_data_some (w : world) (path : string) (sd : structure_data) :
  files w !! path = Some (StructureDataJson sd) ->
  load_structure_data path w = (Returned sd, w).
Proof. intros Hf. unfold load_structure_data, bind, loadfn. by rewrite Hf. Qed.

Lemma written_snoc (path path' : string) (fs : gmap string artifact)
    (l : list event) :
  written path {| files := fs; log := l ++ [Wrote path'] |} <->
  written path {| files := fs; log := l |} \/ path = path'.
Proof.
  unfold written. simpl. rewrite elem_of_app, list_elem_of_singleton.
  split; (intros [Hin | Heq]; [by left | right]); congruence.
Qed.

End StoreFacts.

(** ** RunHiPhive *)

Section HiPhiveFacts.
Import RunHiPhive.
Context `{Domain}.
Variable IMAGINARY_TOL : Data.
Variable FIT_METHOD : string.
Variable T_QHA : Data.
Variable get_cutoffs : Structure -> list Cutoff.
Variable get_atoms : Structure -> Atoms.
Variable get_displacements : Atoms -> Atoms -> Forces.
Variable new_array : string -> Forces -> Atoms -> Atoms.
Variable with_positions_of : Atoms -> Atoms -> Atoms.
Variable fit_force_constants :
  Structure -> Matrix -> list Atoms -> list Cutoff -> bool -> Data -> string ->
  option ForceConstants * Parameters * ClusterSpace * gmap string value.
Variable harmonic_properties :
  Structure -> Matrix -> ForceConstants -> Data -> Data ->
  gmap string value * Phonopy.
Variable anharmonic_properties :
  Phonopy -> ForceConstants -> Data -> value -> value -> option Data ->
  gmap string value * Phonopy.

Local Abbreviation fit :=
  (fit IMAGINARY_TOL FIT_METHOD get_cutoffs get_atoms get_displacements
     new_array with_positions_of fit_force_constants).
Local Abbreviation harmonic := (harmonic IMAGINARY_TOL T_QHA harmonic_properties).
Local Abbreviation run_task :=
  (run_task IMAGINARY_TOL FIT_METHOD T_QHA get_cutoffs get_atoms
     get_displacements new_array with_positions_of fit_force_constants
     harmonic_properties anharmonic_properties).

(** C2. When the fitting function returns no force constants, the task
    raises "Could not find a force constant solution" and the directory is
    as the task found it: none of its five output files was written. *)
Theorem hiphive_null_fit_raises (self : params) (fs : gmap string artifact)
    (structures : list Structure) (forces : list Forces) (sd : structure_data)
    (param : Parameters) (cs : ClusterSpace) (fitting_data : gmap string value) :
  aggregated_in fs structures forces sd ->
  fit self structures forces sd = (None, param, cs, fitting_data) ->
  run_task self (boot fs) =
    (Raised (RuntimeError "Could not find a force constant solution"), boot fs).
Proof.
  intros (Hstructures & Hforces & Hsd) Hfit. unfold run_task.
  rewrite (bind_returned _ _ _ _ _ (load_structures_some (boot fs) _ _ Hstructures)).
  rewrite (bind_returned _ _ _ _ _ (load_forces_some (boot fs) _ _ Hforces)).
  rewrite (bind_returned _ _ _ _ _ (load_structure_data_some (boot fs) _ _ Hsd)).
  by rewrite Hfit.
Qed.

(** C1. A fitting run that finds force constants and whose harmonic
    analysis reports [n] imaginary modes returns without raising; with
    [n = 0] it has written both FORCE_CONSTANTS_3RD (ShengBTE format, order
    3) and FORCE_CONSTANTS_2ND (phonopy text format); with [n <> 0] it has
    written neither and both names hold what they held before. *)
Theorem hiphive_conditional_export (self : params) (fs : gmap string artifact)
    (structures : list Structure) (forces : list Forces) (sd : structure_data)
    (fcs : ForceConstants) (param : Parameters) (cs : ClusterSpace)
    (fitting_data thermal_data : gmap string value) (phonopy : Phonopy)
    (heat_capacity : value) (n : Z) :
  aggregated_in fs structures forces sd ->
  fit self structures forces sd = (Some fcs, param, cs, fitting_data) ->
  harmonic self sd fcs = (thermal_data, phonopy) ->
  thermal_data !! "heat_capacity" = Some heat_capacity ->
  thermal_data !! "n_imaginary" = Some (VInt n) ->
  exists w,
    run_task self (boot fs) = (Returned tt, w) /\
    files w !! "fitting_data.json" =
      Some (DictJson (<["n_imaginary" := VInt n]> fitting_data)) /\
    (n = 0%Z ->
       written "FORCE_CONSTANTS_3RD" w /\ written "FORCE_CONSTANTS_2ND" w /\
       files w !! "FORCE_CONSTANTS_3RD" =
         Some (ShengBTEFile fcs (get_atoms (sd_structure sd)) 3) /\
       files w !! "FORCE_CONSTANTS_2ND" = Some (PhonopyText fcs)) /\
    (n <> 0%Z ->
       ~ written "FORCE_CONSTANTS_3RD" w /\ ~ written "FORCE_CONSTANTS_2ND" w /\
       files w !! "FORCE_CONSTANTS_3RD" = fs !! "FORCE_CONSTANTS_3RD" /\
       files w !! "FORCE_CONSTANTS_2ND" = fs !! "FORCE_CONSTANTS_2ND").
Proof.
  intros (Hstructures & Hforces & Hsd) Hfit Hharmonic Hheat Hn.
  unfold run_task.
  rewrite (bind_returned _ _ _ _ _ (load_structures_some (boot fs) _ _ Hstructures)).
  rewrite (bind_returned _ _ _ _ _ (load_forces_some (boot fs) _ _ Hforces)).
  rewrite (bind_returned _ _ _ _ _ (load_structure_data_some (boot fs) _ _ Hsd)).
  rewrite Hfit, Hharmonic.
  rewrite (bind_returned _ _ _ _ _ (getitem_some _ _ _ _ Hheat)).
  rewrite (bind_returned _ _ _ _ _ (getitem_some _ _ _ _ Hn)).
  destruct (anharmonic_properties _ _ _ _ _ _) as [anharmonic_data phonopy'].
  unfold pop.
  rewrite (bind_returned _ _ _ _ _
             (bind_returned _ _ _ _ _ (getitem_some _ _ _ _ Hn))).
  cbn [fst snd ret].
  unfold bind at 1 2 3 4 5. cbn [write boot files log app].
  rewrite (bind_returned _ _ _ _ _
             (getitem_some _ _ _ _ (lookup_insert_eq _ _ _))).
  unfold is_zero. destruct (decide (n = 0%Z)) as [Hzero | Hnonzero].
  - rewrite bool_decide_eq_true_2 by done.
    eexists. split; [reflexivity |]. cbn [files log app].
    split; [by simplify_map_eq |].
    split; [| done]. intros _.
    split; [log_in |]. split; [log_in |].
    split; by simplify_map_eq.
  - rewrite bool_decide_eq_false_2 by done.
    eexists. split; [reflexivity |]. cbn [files log app].
    split; [by simplify_map_eq |].
    split; [done |]. intros _.
    split; [log_notin |]. split; [log_notin |].
    split; by simplify_map_eq.
Qed.

End HiPhiveFacts.

Section HiPhiveWitnesses.
Local Existing Instance Sample.domain.
Import Sample.HiPhive.

Lemma hiphive_null_fit_raises_witness :
  run "glass" =
  (Raised (RuntimeError "Could not find a force constant solution"),
   boot (directory "glass")).
Proof.
  apply (@hiphive_null_fit_raises Sample.domain 0%Z "rfe" 300%Z get_cutoffs get_atoms
           get_displacements new_array with_positions_of fit_force_constants
           harmonic_properties anharmonic_properties self (directory "glass")
           ["displaced"] [[1; -1]%Z] (context "glass")
           [1; 2]%Z "cs" diagnostics).
  - repeat split; reflexivity.
  - reflexivity.
Defined.

Lemma hiphive_conditional_export_witness :
  exists w,
    run "Si2" = (Returned tt, w) /\
    written "FORCE_CONSTANTS_3RD" w /\ written "FORCE_CONSTANTS_2ND" w.
Proof.
  destruct (@hiphive_conditional_export Sample.domain 0%Z "rfe" 300%Z get_cutoffs get_atoms
              get_displacements new_array with_positions_of
              fit_force_constants harmonic_properties anharmonic_properties
              self (directory "Si2") ["displaced"] [[1; -1]%Z] (context "Si2")
              "fcs:Si2" [1; 2]%Z "cs" diagnostics (thermal_data 0) "phonopy"
              heat_capacity 0%Z)
    as (w & Hrun & _ & Hzero & _).
  - repeat split; reflexivity.
  - reflexivity.
  - reflexivity.
  - reflexivity.
  - reflexivity.
  - exists w. destruct (Hzero eq_refl) as (H3 & H2 & _). by repeat split.
Defined.

(** With imaginary modes the run still returns, and writes its five files
    only. *)
Example hiphive_imaginary_modes_run :
  (run "SrTiO3").1 = Returned tt /\
  log (run "SrTiO3").2 =
    [Wrote "fitting_data.json"; Wrote "thermal_data_qha.json";
     Wrote "force_constants.fcs"; Wrote "parameters.txt";
     Wrote "cluster_space.cs"].
Proof. split; reflexivity. Qed.

End HiPhiveWitnesses.

(** ** RunHiPhiveRenorm *)

Section RenormFacts.
Import RunHiPhiveRenorm.
Context `{Domain}.
Variable str : Qc -> string.

Local Abbreviation write_directly := (write_directly str).
Local Abbreviation partition_result := (partition_result str).
Local Abbreviation write_renormalized := (write_renormalized str).

(** While [T] is unbound, the three statements of a direct write raise
    before the first of them writes. *)
Lemma write_directly_unbound (r : renorm_result) (w : world) :
  exists e, write_directly None r w = (Raised e, w).
Proof.
  unfold write_directly, index. destruct (r_fcs r !! 0%nat) as [fcs|].
  - exists (UnboundLocalError "T"). reflexivity.
  - eexists. reflexivity.
Qed.

Lemma partition_result_unbound (bulk_modulus : option Data) (l : locals)
    (res : option renorm_result) (w : world) :
  T l = None ->
  (exists e, partition_result bulk_modulus l res w = (Raised e, w)) \/
  (exists l', partition_result bulk_modulus l res w = (Returned l', w) /\
              T l' = None /\ ~ direct bulk_modulus res).
Proof.
  intros HT. unfold partition_result. destruct res as [r|].
  - cbn [T]. rewrite HT.
    destruct (bool_decide (0 < n_imaginary r)%Z) eqn:Himag;
      [| destruct (bool_decide (bulk_modulus = None)) eqn:Hbulk ]; cbn [orb].
    + left. destruct (write_directly_unbound r w) as [e He].
      exists e. by rewrite (bind_raised _ _ _ _ _ He).
    + left. destruct (write_directly_unbound r w) as [e He].
      exists e. by rewrite (bind_raised _ _ _ _ _ He).
    + right. eexists. split; [reflexivity |]. split; [done |].
      intros (r' & [= <-] & [Hpos | Hnone]).
      * by apply bool_decide_eq_false_1 in Himag.
      * by apply bool_decide_eq_false_1 in Hbulk.
  - right. eexists. split; [reflexivity |]. split; [done |].
    by intros (r' & [=] & _).
Qed.

(** No record is ever written directly: a first pass that holds a record
    for the direct write makes the loop raise with the directory as it was. *)
Lemma partition_loop_unbound (bulk_modulus : option Data)
    (results : list (option renorm_result)) (l : locals) (w : world) :
  T l = None ->
  Exists (direct bulk_modulus) results ->
  exists e, fold_task (partition_result bulk_modulus) l results w = (Raised e, w).
Proof.
  intros HT Hdirect. revert l HT.
  induction Hdirect as [res results Hres | res results _ IH]; intros l HT;
    cbn [fold_task];
    destruct (partition_result_unbound bulk_modulus l res w HT)
      as [[e He] | (l' & Hl' & HT' & Hnot)].
  - exists e. by rewrite (bind_raised _ _ _ _ _ He).
  - done.
  - exists e. by rewrite (bind_raised _ _ _ _ _ He).
  - rewrite (bind_returned _ _ _ _ _ Hl'). by apply IH.
Qed.

(** The same for the whole task: whenever the first pass returns a record
    that goes to the direct write, the task raises and has written nothing. *)
Lemma run_task_direct_raises (IMAGINARY_TOL : Data) (FIT_METHOD : string)
    (T_RENORM : list Qc) (get_atoms : Structure -> Atoms)
    (renormalization :
       Structure -> Matrix -> ClusterSpace -> ForceConstants -> Parameters ->
       Qc -> Data -> Data -> Data -> option renorm_result)
    (argsort : list Qc -> list nat) (g : globals) (self : params)
    (fs : gmap string artifact) (sd : structure_data)
    (results : list (option renorm_result)) :
  fs !! "structure_data.json" = Some (StructureDataJson sd) ->
  map_task
    (first_pass renormalization g self sd
       (default IMAGINARY_TOL (imaginary_tol self)))
    (default T_RENORM (T_renorm self)) (boot fs) = (Returned results, boot fs) ->
  Exists (direct (bulk_modulus self)) results ->
  exists e,
    run_task IMAGINARY_TOL FIT_METHOD T_RENORM get_atoms renormalization
      argsort str g self (boot fs) = (Raised e, boot fs).
Proof.
  intros Hsd Hfirst Hdirect. unfold run_task.
  rewrite (bind_returned _ _ _ _ _ (load_structure_data_some (boot fs) _ _ Hsd)).
  rewrite (bind_returned _ _ _ _ _ Hfirst).
  destruct (partition_loop_unbound (bulk_modulus self) results
              {| T := None; result := None; T_real := []; cte_real := [];
                 fcs_real := []; param_real := [] |} (boot fs) eq_refl Hdirect)
    as [e He].
  exists e. by rewrite (bind_raised _ _ _ _ _ He).
Qed.

(** Reading the thermal properties of a record does not touch the
    directory. *)
Lemma item_pure (r : renorm_result) (key : string) (w : world) :
  exists o, item r key w = (o, w).
Proof.
  unfold item. repeat case_decide; try (eexists; reflexivity).
  unfold bind, getitem. destruct (thermo r !! key); eexists; reflexivity.
Qed.

Lemma append_key_pure (r : renorm_result) (d : gmap string (list value))
    (key : string) (w : world) :
  exists o, append_key r d key w = (o, w).
Proof.
  unfold append_key, bind at 1, getitem.
  destruct (d !! key) as [column|]; [| eexists; reflexivity]. cbn [ret].
  unfold bind at 1. destruct (item_pure r key w) as [[values | e] ->];
    [| eexists; reflexivity].
  unfold bind, index. destruct (values !! 0%nat); eexists; reflexivity.
Qed.

Lemma fold_task_pure {S A B} (body : B -> A -> task S B) (l : list A) :
  (forall acc x s, exists o, body acc x s = (o, s)) ->
  forall acc s, exists o, fold_task body acc l s = (o, s).
Proof.
  intros Hbody. induction l as [|x l IH]; intros acc s; cbn [fold_task].
  - eexists. reflexivity.
  - unfold bind. destruct (Hbody acc x s) as [[acc' | e] ->];
      [apply IH | eexists; reflexivity].
Qed.

(** X19. In the second pass the names are formatted with the temperature
    the record itself carries: a record that is written leaves
    [force_constants_<T0>K.fcs] and [parameters_<T0>K.txt], in this order,
    for the first temperature [T0] of the record, then
    [FORCE_CONSTANTS_2ND_<T0>K] unless the record counts imaginary modes,
    and nothing else. *)
Lemma write_renormalized_names (acc acc' : option Qc * gmap string (list value))
    (r : renorm_result) (w w' : world) :
  write_renormalized acc (Some r) w = (Returned acc', w') ->
  exists T0,
    temperature r !! 0%nat = Some T0 /\
    acc'.1 = Some T0 /\
    log w' =
      log w ++ [Wrote (fcs_name str T0); Wrote (parameters_name str T0)] ++
      (if bool_decide (0 < n_imaginary r)%Z then []
       else [Wrote (phonopy_name str T0)]).
Proof.
  unfold write_renormalized, index.
  destruct (temperature r !! 0%nat) as [T0|]; [| discriminate].
  destruct (r_fcs r !! 0%nat) as [fcs|]; [| discriminate].
  destruct (r_param r !! 0%nat) as [p|]; [| discriminate].
  unfold bind at 1 2 3 4 5 6 7. cbn [ret local write files log].
  match goal with |- context [bind _ _ ?s] =>
    destruct (fold_task_pure (append_key r) thermal_keys
                (append_key_pure r) acc.2 s) as [[thermal_data | e] Hfold]
  end.
  - rewrite (bind_returned _ _ _ _ _ Hfold).
    destruct (bool_decide (0 < n_imaginary r)%Z);
      unfold bind; cbn [ret write local files log]; intros [= <- <-];
      exists T0; cbn [log fst]; by rewrite <- ?app_assoc.
  - rewrite (bind_raised _ _ _ _ _ Hfold). discriminate.
Qed.

End RenormFacts.

Section RenormRuns.
Local Existing Instance Sample.domain.
Import Sample.Renorm.

(** C3, the direct writes. A single requested temperature whose record
    goes to the direct write (no bulk modulus, or imaginary modes at 300 K),
    and the single record at 0 K: each time the task raises on the [T] of
    the file name, which no statement has assigned, and no file is written.
    With the four free names of the module unbound the task raises on the
    first of them. *)
Theorem renorm_direct_write_raises :
  run bound [Qc_of_Z 300] None =
    (Raised (UnboundLocalError "T"), boot directory) /\
  run bound [Qc_of_Z 300] (Some 100%Z) =
    (Raised (UnboundLocalError "T"), boot directory) /\
  run bound [Qc_of_Z 0] (Some 100%Z) =
    (Raised (UnboundLocalError "T"), boot directory) /\
  run unbound [Qc_of_Z 300] None =
    (Raised (NameError "nconfig"), boot directory).
Proof. repeat split; vm_compute; reflexivity. Qed.

(** The second pass does name its files with the temperature of each
    record, and then raises on [thermal_data.pop("n_imaginary")]. *)
Example renorm_second_pass_run :
  (run bound [Qc_of_Z 100; Qc_of_Z 200] (Some 100%Z)).1 =
    Raised (KeyError "n_imaginary") /\
  log (run bound [Qc_of_Z 100; Qc_of_Z 200] (Some 100%Z)).2 =
    [Wrote "force_constants_100K.fcs"; Wrote "parameters_100K.txt";
     Wrote "FORCE_CONSTANTS_2ND_100K";
     Wrote "force_constants_200K.fcs"; Wrote "parameters_200K.txt";
     Wrote "FORCE_CONSTANTS_2ND_200K"].
Proof. split; vm_compute; reflexivity. Qed.

End RenormRuns.

(** ** numpy *)

Section NpFacts.
Context {A : Type} (d : Np.dtype A).
Hypothesis Hordered : Np.ordered d.

Local Abbreviation finite := (fun x : A => Np.nan d x = false).

Lemma less_equal_refl (x : A) : finite x -> Np.less_equal d x x.
Proof. intros Hx. destruct Hordered as (Htotal & _). by destruct (Htotal x x). Qed.

Lemma max2_choice (x y : A) : Np.max2 d x y = x \/ Np.max2 d x y = y.
Proof. unfold Np.max2. destruct (_ || _); auto. Qed.

Lemma min2_choice (x y : A) : Np.min2 d x y = x \/ Np.min2 d x y = y.
Proof. unfold Np.min2. destruct (_ || _); auto. Qed.

Lemma max2_upper (x y : A) :
  finite x -> finite y ->
  Np.less_equal d x (Np.max2 d x y) /\ Np.less_equal d y (Np.max2 d x y).
Proof.
  intros Hx Hy. destruct Hordered as (Htotal & _). unfold Np.max2.
  rewrite Hx, orb_false_r.
  destruct (Np.less_equal d y x) eqn:Hle.
  - split; [by apply less_equal_refl | by rewrite Hle].
  - split; [| by apply less_equal_refl].
    destruct (Htotal x y Hx Hy) as [? | Hyx]; [done |].
    by rewrite Hle in Hyx.
Qed.

Lemma min2_lower (x y : A) :
  finite x -> finite y ->
  Np.less_equal d (Np.min2 d x y) x /\ Np.less_equal d (Np.min2 d x y) y.
Proof.
  intros Hx Hy. destruct Hordered as (Htotal & _). unfold Np.min2.
  rewrite Hx, orb_false_r.
  destruct (Np.less_equal d x y) eqn:Hle.
  - split; [by apply less_equal_refl | by rewrite Hle].
  - split; [| by apply less_equal_refl].
    destruct (Htotal x y Hx Hy) as [Hxy | ?]; [| done].
    by rewrite Hle in Hxy.
Qed.

Lemma foldl_max2_maximum (x : A) (l : list A) :
  Forall finite (x :: l) -> Np.maximum (Np.le d) (x :: l) (foldl (Np.max2 d) x l).
Proof.
  destruct Hordered as (_ & Htrans & _).
  revert x. induction l as [|y l IH]; intros x Hfin; cbn [foldl].
  - split; [apply list_elem_of_here |].
    apply Forall_cons in Hfin as [Hx _].
    repeat constructor. by apply less_equal_refl.
  - apply Forall_cons in Hfin as [Hx [Hy Hl]%Forall_cons].
    destruct (max2_upper x y Hx Hy) as [Hxm Hym].
    destruct (IH (Np.max2 d x y)) as [Hin Hbound].
    { apply Forall_cons_2; [| done]. by destruct (max2_choice x y) as [-> | ->]. }
    apply Forall_cons in Hbound as [Hm Hbound]. split.
    + apply elem_of_cons in Hin as [-> | Hin].
      * destruct (max2_choice x y) as [-> | ->]; rewrite !elem_of_cons; auto.
      * rewrite !elem_of_cons; auto.
    + repeat apply Forall_cons_2; try done; by eapply Htrans.
Qed.

Lemma foldl_min2_minimum (x : A) (l : list A) :
  Forall finite (x :: l) -> Np.minimum (Np.le d) (x :: l) (foldl (Np.min2 d) x l).
Proof.
  destruct Hordered as (_ & Htrans & _).
  revert x. induction l as [|y l IH]; intros x Hfin; cbn [foldl].
  - split; [apply list_elem_of_here |].
    apply Forall_cons in Hfin as [Hx _].
    repeat constructor. by apply less_equal_refl.
  - apply Forall_cons in Hfin as [Hx [Hy Hl]%Forall_cons].
    destruct (min2_lower x y Hx Hy) as [Hxm Hym].
    destruct (IH (Np.min2 d x y)) as [Hin Hbound].
    { apply Forall_cons_2; [| done]. by destruct (min2_choice x y) as [-> | ->]. }
    apply Forall_cons in Hbound as [Hm Hbound]. split.
    + apply elem_of_cons in Hin as [-> | Hin].
      * destruct (min2_choice x y) as [-> | ->]; rewrite !elem_of_cons; auto.
      * rewrite !elem_of_cons; auto.
    + repeat apply Forall_cons_2; try done; by eapply Htrans.
Qed.

(** Whether the smallest value is zero does not depend on which of the
    smallest values is looked at. *)
Lemma minimum_zero_iff (l : list A) (m : A) :
  Np.minimum (Np.le d) l m -> (Np.minimum_zero d l <-> Np.equal_zero d m).
Proof.
  destruct Hordered as (_ & _ & Hzero & _).
  intros [Hm Hml]. rewrite Forall_forall in Hml. split.
  - intros (m' & [Hm' Hml'] & Hz). rewrite Forall_forall in Hml'.
    rewrite (Hzero m m'); [done | by apply Hml | by apply Hml'].
  - intros Hz. exists m. split; [| done]. split; [done |].
    by apply Forall_forall.
Qed.

Lemma max_returns {S} (l : list A) (s : S) :
  Forall finite l -> l <> [] ->
  exists hi, Np.max d l s = (Returned hi, s) /\ Np.maximum (Np.le d) l hi.
Proof.
  destruct l as [|x l]; [done |]. intros Hfin _. eexists.
  split; [reflexivity |]. by apply foldl_max2_maximum.
Qed.

Lemma min_returns {S} (l : list A) (s : S) :
  Forall finite l -> l <> [] ->
  exists lo, Np.min d l s = (Returned lo, s) /\ Np.minimum (Np.le d) l lo.
Proof.
  destruct l as [|x l]; [done |]. intros Hfin _. eexists.
  split; [reflexivity |]. by apply foldl_min2_minimum.
Qed.

#[local] Instance sorts_before_total : Total (Np.sorts_before d).
Proof.
  destruct Hordered as (Htotal & _). intros x y. unfold Np.sorts_before.
  destruct (Np.nan d y) eqn:Hy; [by left |].
  destruct (Np.nan d x) eqn:Hx; [by right |].
  cbn. by apply Htotal.
Qed.

#[local] Instance sorts_before_trans : Transitive (Np.sorts_before d).
Proof.
  destruct Hordered as (_ & Htrans & _). intros x y z.
  unfold Np.sorts_before.
  destruct (Np.nan d z); [done |].
  destruct (Np.nan d y); [done |].
  destruct (Np.nan d x); [done |]. cbn. apply Htrans.
Qed.

Lemma sorts_before_finite (x y : A) :
  finite x -> finite y -> Np.sorts_before d x y -> Np.less_equal d x y.
Proof. unfold Np.sorts_before. by intros -> ->. Qed.

(** With two values or more, the value that the partition puts at index 1
    is the second smallest. *)
Lemma partition_at_1_returns {S} (l : list A) (s : S) :
  Forall finite l -> (2 <= length l)%nat ->
  exists x,
    Np.partition_at d l 1 s = (Returned x, s) /\ Np.second_smallest (Np.le d) l x.
Proof.
  intros Hfin Hlen. unfold Np.partition_at.
  pose proof (merge_sort_Permutation (Np.sorts_before d) l) as Hperm.
  pose proof (StronglySorted_merge_sort (Np.sorts_before d) l) as Hsorted.
  rewrite <- Hperm in Hfin.
  destruct (merge_sort (Np.sorts_before d) l) as [|a [|b rest]];
    try (apply Permutation_length in Hperm; simpl in Hperm; lia).
  exists b. split; [reflexivity |]. exists a, (b :: rest).
  apply StronglySorted_inv in Hsorted as [Hsorted Ha].
  apply StronglySorted_inv in Hsorted as [_ Hb].
  apply Forall_cons in Hfin as [Hfa Hfin].
  pose proof Hfin as [Hfb Hfrest]%Forall_cons.
  assert (Forall (fun y => Np.less_equal d a y) (b :: rest)) as Ha'.
  { rewrite Forall_forall in Ha, Hfin. apply Forall_forall. intros y Hy.
    apply sorts_before_finite; auto. }
  assert (Forall (fun y => Np.less_equal d b y) rest) as Hb'.
  { rewrite Forall_forall in Hb, Hfrest. apply Forall_forall. intros y Hy.
    apply sorts_before_finite; auto. }
  split; [done |]. split.
  - split.
    + rewrite <- Hperm. apply list_elem_of_here.
    + rewrite <- Hperm. apply Forall_cons_2; [| done].
      by apply less_equal_refl.
  - split; [apply list_elem_of_here |].
    apply Forall_cons_2; [| done]. by apply less_equal_refl.
Qed.

Lemma partition_at_short {S} (l : list A) (s : S) :
  (length l < 2)%nat ->
  Np.partition_at d l 1 s = (Raised (ValueError "kth out of bounds"), s).
Proof.
  intros Hlen. unfold Np.partition_at.
  rewrite lookup_ge_None_2; [done |].
  rewrite (Permutation_length (merge_sort_Permutation (Np.sorts_before d) l)).
  lia.
Qed.

End NpFacts.

Section DtypeFacts.

Lemma wrap_fits (n : Z) : (- 2 ^ 63 <= n < 2 ^ 63)%Z -> Np.wrap n = n.
Proof. intros Hn. unfold Np.wrap. rewrite Z.mod_small; lia. Qed.

Lemma int64_ordered : Np.ordered Np.int64.
Proof.
  repeat split; cbn.
  - intros x y _ _. destruct (Z.leb_spec x y); [by left | right].
    apply Is_true_true, Z.leb_le. lia.
  - intros x y z Hxy%Is_true_true%Z.leb_le Hyz%Is_true_true%Z.leb_le.
    apply Is_true_true, Z.leb_le. lia.
  - intros x y Hxy%Is_true_true%Z.leb_le Hyx%Is_true_true%Z.leb_le.
    by replace y with x by lia.
Qed.

Ltac compare_cases :=
  repeat match goal with
  | |- context [Z.compare ?a ?b] => destruct (Z.compare_spec a b)
  | H : context [Z.compare ?a ?b] |- _ => destruct (Z.compare_spec a b)
  | |- context [Pos.compare ?a ?b] => destruct (Pos.compare_spec a b)
  | H : context [Pos.compare ?a ?b] |- _ => destruct (Pos.compare_spec a b)
  end.

Lemma float64_ordered : Np.ordered Np.float64_.
Proof.
  repeat split; cbn.
  - intros x y Hx Hy. unfold SFleb.
    destruct x as [[] | [] | | [] mx ex], y as [[] | [] | | [] my ey];
      try discriminate; cbn; auto;
      change (Pos.compare_cont Eq ?a ?b) with (Pos.compare a b);
      compare_cases; cbn; auto; lia.
  - intros x y z. unfold SFleb.
    destruct x as [[] | [] | | [] mx ex], y as [[] | [] | | [] my ey],
             z as [[] | [] | | [] mz ez];
      cbn; try done;
      change (Pos.compare_cont Eq ?a ?b) with (Pos.compare a b);
      compare_cases; cbn; try done; lia.
  - intros x y. unfold SFleb, SFeqb.
    destruct x as [[] | [] | | [] mx ex], y as [[] | [] | | [] my ey];
      cbn; try done.
  - destruct x; done.
  - destruct y; try done. destruct x as [[] | [] | | [] mx ex]; done.
Qed.

End DtypeFacts.

(** ** RunShengBTE *)

Section SequenceFacts.
Import RunShengBTE.
Context `{Domain}.
Context {A : Type} (d : Np.dtype A).
Hypothesis Hordered : Np.ordered d.

Lemma sequence_parameters_returns (l : list A) (s : state) :
  Forall (fun x => Np.nan d x = false) l ->
  l <> [] ->
  (Np.minimum_zero d l -> (2 <= length l)%nat) ->
  exists lo hi k,
    sequence_parameters d l s =
      (Returned (lo, hi,
                 Np.true_divide d (Np.subtract d hi lo)
                   (Z.of_nat (length l) - k)), s) /\
    Np.maximum (Np.le d) l hi /\
    ((Np.minimum_zero d l /\ Np.second_smallest (Np.le d) l lo /\ k = 2%Z) \/
     (~ Np.minimum_zero d l /\ Np.minimum (Np.le d) l lo /\ k = 1%Z)).
Proof.
  intros Hfin Hne Hzero. unfold sequence_parameters.
  destruct (max_returns d Hordered l s Hfin Hne) as (hi & Hmax & Hhi).
  destruct (min_returns d Hordered l s Hfin Hne) as (lo & Hmin & Hlo).
  rewrite (bind_returned _ _ _ _ _ Hmax), (bind_returned _ _ _ _ _ Hmin).
  pose proof (minimum_zero_iff d Hordered l lo Hlo) as Hiff.
  destruct (Np.equal_zero d lo) eqn:Hlo0.
  - assert (Np.minimum_zero d l) as Hmz by (by apply Hiff).
    destruct (partition_at_1_returns d Hordered l s Hfin (Hzero Hmz))
      as (second & Hpart & Hsecond).
    rewrite (bind_returned _ _ _ _ _ Hpart).
    exists second, hi, 2%Z. split; [reflexivity |]. split; [done |]. by left.
  - exists lo, hi, 1%Z. split; [reflexivity |]. split; [done |]. right.
    split; [| done]. intros Hmz. by apply Hiff in Hmz.
Qed.

Lemma store_sequence_stores (l : list A) (s : state) (lo hi : A)
    (step : Np.float64) :
  sequence_parameters d l s = (Returned (lo, hi, step), s) ->
  exists s',
    store_sequence d l s = (Returned tt, s') /\
    stores s s' (NpScalar (Np.item d lo)) (NpScalar (Np.item d hi))
      (NpScalar (Np.Float64 step)).
Proof.
  intros Hrun. unfold store_sequence.
  rewrite (bind_returned _ _ _ _ _ Hrun). eexists. split; [reflexivity |].
  by repeat split.
Qed.

Lemma sequence_parameters_pure (l : list A) (s : state) :
  exists o, sequence_parameters d l s = (o, s).
Proof.
  unfold sequence_parameters, bind, Np.max, Np.min.
  destruct l as [|x l]; [eexists; reflexivity |]. cbn [ret].
  destruct (Np.equal_zero d _); [| eexists; reflexivity].
  unfold Np.partition_at. destruct (_ !! 1%nat); eexists; reflexivity.
Qed.

Lemma store_sequence_cwd (l : list A) (s : state) :
  cwd (store_sequence d l s).2 = cwd s.
Proof.
  unfold store_sequence. unfold bind at 1.
  destruct (sequence_parameters_pure l s) as [[p | e] ->]; reflexivity.
Qed.

End SequenceFacts.

Section ShengBTEFacts.
Import RunShengBTE.
Context `{Domain}.
Variable T_KLAT : temperature_value.
Variable diag : Matrix -> Data.
Variable from_structure :
  Structure -> gmap string control_value -> outcome Control.
Variable env_chk : command -> command.
Variable shlex_split : string -> list string.
Variable subprocess_call :
  list string -> gmap string artifact -> outcome (Z * gmap string artifact).
Variable getcwd : string.

Local Abbreviation prepare :=
  (prepare T_KLAT diag from_structure env_chk shlex_split).
Local Abbreviation call := (call subprocess_call).
Local Abbreviation run_task :=
  (run_task T_KLAT diag from_structure env_chk shlex_split subprocess_call
     getcwd).

Lemma int64_maximum (l : list Z) (x : Z) :
  Np.maximum (Np.le Np.int64) l x <-> Np.maximum Z.le l x.
Proof.
  unfold Np.maximum. f_equiv. apply Forall_iff. intros y.
  unfold Np.le. cbn. by rewrite Is_true_true, Z.leb_le.
Qed.

Lemma int64_minimum (l : list Z) (x : Z) :
  Np.minimum (Np.le Np.int64) l x <-> Np.minimum Z.le l x.
Proof.
  unfold Np.minimum. f_equiv. apply Forall_iff. intros y.
  unfold Np.le. cbn. by rewrite Is_true_true, Z.leb_le.
Qed.

Lemma int64_second_smallest (l : list Z) (x : Z) :
  Np.second_smallest (Np.le Np.int64) l x <-> Np.second_smallest Z.le l x.
Proof.
  unfold Np.second_smallest. do 2 (f_equiv; intros ?).
  by rewrite !int64_minimum.
Qed.

Lemma int64_minimum_zero (l : list Z) :
  Np.minimum_zero Np.int64 l <-> Np.minimum Z.le l 0%Z.
Proof.
  unfold Np.minimum_zero. split.
  - intros (m & Hm & Hz). cbn in Hz.
    apply Is_true_true, Z.eqb_eq in Hz as ->. by apply int64_minimum.
  - intros Hm. exists 0%Z. split; [by apply int64_minimum | done].
Qed.

Lemma isnan_false (l : list Np.float64) :
  Forall (fun x => x <> S754_nan) l ->
  Forall (fun x => Np.nan Np.float64_ x = false) l.
Proof.
  intros Hl. eapply Forall_impl; [exact Hl |]. intros x Hx. by destruct x.
Qed.


(** C6. Once the solver has run and exited with [return_code], the task
    raises the "Running ShengBTE failed" error exactly when the code is 1;
    with any other code, 2 or a negative one included, it returns. *)
Theorem shengbte_exit_code (s s' s'' : state) (cmd : list string)
    (return_code : Z) :
  prepare s = (Returned cmd, s') ->
  in_cwd (call cmd) s' = (Returned return_code, s'') ->
  (run_task s = (Raised (RuntimeError (failed_message getcwd)), s'') <->
   return_code = 1%Z) /\
  (return_code <> 1%Z -> run_task s = (Returned tt, s'')).
Proof.
  intros Hprepare Hcall. unfold run_task.
  rewrite (bind_returned _ _ _ _ _ Hprepare), (bind_returned _ _ _ _ _ Hcall).
  case_decide as Hcode; by split.
Qed.

(** C10. With the structure data in place, a temperature that is neither
    a number, a sequence nor a dict makes the task raise the [ValueError]
    in the state it started in: no CONTROL file was written and no command
    was run. *)
Theorem shengbte_unsupported_temperature (s : state) (sd : structure_data)
    (repr : string) :
  files (cwd s) !! "structure_data.json" = Some (StructureDataJson sd) ->
  temperature (self s) = Some (TOther repr) ->
  run_task s =
    (Raised (ValueError "Unsupported temperature type, must be float or dict"),
     s).
Proof.
  destruct s as [me w]. cbn [self cwd]. intros Hsd Htemp.
  unfold run_task, RunShengBTE.prepare.
  unfold bind at 1 2, in_cwd. cbn [cwd self].
  rewrite (load_structure_data_some _ _ _ Hsd).
  unfold bind at 1, get_self. cbn [self]. rewrite Htemp. cbn [default].
  reflexivity.
Qed.

End ShengBTEFacts.

Section ShengBTEWitnesses.
Local Existing Instance Sample.domain.
Import RunShengBTE Sample.ShengBTE.



(** Float64 arithmetic rounds: [(0.3 - 0.1) / 2] is not [0.1]. *)
Example sequence_rounds :
  t_step (self (set_temperature (TSequence (Np.FloatArray [f0_1; f0_2; f0_3]))
                  (start "ShengBTE" None)).2) =
  Some (NpScalar (Np.Float64 f0_0999)).
Proof. vm_compute. reflexivity. Qed.

(** And it overflows: the spread of the two extreme finite values is
    infinite. *)
Example sequence_overflows :
  t_step (self (set_temperature
                  (TSequence (Np.FloatArray [SFopp fmax; fmax]))
                  (start "ShengBTE" None)).2) =
  Some (NpScalar (Np.Float64 (S754_infinity false))).
Proof. vm_compute. reflexivity. Qed.

Lemma shengbte_exit_code_witness :
  (run "exit 1" None).1 = Raised (RuntimeError (failed_message getcwd)) /\
  (run "exit 2" None).1 = Returned tt.
Proof.
  set (prepared cmd :=
         (prepare T_KLAT diag from_structure env_chk shlex_split
            (start cmd None)).2).
  set (called cmd :=
         (in_cwd (call subprocess_call [cmd]) (prepared cmd)).2).
  split.
  - destruct (@shengbte_exit_code Sample.domain T_KLAT diag from_structure
                env_chk shlex_split subprocess_call getcwd
                (start "exit 1" None) (prepared "exit 1") (called "exit 1")
                ["exit 1"] 1%Z eq_refl eq_refl) as [[_ Hraises] _].
    unfold run. by rewrite (Hraises eq_refl).
  - destruct (@shengbte_exit_code Sample.domain T_KLAT diag from_structure
                env_chk shlex_split subprocess_call getcwd
                (start "exit 2" None) (prepared "exit 2") (called "exit 2")
                ["exit 2"] 2%Z eq_refl eq_refl) as [_ Hreturns].
    unfold run. rewrite Hreturns; [reflexivity | lia].
Defined.

Lemma shengbte_unsupported_temperature_witness :
  run "ShengBTE" (Some (TOther "'300 K'")) =
  (Raised (ValueError "Unsupported temperature type, must be float or dict"),
   start "ShengBTE" (Some (TOther "'300 K'"))).
Proof.
  apply (@shengbte_unsupported_temperature Sample.domain T_KLAT diag
           from_structure env_chk shlex_split subprocess_call getcwd _
           context "'300 K'").
  - reflexivity.
  - reflexivity.
Defined.

(** A run that reaches the solver: CONTROL is written, both streams are
    opened, the command is run. *)
Example shengbte_run_log :
  log (cwd (run "ShengBTE" None).2) =
  [Wrote "CONTROL"; Wrote "shengbte.out"; Wrote "shengbte_err.txt";
   Ran ["ShengBTE"]].
Proof. reflexivity. Qed.

(** A run on a sequence stops where pymatgen refuses the sequence, with
    the parameters stored and nothing written. *)
Example shengbte_sequence_refused :
  (run "ShengBTE" (Some (TSequence (Np.IntArray grid)))).1 =
    Raised (ValueError "Unsupported temperature type, must be float or dict") /\
  log (cwd (run "ShengBTE" (Some (TSequence (Np.IntArray grid)))).2) = [].
Proof. split; vm_compute; reflexivity. Qed.

End ShengBTEWitnesses.

(** ** ShengBTEToDb *)

Section ParseFacts.
Import ShengBTEToDb.
Context {A S : Type}.

Lemma row_of_ten (row : list A) :
  (10 <= length row)%nat ->
  exists T k11 k12 k13 k21 k22 k23 k31 k32 k33 rest,
    row = T :: k11 :: k12 :: k13 :: k21 :: k22 :: k23 :: k31 :: k32 :: k33
            :: rest.
Proof.
  intros Hlen.
  do 10 (destruct row as [|? row]; [simpl in Hlen; lia |]).
  by eexists _, _, _, _, _, _, _, _, _, _, _.
Qed.

Lemma column_0_rows (rows : list (list A)) (s : S) :
  Forall (fun row => (10 <= length row)%nat) rows ->
  exists temperatures,
    column_0 (Table rows) s = (Returned temperatures, s) /\
    Forall2 temperature_of_row rows temperatures.
Proof.
  unfold column_0. induction 1 as [|row rows Hrow _ IH]; cbn [map_task].
  - by exists [].
  - destruct IH as (temperatures & Hrest & Hall).
    destruct (row_of_ten row Hrow)
      as (T & k11 & k12 & k13 & k21 & k22 & k23 & k31 & k32 & k33 & rest & ->).
    exists (T :: temperatures). split.
    + unfold bind at 1, index. cbn [lookup list_lookup ret].
      by rewrite (bind_returned _ _ _ _ _ Hrest).
    + by constructor.
Qed.

Lemma reshape_3_3_nine (a b c d e f g h i : A) (rest : list A) :
  reshape_3_3 (a :: b :: c :: d :: e :: f :: g :: h :: i :: rest) =
  match reshape_3_3 rest with
  | Some tensors => Some ([[a; b; c]; [d; e; f]; [g; h; i]] :: tensors)
  | None => None
  end.
Proof. reflexivity. Qed.

Lemma reshape_rows (rows : list (list A)) :
  Forall (fun row => (10 <= length row)%nat) rows ->
  exists kappa,
    reshape_3_3 (concat ((fun row => take 9 (drop 1 row)) <$> rows)) =
      Some kappa /\
    Forall2 tensor_of_row rows kappa.
Proof.
  induction 1 as [|row rows Hrow _ IH].
  - by exists [].
  - destruct IH as (kappa & Hrest & Hall).
    destruct (row_of_ten row Hrow)
      as (T & k11 & k12 & k13 & k21 & k22 & k23 & k31 & k32 & k33 & rest & ->).
    eexists (_ :: kappa). split.
    + rewrite fmap_cons. cbn [concat drop take app].
      rewrite reshape_3_3_nine, take_0. cbn [app]. by rewrite Hrest.
    + constructor; [| done].
      by eexists k11, k12, k13, k21, k22, k23, k31, k32, k33.
Qed.

(** C8. A one-dimensional result of ten values [T, k11 .. k33] is padded
    to one row and gives the temperature [T] with one 3x3 tensor; a table
    gives, row by row, the temperature of column 0 and the 3x3 tensor of
    columns 1 to 9. *)
Theorem shengbte_parse_table (s : S) :
  (forall v : list A,
     length v = 10%nat ->
     exists T tensor,
       parse (Vector v) s = (Returned ([T], [tensor]), s) /\
       temperature_of_row v T /\ tensor_of_row v tensor) /\
  (forall rows : list (list A),
     Forall (fun row => (10 <= length row)%nat) rows ->
     exists temperatures kappa,
       parse (Table rows) s = (Returned (temperatures, kappa), s) /\
       Forall2 temperature_of_row rows temperatures /\
       Forall2 tensor_of_row rows kappa).
Proof.
  assert (forall rows : list (list A),
            Forall (fun row => (10 <= length row)%nat) rows ->
            exists temperatures kappa,
              parse (Table rows) s = (Returned (temperatures, kappa), s) /\
              Forall2 temperature_of_row rows temperatures /\
              Forall2 tensor_of_row rows kappa) as Htable.
  { intros rows Hrows.
    destruct (column_0_rows rows s Hrows) as (temperatures & Hcol & Htemp).
    destruct (reshape_rows rows Hrows) as (kappa & Hreshape & Hkappa).
    exists temperatures, kappa. split; [| done].
    unfold parse. cbn [ndim decide]. rewrite decide_False by done.
    rewrite (bind_returned _ _ _ _ _ Hcol).
    unfold bind, columns_1_10, ret, reshape. by rewrite Hreshape. }
  split; [| done].
  intros v Hv.
  destruct (Htable [v]) as (temperatures & kappa & Hparse & Htemp & Hkappa).
  { constructor; [lia | constructor]. }
  apply Forall2_cons_inv_l in Htemp as (T & ? & HT & ->%Forall2_nil_inv_l & ->).
  apply Forall2_cons_inv_l in Hkappa
    as (tensor & ? & Htensor & ->%Forall2_nil_inv_l & ->).
  exists T, tensor. split; [| done].
  unfold parse in *. cbn [ndim pad] in *.
  rewrite decide_True by done. by rewrite decide_False in Hparse by done.
Qed.

End ParseFacts.

Section ParseWitnesses.
Import ShengBTEToDb Sample.Kappa.

Lemma shengbte_parse_table_witness :
  (exists T tensor,
     parse (S := unit) (Vector one_row) tt = (Returned ([T], [tensor]), tt) /\
     temperature_of_row one_row T /\ tensor_of_row one_row tensor) /\
  (exists temperatures kappa,
     parse (S := unit) (Table two_rows) tt =
       (Returned (temperatures, kappa), tt) /\
     Forall2 temperature_of_row two_rows temperatures /\
     Forall2 tensor_of_row two_rows kappa).
Proof.
  split.
  - apply (proj1 (shengbte_parse_table tt)). reflexivity.
  - apply (proj2 (shengbte_parse_table tt)).
    repeat constructor; simpl; lia.
Defined.

Example parse_one_row :
  parse (S := unit) (Vector one_row) tt =
  (Returned ([300], [[[11; 12; 13]; [21; 22; 23]; [31; 32; 33]]])%Z, tt).
Proof. reflexivity. Qed.

Example parse_two_rows :
  parse (S := unit) (Table two_rows) tt =
  (Returned ([300; 400],
             [[[11; 12; 13]; [21; 22; 23]; [31; 32; 33]];
              [[41; 42; 43]; [51; 52; 53]; [61; 62; 63]]])%Z, tt).
Proof. reflexivity. Qed.

(** Rows of seven values are not parsed row by row: three of them give
    two tensors that run across the rows. *)
Example parse_narrow_rows :
  parse (S := unit)
    (Table [[1; 11; 12; 13; 14; 15; 16]; [2; 21; 22; 23; 24; 25; 26];
            [3; 31; 32; 33; 34; 35; 36]]%Z) tt =
  (Returned ([1; 2; 3],
             [[[11; 12; 13]; [14; 15; 16]; [21; 22; 23]];
              [[24; 25; 26]; [31; 32; 33]; [34; 35; 36]]])%Z, tt).
Proof. reflexivity. Qed.

End ParseWitnesses.

(** ** _get_fc_fitting_id *)

Section FcFittingIdFacts.
Import FcFittingId.

Lemma first_allocation (db : collection) :
  counter db = None ->
  _get_fc_fitting_id db =
    (Returned 1%Z, <["fc_fitting_id" := {[ "c" := 1%Z ]}]> db).
Proof.
  unfold counter, _get_fc_fitting_id, bind, find_one_and_update, insert.
  destruct (db !! "fc_fitting_id") as [doc|] eqn:Hdoc; [done |].
  intros _. by rewrite Hdoc.
Qed.

Lemma next_allocation (db : collection) (n : Z) :
  counter db = Some n ->
  exists doc,
    db !! "fc_fitting_id" = Some doc /\
    find_one_and_update "fc_fitting_id" "c" 1 db =
      (Returned (Some (<["c" := (n + 1)%Z]> doc)),
       <["fc_fitting_id" := <["c" := (n + 1)%Z]> doc]> db) /\
    _get_fc_fitting_id db =
      (Returned (n + 1)%Z, <["fc_fitting_id" := <["c" := (n + 1)%Z]> doc]> db).
Proof.
  unfold counter, _get_fc_fitting_id, bind, find_one_and_update.
  destruct (db !! "fc_fitting_id") as [doc|] eqn:Hdoc; [| done].
  cbn. intros [= <-]. exists doc. split; [done |]. split; [done |].
  unfold getitem. by rewrite lookup_insert_eq.
Qed.

Lemma counter_insert (db : collection) (doc : document) :
  counter (<["fc_fitting_id" := doc]> db) = Some (default 0%Z (doc !! "c")).
Proof. unfold counter. by rewrite lookup_insert_eq. Qed.

(** Replacing a caller that holds no id. *)
Lemma allocated_insert (callers : list caller) (i : nat) (old new : caller) :
  callers !! i = Some old ->
  fc_id_of old = None ->
  allocated (<[i := new]> callers) ≡ₚ
    match fc_id_of new with
    | Some fc_id => fc_id :: allocated callers
    | None => allocated callers
    end.
Proof.
  intros Hi Hold. unfold allocated.
  assert (omap fc_id_of callers =
          omap fc_id_of (take i callers) ++ omap fc_id_of (drop (S i) callers))
    as Hsplit.
  { rewrite <- (take_drop_middle callers i old Hi) at 1.
    rewrite omap_app. cbn [omap list_omap]. by rewrite Hold. }
  rewrite insert_take_drop by (by eapply lookup_lt_Some).
  rewrite Hsplit, omap_app. cbn [omap list_omap].
  destruct (fc_id_of new) as [fc_id|]; [| done].
  by rewrite Permutation_middle.
Qed.

Lemma step_consistent (cfg cfg' : collection * list caller) :
  step cfg cfg' -> consistent cfg -> consistent cfg'.
Proof.
  intros Hstep [Hnodup Hbound].
  destruct Hstep as [db callers i Hi | db callers i Hi]; cbn [fst snd] in *.
  - unfold find_one_and_update.
    destruct (db !! "fc_fitting_id") as [doc|] eqn:Hdoc;
      unfold consistent; cbn [fst snd after_find].
    + rewrite lookup_insert_eq.
      set (c := default 0%Z (doc !! "c")).
      assert (counter db = Some c) as Hc by (unfold counter; by rewrite Hdoc).
      pose proof (allocated_insert callers i Start (Done (c + 1)) Hi eq_refl)
        as Hperm. cbn [fc_id_of] in Hperm.
      split.
      * rewrite Hperm. apply NoDup_cons. split; [| done].
        intros Hin. destruct (Hbound _ Hin) as (c' & Hc' & Hle).
        rewrite Hc in Hc'. injection Hc' as <-. lia.
      * intros fc_id. rewrite Hperm, counter_insert, lookup_insert_eq.
        cbn [default]. intros [-> | Hin]%elem_of_cons.
        -- exists (c + 1)%Z. split; [done | lia].
        -- destruct (Hbound _ Hin) as (c' & Hc' & Hle).
           rewrite Hc in Hc'. injection Hc' as <-.
           exists (c + 1)%Z. split; [done | lia].
    + pose proof (allocated_insert callers i Start FoundNone Hi eq_refl)
        as Hperm. cbn [fc_id_of] in Hperm.
      split; [by rewrite Hperm |]. intros fc_id. rewrite Hperm. apply Hbound.
  - unfold insert.
    destruct (db !! "fc_fitting_id") as [doc|] eqn:Hdoc;
      unfold consistent; cbn [fst snd after_insert].
    + pose proof (allocated_insert callers i FoundNone
                    (Failed (DuplicateKeyError "fc_fitting_id")) Hi eq_refl)
        as Hperm. cbn [fc_id_of] in Hperm.
      split; [by rewrite Hperm |]. intros fc_id. rewrite Hperm. apply Hbound.
    + pose proof (allocated_insert callers i FoundNone (Done 1) Hi eq_refl)
        as Hperm. cbn [fc_id_of] in Hperm.
      assert (allocated callers = []) as Hnone.
      { destruct (allocated callers) as [|fc_id ids] eqn:Hids; [done |].
        destruct (Hbound fc_id) as (c & Hc & _); [apply list_elem_of_here |].
        unfold counter in Hc. by rewrite Hdoc in Hc. }
      rewrite Hnone in Hperm. split.
      * rewrite Hperm. apply NoDup_singleton.
      * intros fc_id. rewrite Hperm, counter_insert.
        intros ->%list_elem_of_singleton. by exists 1%Z.
Qed.

Lemma steps_consistent (cfg cfg' : collection * list caller) :
  rtc step cfg cfg' -> consistent cfg -> consistent cfg'.
Proof. induction 1; eauto using step_consistent. Qed.

Lemma allocated_start (n : nat) : allocated (replicate n Start) = [].
Proof. induction n as [|n IH]; [done |]. unfold allocated in *. by cbn. Qed.

(** A caller that finds the counter document is done after its one
    operation, with the id of [_get_fc_fitting_id]. *)
Lemma step_find_existing (db : collection) (callers : list caller) (i : nat)
    (n : Z) :
  callers !! i = Some Start ->
  counter db = Some n ->
  step (db, callers)
       ((_get_fc_fitting_id db).2, <[i := Done (n + 1)]> callers).
Proof.
  intros Hi Hn. destruct (next_allocation db n Hn) as (doc & _ & Hfind & Hget).
  pose proof (step_find db callers i Hi) as Hstep.
  rewrite Hfind in Hstep. cbn [fst snd after_find] in Hstep.
  rewrite lookup_insert_eq in Hstep. by rewrite Hget.
Qed.

(** C7. On a collection without counter document the function returns 1
    and leaves a document holding 1; on a counter holding [n] it returns
    [n + 1], leaves [n + 1], and the whole update is the one
    [find_one_and_update] operation, which for a caller among others is a
    single step; and whatever the interleaving of [k] callers, the ids
    handed out are pairwise distinct. *)
Theorem fc_fitting_id_allocation :
  (forall db : collection,
     counter db = None ->
     exists db',
       _get_fc_fitting_id db = (Returned 1%Z, db') /\ counter db' = Some 1%Z) /\
  (forall (db : collection) (n : Z),
     counter db = Some n ->
     exists db',
       _get_fc_fitting_id db = (Returned (n + 1)%Z, db') /\
       counter db' = Some (n + 1)%Z /\
       (find_one_and_update "fc_fitting_id" "c" 1 db).2 = db' /\
       forall callers i,
         callers !! i = Some Start ->
         step (db, callers) (db', <[i := Done (n + 1)]> callers)) /\
  (forall (db db' : collection) (k : nat) (callers : list caller),
     rtc step (db, replicate k Start) (db', callers) ->
     NoDup (allocated callers)).
Proof.
  split; [| split].
  - intros db Hnone. eexists. split; [by apply first_allocation |].
    by rewrite counter_insert.
  - intros db n Hn.
    destruct (next_allocation db n Hn) as (doc & Hdoc & Hfind & Hget).
    eexists. split; [exact Hget |]. split; [| split].
    + by rewrite counter_insert, lookup_insert_eq.
    + by rewrite Hfind.
    + intros callers i Hi.
      pose proof (step_find_existing db callers i n Hi Hn) as Hstep.
      by rewrite Hget in Hstep.
  - intros db db' k callers Hsteps.
    apply (steps_consistent _ _ Hsteps). split; cbn [fst snd].
    + rewrite allocated_start. constructor.
    + intros fc_id. rewrite allocated_start. by intros ?%elem_of_nil.
Qed.

End FcFittingIdFacts.

Section FcFittingIdWitnesses.
Import FcFittingId Sample.Counter.

Lemma fc_fitting_id_allocation_witness :
  (exists db', _get_fc_fitting_id ∅ = (Returned 1%Z, db') /\
               counter db' = Some 1%Z) /\
  (exists db', _get_fc_fitting_id at_41 = (Returned 42%Z, db') /\
               counter db' = Some 42%Z) /\
  NoDup (allocated [Done 42%Z; Done 43%Z]).
Proof.
  destruct fc_fitting_id_allocation as (Hfirst & Hnext & Hdistinct).
  split; [| split].
  - apply Hfirst. reflexivity.
  - destruct (Hnext at_41 41%Z eq_refl) as (db' & Hget & Hcounter & _).
    by exists db'.
  - eapply (Hdistinct at_41 _ 2%nat).
    eapply rtc_l; [apply (step_find _ _ 0%nat); reflexivity |].
    eapply rtc_l; [apply (step_find _ _ 1%nat); reflexivity |].
    apply rtc_refl.
Defined.

(** Two callers that both find no counter document: the second [insert]
    raises, so two concurrent first calls give one id, not two. *)
Example concurrent_first_calls :
  rtc step (∅, [Start; Start])
    (<["fc_fitting_id" := {[ "c" := 1%Z ]}]> ∅,
     [Done 1%Z; Failed (DuplicateKeyError "fc_fitting_id")]).
Proof.
  eapply rtc_l; [apply (step_find _ _ 0%nat); reflexivity |].
  eapply rtc_l; [apply (step_find _ _ 1%nat); reflexivity |].
  eapply rtc_l; [apply (step_insert _ _ 0%nat); reflexivity |].
  eapply rtc_l; [apply (step_insert _ _ 1%nat); reflexivity |].
  apply rtc_refl.
Qed.

End FcFittingIdWitnesses.

(** ** ShengBTEToDb: beyond well-formed tables *)

Section ParseEdges.
Import ShengBTEToDb.
Context {A S : Type}.

(** Nine values at a time. *)
Lemma list_ind_nine (P : list A -> Prop) :
  P [] ->
  (forall l, (0 < length l < 9)%nat -> P l) ->
  (forall a b c d e f g h i rest,
     P rest -> P (a :: b :: c :: d :: e :: f :: g :: h :: i :: rest)) ->
  forall l, P l.
Proof.
  intros Hnil Hshort Hnine l.
  induction l as [l IH] using (induction_ltof1 _ (@length A)).
  unfold ltof in IH.
  destruct l as [|a [|b [|c [|d [|e [|f [|g [|h [|i rest]]]]]]]]];
    try (apply Hshort; simpl; lia); [done |].
  apply Hnine, IH. simpl. lia.
Qed.

Lemma reshape_3_3_short (l : list A) :
  (0 < length l < 9)%nat -> reshape_3_3 l = None.
Proof.
  intros Hlen.
  destruct l as [|a [|b [|c [|d [|e [|f [|g [|h [|i rest]]]]]]]]];
    try done; simpl in Hlen; lia.
Qed.

(** The regrouping into 3x3 tensors fails exactly when the number of
    values is not a multiple of nine; when it succeeds every tensor has
    three lines of three values and laying the tensors out again, line
    after line, gives back the values in their order. *)
Lemma reshape_3_3_round_trip (flat : list A) :
  (reshape_3_3 flat = None <-> (length flat mod 9 <> 0)%nat) /\
  (forall tensors,
     reshape_3_3 flat = Some tensors ->
     concat ((fun tensor => concat tensor) <$> tensors) = flat /\
     (length flat = 9 * length tensors)%nat /\
     Forall (fun tensor =>
               length tensor = 3%nat /\
               Forall (fun line => length line = 3%nat) tensor) tensors).
Proof.
  induction flat as [| l Hshort | a b c d e f g h i rest [IHnone IHsome]]
    using list_ind_nine.
  - split; [done |]. intros tensors [= <-]. by repeat split.
  - rewrite (reshape_3_3_short l Hshort). split; [| done].
    split; [| done]. intros _. rewrite Nat.mod_small by lia. lia.
  - rewrite reshape_3_3_nine.
    assert (length (a :: b :: c :: d :: e :: f :: g :: h :: i :: rest) mod 9 =
            length rest mod 9)%nat as ->.
    { change (length (a :: b :: c :: d :: e :: f :: g :: h :: i :: rest))
        with (9 + length rest)%nat.
      replace (9 + length rest)%nat with (length rest + 1 * 9)%nat by lia.
      by rewrite Nat.Div0.mod_add. }
    destruct (reshape_3_3 rest) as [tensors|] eqn:Hrest.
    + split.
      * split; [done |]. intros Hmod. by apply IHnone in Hmod.
      * intros ? [= <-]. destruct (IHsome tensors eq_refl) as (Hflat & Hlen & Hall).
        split; [| split].
        -- rewrite fmap_cons. cbn [concat app]. by rewrite Hflat.
        -- simpl. lia.
        -- constructor; [| done]. by repeat constructor.
    + split; [| done]. split; [| done]. intros _. by apply IHnone.
Qed.

Lemma column_0_width (rows : list (list A)) (w : nat) (s : S) :
  Forall (fun row => length row = w) rows ->
  (1 <= w)%nat ->
  exists temperatures,
    column_0 (Table rows) s = (Returned temperatures, s) /\
    length temperatures = length rows.
Proof.
  intros Hrows Hw. unfold column_0.
  induction Hrows as [|row rows Hrow _ IH]; cbn [map_task].
  - by exists [].
  - destruct IH as (temperatures & Hrest & Hlen).
    destruct row as [|T row]; [simpl in Hrow; lia |].
    exists (T :: temperatures). split; [| simpl; lia].
    unfold bind at 1, index. cbn [lookup list_lookup ret].
    by rewrite (bind_returned _ _ _ _ _ Hrest).
Qed.

Lemma block_length (rows : list (list A)) (w : nat) :
  Forall (fun row => length row = w) rows ->
  length (concat ((fun row => take 9 (drop 1 row)) <$> rows)) =
  (length rows * (9 `min` (w - 1)))%nat.
Proof.
  induction 1 as [|row rows Hrow _ IH]; [done |].
  rewrite fmap_cons. cbn [concat]. rewrite length_app, IH.
  rewrite length_take, length_drop, Hrow. simpl. lia.
Qed.

(** X1. A table of any width [w >= 1] is regrouped over its whole block of
    columns 1 to 9: with [n] values in that block the parse raises
    [ValueError] when [n] is not a multiple of nine, and otherwise gives
    one temperature per row and [n / 9] tensors of three lines of three
    values that, laid out again, are the block in row-major order. *)
Theorem parse_any_width (rows : list (list A)) (w : nat) (s : S) :
  Forall (fun row => length row = w) rows ->
  (1 <= w)%nat ->
  let block := (fun row => take 9 (drop 1 row)) <$> rows in
  let n := (length rows * (9 `min` (w - 1)))%nat in
  ((n mod 9 <> 0)%nat ->
   exists msg, parse (Table rows) s = (Raised (ValueError msg), s)) /\
  ((n mod 9 = 0)%nat ->
   exists temperatures kappa,
     parse (Table rows) s = (Returned (temperatures, kappa), s) /\
     length temperatures = length rows /\
     (9 * length kappa = n)%nat /\
     concat ((fun tensor => concat tensor) <$> kappa) = concat block /\
     Forall (fun tensor =>
               length tensor = 3%nat /\
               Forall (fun line => length line = 3%nat) tensor) kappa).
Proof.
  intros Hrows Hw block n.
  destruct (column_0_width rows w s Hrows Hw) as (temperatures & Hcol & Hlen).
  pose proof (block_length rows w Hrows) as Hblock. fold block n in Hblock.
  destruct (reshape_3_3_round_trip (concat block)) as [Hnone Hsome].
  unfold parse. cbn [ndim]. rewrite decide_False by done.
  rewrite (bind_returned _ _ _ _ _ Hcol).
  unfold bind, columns_1_10, ret, reshape. fold block.
  destruct (reshape_3_3 (concat block)) as [kappa|] eqn:Hreshape.
  - destruct (Hsome kappa eq_refl) as (Hflat & Hnine & Hall). split.
    + intros Hmod. exfalso. apply Hmod. rewrite <- Hblock, Hnine.
      by rewrite Nat.mul_comm, Nat.Div0.mod_mul.
    + intros _. exists temperatures, kappa. repeat split; try done. lia.
  - split.
    + intros _. eexists. reflexivity.
    + intros Hmod. exfalso. apply (proj1 Hnone); [done |]. by rewrite Hblock.
Qed.

(** X2. Columns beyond the tenth never reach the result: a table parses as
    the table cut to its first ten columns. *)
Theorem parse_ignores_extra_columns (rows : list (list A)) (s : S) :
  parse (Table rows) s = parse (Table (take 10 <$> rows)) s.
Proof.
  unfold parse. cbn [ndim]. rewrite !decide_False by done.
  assert (forall s0 : S,
            column_0 (Table rows) s0 = column_0 (Table (take 10 <$> rows)) s0)
    as Hcolumn.
  { intros s0. unfold column_0, index.
    induction rows as [|row rows IH]; [done |].
    rewrite fmap_cons. cbn [map_task]. unfold bind.
    rewrite lookup_take_lt by lia.
    destruct (row !! 0%nat); [| done]. cbn [ret]. by rewrite IH. }
  assert ((fun row : list A => take 9 (drop 1 row)) <$> (take 10 <$> rows) =
          (fun row => take 9 (drop 1 row)) <$> rows) as Hblock.
  { rewrite <- list_fmap_compose. apply list_fmap_ext. intros _ row _. cbn.
    rewrite (take_drop_commute (take 10 row) 9 1), (take_drop_commute row 9 1).
    change (1 + 9)%nat with 10%nat. by rewrite take_idemp. }
  unfold bind. rewrite Hcolumn.
  destruct (column_0 _ s) as [[temperatures | e] s']; [| done].
  unfold columns_1_10, ret. by rewrite Hblock.
Qed.

(** X3. What is not a table with a first column raises [IndexError]: a
    single number (zero dimensions), and any result with an empty row, the
    empty file included. *)
Theorem parse_without_first_column :
  (forall (x : A) (s : S), exists msg,
     parse (Scalar x) s = (Raised (IndexError msg), s)) /\
  (forall (s : S), exists msg,
     parse (A := A) (Vector []) s = (Raised (IndexError msg), s)) /\
  (forall (rows : list (list A)) (s : S),
     [] ∈ rows ->
     exists msg, parse (Table rows) s = (Raised (IndexError msg), s)).
Proof.
  assert (forall (rows : list (list A)) (s : S),
            [] ∈ rows ->
            exists msg, parse (Table rows) s = (Raised (IndexError msg), s))
    as Htable.
  { intros rows s Hin. unfold parse. cbn [ndim]. rewrite decide_False by done.
    assert (exists msg, column_0 (Table rows) s = (Raised (IndexError msg), s))
      as [msg Hmsg].
    { unfold column_0. induction rows as [|row rows IH].
      - by apply elem_of_nil in Hin.
      - cbn [map_task]. unfold bind at 1, index.
        destruct row as [|x row]; [eexists; reflexivity |].
        cbn [lookup list_lookup ret].
        apply elem_of_cons in Hin as [Hin | Hin]; [done |].
        destruct (IH Hin) as [msg Hmsg]. exists msg.
        by rewrite (bind_raised _ _ _ _ _ Hmsg). }
    exists msg. by rewrite (bind_raised _ _ _ _ _ Hmsg). }
  split; [| split; [| done]].
  - intros x s. eexists. reflexivity.
  - intros s. destruct (Htable [[]] s) as [msg Hmsg]; [apply list_elem_of_here |].
    exists msg. unfold parse in *. cbn [ndim pad] in *.
    rewrite decide_True by done. by rewrite decide_False in Hmsg by done.
Qed.

End ParseEdges.

Section ParseEdgesWitnesses.
Import ShengBTEToDb.

Lemma parse_any_width_witness :
  exists temperatures kappa,
    parse (S := unit)
      (Table [[1; 11; 12; 13; 14; 15; 16]; [2; 21; 22; 23; 24; 25; 26];
              [3; 31; 32; 33; 34; 35; 36]]%Z) tt =
      (Returned (temperatures, kappa), tt) /\
    length temperatures = 3%nat /\ length kappa = 2%nat.
Proof.
  destruct (parse_any_width
              [[1; 11; 12; 13; 14; 15; 16]; [2; 21; 22; 23; 24; 25; 26];
               [3; 31; 32; 33; 34; 35; 36]]%Z 7 tt)
    as [_ Hparse].
  - repeat constructor.
  - lia.
  - destruct (Hparse eq_refl)
      as (temperatures & kappa & Hrun & Htemp & Hkappa & _).
    exists temperatures, kappa. repeat split; try done. simpl in Hkappa. lia.
Defined.

Lemma parse_without_first_column_witness :
  exists msg,
    parse (S := unit) (Table [[300; 1]%Z; []]) tt =
    (Raised (IndexError msg), tt).
Proof.
  apply (proj2 (proj2 parse_without_first_column)).
  apply list_elem_of_further, list_elem_of_here.
Defined.

End ParseEdgesWitnesses.

(** ** _get_fc_fitting_id: runs of calls *)

Section FcFittingIdRuns.
Import FcFittingId.

(** X4. Calls made one after the other return consecutive ids: [k] calls
    on a counter holding [n] (0 without counter document) return
    [n + 1, ..., n + k] and leave the counter at [n + k]. *)
Theorem calls_consecutive (k : nat) (db : collection) :
  exists db',
    calls k db =
      (Returned (seqZ (default 0%Z (counter db) + 1) (Z.of_nat k)), db') /\
    ((0 < k)%nat ->
     counter db' = Some (default 0%Z (counter db) + Z.of_nat k)%Z).
Proof.
  revert db. induction k as [|k IH]; intros db.
  - exists db. split; [done | lia].
  - assert (exists db1,
              _get_fc_fitting_id db =
                (Returned (default 0%Z (counter db) + 1)%Z, db1) /\
              counter db1 = Some (default 0%Z (counter db) + 1)%Z)
      as (db1 & Hcall & Hcounter).
    { destruct (counter db) as [n|] eqn:Hn.
      - destruct (next_allocation db n Hn) as (doc & _ & _ & Hget).
        eexists. split; [exact Hget |].
        by rewrite counter_insert, lookup_insert_eq.
      - eexists. split; [by apply first_allocation |].
        by rewrite counter_insert. }
    destruct (IH db1) as (db' & Hcalls & Hafter). rewrite Hcounter in Hcalls, Hafter.
    cbn [from_option id] in Hcalls, Hafter.
    exists db'. split.
    + cbn [calls]. rewrite (bind_returned _ _ _ _ _ Hcall).
      rewrite (bind_returned _ _ _ _ _ Hcalls). unfold ret.
      rewrite (seqZ_cons _ (Z.of_nat (S k))) by lia.
      by rewrite Nat2Z.inj_succ, Z.pred_succ, <- Z.add_1_r.
    + intros _. destruct k as [|k].
      * cbn [calls ret] in Hcalls. injection Hcalls as <-.
        rewrite Hcounter. apply (f_equal Some). lia.
      * rewrite Hafter by lia. apply (f_equal Some). lia.
Qed.

(** X5. A call touches nothing but the field [c] of the counter document:
    every other document of the collection and every other field of the
    counter document are as before. *)
Theorem fc_fitting_id_frame (db : collection) :
  (forall id, id <> "fc_fitting_id" ->
     (_get_fc_fitting_id db).2 !! id = db !! id) /\
  (forall doc, db !! "fc_fitting_id" = Some doc ->
     exists doc',
       (_get_fc_fitting_id db).2 !! "fc_fitting_id" = Some doc' /\
       forall field, field <> "c" -> doc' !! field = doc !! field).
Proof.
  unfold _get_fc_fitting_id, bind, find_one_and_update, insert.
  destruct (db !! "fc_fitting_id") as [doc|] eqn:Hdoc; cbn [snd].
  - unfold getitem. rewrite lookup_insert_eq. cbn [ret snd]. split.
    + intros id Hid. by rewrite lookup_insert_ne.
    + intros ? [= <-]. eexists. rewrite lookup_insert_eq. split; [done |].
      intros field Hfield. by rewrite lookup_insert_ne.
  - rewrite Hdoc. cbn [snd ret]. split; [| done].
    intros id Hid. by rewrite lookup_insert_ne.
Qed.

Lemma step_in_sequence (n : Z) (cfg cfg' : collection * list caller) :
  step cfg cfg' -> in_sequence n cfg -> in_sequence n cfg'.
Proof.
  intros Hstep (Hcallers & Hids & Hcounter).
  destruct Hstep as [db callers i Hi | db callers i Hi]; cbn [fst snd] in *.
  - unfold find_one_and_update, counter in *.
    destruct (db !! "fc_fitting_id") as [doc|] eqn:Hdoc; [| done].
    cbn [mbind option_bind] in Hcounter. injection Hcounter as Hc.
    unfold in_sequence. cbn [fst snd after_find].
    rewrite !lookup_insert_eq. cbn [mbind option_bind default].
    pose proof (allocated_insert callers i Start
                  (Done (default 0%Z (doc !! "c") + 1)) Hi eq_refl) as Hperm.
    cbn [fc_id_of] in Hperm.
    assert (length (allocated (<[i := Done (default 0%Z (doc !! "c") + 1)]>
                                 callers)) =
            S (length (allocated callers))) as Hlen.
    { by rewrite Hperm. }
    split; [| split].
    + apply Forall_insert; [done |]. right. by eexists.
    + rewrite Hlen, Hperm, Hc.
      rewrite Nat2Z.inj_succ, <- Z.add_1_r.
      rewrite seqZ_app by lia. rewrite <- Hids.
      rewrite (seqZ_cons _ 1) by lia. rewrite seqZ_nil by lia.
      rewrite <- Permutation_cons_append.
      replace (n + 1 + Z.of_nat (length (allocated callers)))%Z
        with (n + Z.of_nat (length (allocated callers)) + 1)%Z by lia.
      done.
    + rewrite counter_insert, lookup_insert_eq. cbn [from_option id].
      rewrite Hlen, Hc. apply (f_equal Some). lia.
  - exfalso. rewrite Forall_lookup in Hcallers.
    by destruct (Hcallers i FoundNone Hi) as [? | [? ?]].
Qed.

(** X6. When the counter document exists before the callers start, no
    interleaving makes a caller raise or wait for an [insert], and the ids
    handed out are the next ones after the counter, none skipped: once all
    [k] callers are done they hold [n + 1, ..., n + k] in some order. *)
Theorem concurrent_calls_in_sequence (db db' : collection) (n : Z) (k : nat)
    (callers : list caller) :
  counter db = Some n ->
  rtc step (db, replicate k Start) (db', callers) ->
  Forall undisturbed callers /\
  allocated callers ≡ₚ seqZ (n + 1) (Z.of_nat (length (allocated callers))) /\
  counter db' = Some (n + Z.of_nat (length (allocated callers)))%Z /\
  (Forall (fun c => c <> Start) callers -> allocated callers ≡ₚ seqZ (n + 1) (Z.of_nat k)).
Proof.
  intros Hn Hsteps.
  assert (in_sequence n (db', callers)) as (Hcallers & Hids & Hcounter).
  { assert (forall cfg cfg', rtc step cfg cfg' ->
              in_sequence n cfg -> in_sequence n cfg') as Hrtc.
    { induction 1; eauto using step_in_sequence. }
    apply (Hrtc _ _ Hsteps). unfold in_sequence. cbn [fst snd].
    rewrite allocated_start. cbn [length]. split; [| split].
    - apply Forall_replicate. by left.
    - done.
    - rewrite Hn. f_equal. lia. }
  repeat split; try done.
  intros Hdone.
  assert (length (allocated callers) = k) as <-; [| done].
  assert (length callers = k) as <-.
  { assert (forall cfg cfg', rtc step cfg cfg' ->
              length cfg'.2 = length cfg.2) as Hrtc.
    { induction 1 as [|? ? ? Hstep _ IH]; [done |].
      rewrite IH. destruct Hstep; cbn [snd]; by rewrite length_insert. }
    pose proof (Hrtc _ _ Hsteps) as Hsame. cbn [snd] in Hsame.
    by rewrite Hsame, length_replicate. }
  clear -Hcallers Hdone. unfold allocated.
  induction callers as [|c callers IH]; [done |].
  apply Forall_cons in Hcallers as [Hc Hcallers].
  apply Forall_cons in Hdone as [Hstart Hdone].
  destruct Hc as [-> | [fc_id ->]]; [done |].
  cbn. by rewrite IH.
Qed.

End FcFittingIdRuns.

Section FcFittingIdRunsWitnesses.
Import FcFittingId Sample.Counter.

Lemma fc_fitting_id_frame_witness :
  (_get_fc_fitting_id (<["other" := {[ "c" := 7%Z ]}]> at_41)).2 !! "other" =
  Some {[ "c" := 7%Z ]}.
Proof.
  rewrite (proj1 (fc_fitting_id_frame _) "other") by done. reflexivity.
Defined.

Lemma calls_consecutive_witness :
  exists db', calls 3 at_41 = (Returned [42; 43; 44]%Z, db') /\
              counter db' = Some 44%Z.
Proof.
  destruct (calls_consecutive 3 at_41) as (db' & Hcalls & Hcounter).
  exists db'. split; [exact Hcalls |]. apply Hcounter. lia.
Defined.

Lemma concurrent_calls_in_sequence_witness :
  allocated [Done 42%Z; Done 43%Z] ≡ₚ seqZ 42 2.
Proof.
  eapply (concurrent_calls_in_sequence at_41 _ 41 2 [Done 42%Z; Done 43%Z]).
  - reflexivity.
  - eapply rtc_l; [apply (step_find _ _ 0%nat); reflexivity |].
    eapply rtc_l; [apply (step_find _ _ 1%nat); reflexivity |].
    apply rtc_refl.
  - by repeat constructor.
Defined.

End FcFittingIdRunsWitnesses.

(** ** RunShengBTE: the temperature grid and the run *)

Section ShengBTEGrid.
Import RunShengBTE.
Context `{Domain}.

Section Failure.
Context {A : Type} (d : Np.dtype A).

(** The branch raises for want of a value, or of a second value when the
    only one is zero, and never otherwise. *)
Lemma store_sequence_outcome (l : list A) (s : state) :
  (l = [] \/ (exists x, l = [x] /\ Np.equal_zero d x) ->
   exists msg, store_sequence d l s = (Raised (ValueError msg), s)) /\
  (~ (l = [] \/ exists x, l = [x] /\ Np.equal_zero d x) ->
   exists lo hi step s',
     store_sequence d l s = (Returned tt, s') /\
     stores s s' (NpScalar (Np.item d lo)) (NpScalar (Np.item d hi))
       (NpScalar (Np.Float64 step))).
Proof.
  split.
  - intros [-> | (x & -> & Hzero)]; [eexists; reflexivity |].
    unfold store_sequence, sequence_parameters, bind. cbn.
    destruct (Np.equal_zero d x); [| done]. eexists. reflexivity.
  - intros Hnot.
    assert (exists lo hi step,
              sequence_parameters d l s = (Returned (lo, hi, step), s))
      as (lo & hi & step & Hrun).
    { unfold sequence_parameters, bind.
      destruct l as [|x l]; [exfalso; apply Hnot; by left |]. cbn.
      destruct (Np.equal_zero d (foldl (Np.min2 d) x l)) eqn:Hzero;
        [| by eexists _, _, _].
      destruct l as [|y l].
      { exfalso. apply Hnot. right. exists x. cbn in Hzero.
        by rewrite Hzero. }
      unfold Np.partition_at.
      pose proof (merge_sort_Permutation (Np.sorts_before d) (x :: y :: l))
        as Hperm.
      destruct (merge_sort (Np.sorts_before d) (x :: y :: l)) as [|a [|b rest]];
        try (apply Permutation_length in Hperm; simpl in Hperm; lia).
      by eexists _, _, _. }
    destruct (store_sequence_stores d l s lo hi step Hrun) as (s' & Hs' & Hst).
    by exists lo, hi, step, s'.
Qed.

End Failure.

(** X8. A sequence that numpy holds as an int64 or float64 array fails to
    give parameters in two cases only, the empty sequence and a single
    value that is zero: the task then raises [ValueError] and has stored
    nothing; on every other sequence it stores the three parameters and
    changes nothing else. *)
Theorem shengbte_sequence_failure (s : state) :
  (forall l : list Z,
     (l = [] \/ l = [0%Z] ->
      exists msg,
        set_temperature (TSequence (Np.IntArray l)) s =
          (Raised (ValueError msg), s)) /\
     (~ (l = [] \/ l = [0%Z]) ->
      exists lo hi step s',
        set_temperature (TSequence (Np.IntArray l)) s = (Returned tt, s') /\
        stores s s' (NpScalar (Np.Int64 lo)) (NpScalar (Np.Int64 hi))
          (NpScalar (Np.Float64 step)))) /\
  (forall l : list Np.float64,
     (l = [] \/ (exists x, l = [x] /\ SFeqb x (S754_zero false)) ->
      exists msg,
        set_temperature (TSequence (Np.FloatArray l)) s =
          (Raised (ValueError msg), s)) /\
     (~ (l = [] \/ exists x, l = [x] /\ SFeqb x (S754_zero false)) ->
      exists lo hi step s',
        set_temperature (TSequence (Np.FloatArray l)) s = (Returned tt, s') /\
        stores s s' (NpScalar (Np.Float64 lo)) (NpScalar (Np.Float64 hi))
          (NpScalar (Np.Float64 step)))).
Proof.
  split.
  - intros l. destruct (store_sequence_outcome Np.int64 l s) as [Hfail Hok].
    split.
    + intros Hl. apply Hfail. destruct Hl as [-> | ->]; [by left | right].
      by exists 0%Z.
    + intros Hl. apply Hok. intros [-> | (x & -> & Hx)]; apply Hl;
        [by left | right].
      cbn in Hx. by apply Is_true_true, Z.eqb_eq in Hx as ->.
  - intros l. exact (store_sequence_outcome Np.float64_ l s).
Qed.

End ShengBTEGrid.

Section ShengBTEGridWitnesses.
Local Existing Instance Sample.domain.
Import RunShengBTE Sample.ShengBTE.

Lemma shengbte_sequence_failure_witness :
  (exists msg,
     set_temperature (TSequence (Np.IntArray [0%Z])) (start "ShengBTE" None) =
     (Raised (ValueError msg), start "ShengBTE" None)) /\
  (exists lo hi step s',
     set_temperature (TSequence (Np.FloatArray [f0_1]))
       (start "ShengBTE" None) = (Returned tt, s') /\
     stores (start "ShengBTE" None) s' (NpScalar (Np.Float64 lo))
       (NpScalar (Np.Float64 hi)) (NpScalar (Np.Float64 step))).
Proof.
  split.
  - apply (proj1 (proj1 (@shengbte_sequence_failure Sample.domain _) [0%Z])).
    by right.
  - apply (proj2 (proj2 (@shengbte_sequence_failure Sample.domain _) [f0_1])).
    intros [Hnil | (x & [= <-] & Hzero)]; [discriminate | done].
Defined.

End ShengBTEGridWitnesses.

Section ShengBTERun.
Import RunShengBTE.
Context `{Domain}.
Variable T_KLAT : temperature_value.
Variable diag : Matrix -> Data.
Variable from_structure :
  Structure -> gmap string control_value -> outcome Control.
Variable env_chk : command -> command.
Variable shlex_split : string -> list string.
Variable subprocess_call :
  list string -> gmap string artifact -> outcome (Z * gmap string artifact).
Variable getcwd : string.

Local Abbreviation prepare :=
  (prepare T_KLAT diag from_structure env_chk shlex_split).
Local Abbreviation run_task :=
  (run_task T_KLAT diag from_structure env_chk shlex_split subprocess_call
     getcwd).

Lemma in_cwd_eq {A} (m : task world A) (s : state) :
  in_cwd m s = ((m (cwd s)).1, {| self := self s; cwd := (m (cwd s)).2 |}).
Proof. unfold in_cwd. by destruct (m (cwd s)). Qed.

Lemma load_structure_data_pure (path : string) (w : world) :
  exists o, load_structure_data path w = (o, w).
Proof.
  unfold load_structure_data, bind, loadfn.
  destruct (files w !! path) as [a|]; [| eexists; reflexivity].
  destruct a; eexists; reflexivity.
Qed.

(** Storing the temperature parameters leaves the directory alone. *)
Lemma set_temperature_cwd (temperature : temperature_value) (s : state) :
  cwd (set_temperature temperature s).2 = cwd s.
Proof.
  destruct temperature as [x | [l | l] | d | repr]; cbn [set_temperature];
    try reflexivity.
  - apply store_sequence_cwd.
  - apply store_sequence_cwd.
  - unfold bind, getitem.
    destruct (d !! "min"); [| reflexivity]. cbn.
    destruct (d !! "max"); [| reflexivity]. cbn.
    destruct (d !! "step"); reflexivity.
Qed.

(** X9. With the structure data in place, a temperature dict that lacks
    one of "min", "max", "step" makes the task raise [KeyError] on a
    missing key with the directory as it was: no CONTROL file, no run. *)
Theorem shengbte_dict_missing_key (s : state) (sd : structure_data)
    (d : gmap string Qc) :
  files (cwd s) !! "structure_data.json" = Some (StructureDataJson sd) ->
  temperature (self s) = Some (TDict d) ->
  d !! "min" = None \/ d !! "max" = None \/ d !! "step" = None ->
  exists key s',
    run_task s = (Raised (KeyError key), s') /\
    d !! key = None /\ cwd s' = cwd s.
Proof.
  destruct s as [me w]. cbn [self cwd]. intros Hsd Htemp Hmissing.
  unfold run_task, RunShengBTE.prepare.
  unfold bind at 1 2, in_cwd. cbn [cwd self].
  rewrite (load_structure_data_some _ _ _ Hsd).
  unfold bind at 1, get_self. cbn [self]. rewrite Htemp. cbn [from_option id].
  unfold bind at 1, set_temperature, bind, getitem.
  destruct (d !! "min") as [lo|] eqn:Hmin;
    [| by exists "min", {| self := me; cwd := w |}].
  cbn. destruct (d !! "max") as [hi|] eqn:Hmax; [| by eexists "max", _].
  cbn. destruct (d !! "step") as [step|] eqn:Hstep; [| by eexists "step", _].
  by destruct Hmissing as [? | [? | ?]].
Qed.

Lemma prepare_log (s : state) :
  match (prepare s).1 with
  | Returned _ => log (cwd (prepare s).2) = log (cwd s) ++ [Wrote "CONTROL"]
  | Raised _ =>
      log (cwd (prepare s).2) = log (cwd s) \/
      log (cwd (prepare s).2) = log (cwd s) ++ [Wrote "CONTROL"]
  end.
Proof.
  destruct s as [me w]. unfold RunShengBTE.prepare, bind, get_self.
  rewrite !in_cwd_eq. cbn [cwd self].
  destruct (load_structure_data_pure "structure_data.json" w) as [[sd | e] ->];
    cbn [fst snd]; [| by left].
  pose proof (set_temperature_cwd (default T_KLAT (temperature me))
                {| self := me; cwd := w |}) as Hcwd.
  destruct (set_temperature _ _) as [[[] | e] [me' w']]; cbn [snd cwd] in Hcwd;
    subst w'; [| by left].
  cbn [self]. unfold lift.
  destruct (from_structure _ _) as [control | e]; [| by left].
  rewrite !in_cwd_eq. unfold write. cbn [cwd self files log fst snd].
  destruct (shengbte_cmd me') as [c|]; cbn; [done | by right].
Qed.

Lemma call_log (cmd : list string) (w : world) :
  match (call subprocess_call cmd w).1 with
  | Returned _ =>
      log (call subprocess_call cmd w).2 =
        log w ++ [Wrote "shengbte.out"; Wrote "shengbte_err.txt"; Ran cmd]
  | Raised _ =>
      log (call subprocess_call cmd w).2 =
        log w ++ [Wrote "shengbte.out"; Wrote "shengbte_err.txt"]
  end.
Proof.
  unfold call, bind, write. cbn [files log].
  destruct (subprocess_call cmd _) as [r | e]; cbn [fst snd log];
    by rewrite <- !app_assoc.
Qed.


End ShengBTERun.

Section ShengBTERunWitnesses.
Local Existing Instance Sample.domain.
Import RunShengBTE Sample.ShengBTE.

Lemma shengbte_dict_missing_key_witness :
  exists key s',
    run "ShengBTE"
      (Some (TDict (<["min" := Qc_of_Z 100]> {[ "max" := Qc_of_Z 300 ]}))) =
      (Raised (KeyError key), s') /\
    (<["min" := Qc_of_Z 100]> {[ "max" := Qc_of_Z 300 ]} : gmap string Qc)
      !! key = None /\
    cwd s' = boot directory.
Proof.
  apply (@shengbte_dict_missing_key Sample.domain T_KLAT diag from_structure
           env_chk shlex_split subprocess_call getcwd
           (start "ShengBTE"
              (Some (TDict (<["min" := Qc_of_Z 100]>
                              {[ "max" := Qc_of_Z 300 ]}))))
           context).
  - reflexivity.
  - reflexivity.
  - right. right. reflexivity.
Defined.


(** The solver cannot be started: both streams are there, nothing ran. *)
Example shengbte_missing_executable :
  (run "missing" None).1 = Raised (FileNotFoundError "missing") /\
  log (cwd (run "missing" None).2) =
  [Wrote "CONTROL"; Wrote "shengbte.out"; Wrote "shengbte_err.txt"].
Proof. split; reflexivity. Qed.

End ShengBTERunWitnesses.

(** ** CollectPerturbedStructures and RunHiPhive: all or nothing *)

Section CollectAtomic.
Import CollectPerturbedStructures.
Context `{Domain}.
Variable assimilate_structure : string -> outcome Structure.
Variable apply_transformation : Matrix -> Structure -> Structure.

Local Abbreviation run_task := (run_task assimilate_structure apply_transformation).

(** What a run of the aggregation leaves, by outcome. *)
Lemma run_task_leaves (spec : fw_spec) (fs : gmap string artifact) :
  match (run_task spec (boot fs)).1 with
  | Raised _ => (run_task spec (boot fs)).2 = boot fs
  | Returned _ =>
      exists sd,
        RunHiPhive.aggregated_in (files (run_task spec (boot fs)).2)
          (structure <$> default [] (perturbed_tasks spec))
          (forces <$> default [] (perturbed_tasks spec)) sd /\
        sd_supercell_structure sd =
          apply_transformation (sd_supercell_matrix sd) (sd_structure sd) /\
        log (run_task spec (boot fs)).2 =
          [Wrote "perturbed_structures.json"; Wrote "perturbed_forces.json";
           Wrote "structure_data.json"]
  end.
Proof.
  unfold run_task. destruct (default [] (perturbed_tasks spec)) as [|r rs];
    [done |].
  rewrite decide_False by done. cbn zeta. unfold bind.
  destruct (last _) as [opt|].
  - unfold lift. destruct (assimilate_structure (path opt)) as [parent | e];
      [| done].
    cbn.
    exists {| sd_structure := parent;
              sd_supercell_structure :=
                apply_transformation (supercell_matrix r) parent;
              sd_supercell_matrix := supercell_matrix r |}.
    unfold RunHiPhive.aggregated_in. repeat split; by simplify_map_eq.
  - cbn.
    exists {| sd_structure := parent_structure r;
              sd_supercell_structure :=
                apply_transformation (supercell_matrix r) (parent_structure r);
              sd_supercell_matrix := supercell_matrix r |}.
    unfold RunHiPhive.aggregated_in. repeat split; by simplify_map_eq.
Qed.

(** X11. The aggregation writes its three files or none: when it raises,
    be it for want of samples or because the optimization directory could
    not be parsed, the directory is as it was; when it returns, the three
    files hold one structure and one force array per sample, in the order
    of the samples, and the supercell is the transformation of the stored
    matrix applied to the stored parent. *)
Theorem collect_all_or_nothing (spec : fw_spec) (fs : gmap string artifact) :
  match (run_task spec (boot fs)).1 with
  | Raised _ => (run_task spec (boot fs)).2 = boot fs
  | Returned _ =>
      exists sd,
        RunHiPhive.aggregated_in (files (run_task spec (boot fs)).2)
          (structure <$> default [] (perturbed_tasks spec))
          (forces <$> default [] (perturbed_tasks spec)) sd /\
        sd_supercell_structure sd =
          apply_transformation (sd_supercell_matrix sd) (sd_structure sd) /\
        log (run_task spec (boot fs)).2 =
          [Wrote "perturbed_structures.json"; Wrote "perturbed_forces.json";
           Wrote "structure_data.json"]
  end.
Proof. exact (run_task_leaves spec fs). Qed.

End CollectAtomic.

Section HiPhiveAtomic.
Import RunHiPhive.
Context `{Domain}.
Variable IMAGINARY_TOL : Data.
Variable FIT_METHOD : string.
Variable T_QHA : Data.
Variable get_cutoffs : Structure -> list Cutoff.
Variable get_atoms : Structure -> Atoms.
Variable get_displacements : Atoms -> Atoms -> Forces.
Variable new_array : string -> Forces -> Atoms -> Atoms.
Variable with_positions_of : Atoms -> Atoms -> Atoms.
Variable fit_force_constants :
  Structure -> Matrix -> list Atoms -> list Cutoff -> bool -> Data -> string ->
  option ForceConstants * Parameters * ClusterSpace * gmap string value.
Variable harmonic_properties :
  Structure -> Matrix -> ForceConstants -> Data -> Data ->
  gmap string value * Phonopy.
Variable anharmonic_properties :
  Phonopy -> ForceConstants -> Data -> value -> value -> option Data ->
  gmap string value * Phonopy.

Local Abbreviation fit :=
  (fit IMAGINARY_TOL FIT_METHOD get_cutoffs get_atoms get_displacements
     new_array with_positions_of fit_force_constants).
Local Abbreviation harmonic := (harmonic IMAGINARY_TOL T_QHA harmonic_properties).
Local Abbreviation run_task :=
  (run_task IMAGINARY_TOL FIT_METHOD T_QHA get_cutoffs get_atoms
     get_displacements new_array with_positions_of fit_force_constants
     harmonic_properties anharmonic_properties).

Lemma load_structures_pure (path : string) (w : world) :
  exists o, load_structures path w = (o, w).
Proof.
  unfold load_structures, bind, loadfn.
  destruct (files w !! path) as [a|]; [| eexists; reflexivity].
  destruct a; eexists; reflexivity.
Qed.

Lemma load_forces_pure (path : string) (w : world) :
  exists o, load_forces path w = (o, w).
Proof.
  unfold load_forces, bind, loadfn.
  destruct (files w !! path) as [a|]; [| eexists; reflexivity].
  destruct a; eexists; reflexivity.
Qed.

Lemma load_data_pure (path : string) (w : world) :
  exists o, load_structure_data path w = (o, w).
Proof.
  unfold load_structure_data, bind, loadfn.
  destruct (files w !! path) as [a|]; [| eexists; reflexivity].
  destruct a; eexists; reflexivity.
Qed.

(** X12. The fit writes all of its files or none: whenever the task
    raises, whatever the reason, the directory is as it was; whenever it
    returns it has written its five files in a fixed order, followed by
    the two exports or by nothing. *)
Theorem hiphive_all_or_nothing (self : params) (fs : gmap string artifact) :
  match (run_task self (boot fs)).1 with
  | Raised _ => (run_task self (boot fs)).2 = boot fs
  | Returned _ =>
      exists exports,
        log (run_task self (boot fs)).2 =
          [Wrote "fitting_data.json"; Wrote "thermal_data_qha.json";
           Wrote "force_constants.fcs"; Wrote "parameters.txt";
           Wrote "cluster_space.cs"] ++ exports /\
        (exports = [] \/
         exports = [Wrote "FORCE_CONSTANTS_3RD"; Wrote "FORCE_CONSTANTS_2ND"])
  end.
Proof.
  unfold run_task, bind.
  destruct (load_structures_pure "perturbed_structures.json" (boot fs))
    as [[structures | e] ->]; [| done].
  destruct (load_forces_pure "perturbed_forces.json" (boot fs))
    as [[forces | e] ->]; [| done].
  destruct (load_data_pure "structure_data.json" (boot fs))
    as [[sd | e] ->]; [| done].
  destruct (fit self structures forces sd) as [[[[fcs|] param] cs] fitting_data];
    [| done].
  destruct (harmonic self sd fcs) as [thermal_data phonopy].
  unfold pop, bind, getitem.
  destruct (thermal_data !! "heat_capacity") as [heat_capacity|]; [| done].
  destruct (thermal_data !! "n_imaginary") as [n|]; [| done]. cbn [ret].
  destruct (anharmonic_properties _ _ _ _ _ _) as [anharmonic_data phonopy'].
  cbn [ret fst snd write boot files log app].
  rewrite lookup_insert_eq. cbn [ret].
  destruct (is_zero n); cbn [ret write fst snd files log app].
  - exists [Wrote "FORCE_CONSTANTS_3RD"; Wrote "FORCE_CONSTANTS_2ND"]. auto.
  - exists []. auto.
Qed.

(** X13. In [thermal_data_qha.json] the anharmonic properties take
    precedence over the harmonic ones, and the harmonic [n_imaginary] is
    not there: it has moved to [fitting_data.json]. *)
Theorem hiphive_thermal_data (self : params) (fs : gmap string artifact)
    (structures : list Structure) (forces : list Forces) (sd : structure_data)
    (fcs : ForceConstants) (param : Parameters) (cs : ClusterSpace)
    (fitting_data thermal_data anharmonic_data : gmap string value)
    (phonopy phonopy' : Phonopy) (heat_capacity n : value) :
  aggregated_in fs structures forces sd ->
  fit self structures forces sd = (Some fcs, param, cs, fitting_data) ->
  harmonic self sd fcs = (thermal_data, phonopy) ->
  thermal_data !! "heat_capacity" = Some heat_capacity ->
  thermal_data !! "n_imaginary" = Some n ->
  anharmonic_properties phonopy fcs T_QHA heat_capacity n (bulk_modulus self) =
    (anharmonic_data, phonopy') ->
  exists stored,
    (run_task self (boot fs)).1 = Returned tt /\
    files (run_task self (boot fs)).2 !! "thermal_data_qha.json" =
      Some (DictJson stored) /\
    files (run_task self (boot fs)).2 !! "fitting_data.json" =
      Some (DictJson (<["n_imaginary" := n]> fitting_data)) /\
    forall key,
      stored !! key =
      match anharmonic_data !! key with
      | Some v => Some v
      | None => if decide (key = "n_imaginary") then None
                else thermal_data !! key
      end.
Proof.
  intros (Hstructures & Hforces & Hsd) Hfit Hharmonic Hheat Hn Hanharmonic.
  assert (exists w,
            run_task self (boot fs) = (Returned tt, w) /\
            files w !! "thermal_data_qha.json" =
              Some (DictJson (anharmonic_data ∪ delete "n_imaginary" thermal_data)) /\
            files w !! "fitting_data.json" =
              Some (DictJson (<["n_imaginary" := n]> fitting_data)))
    as (w & Hrun & Hqha & Hfitting).
  { unfold run_task.
    rewrite (bind_returned _ _ _ _ _
               (load_structures_some (boot fs) _ _ Hstructures)).
    rewrite (bind_returned _ _ _ _ _ (load_forces_some (boot fs) _ _ Hforces)).
    rewrite (bind_returned _ _ _ _ _
               (load_structure_data_some (boot fs) _ _ Hsd)).
    rewrite Hfit, Hharmonic.
    rewrite (bind_returned _ _ _ _ _ (getitem_some _ _ _ _ Hheat)).
    rewrite (bind_returned _ _ _ _ _ (getitem_some _ _ _ _ Hn)).
    rewrite Hanharmonic. unfold pop.
    rewrite (bind_returned _ _ _ _ _
               (bind_returned _ _ _ _ _ (getitem_some _ _ _ _ Hn))).
    cbn [fst snd ret].
    unfold bind at 1 2 3 4 5. cbn [write boot files log app].
    rewrite (bind_returned _ _ _ _ _
               (getitem_some _ _ _ _ (lookup_insert_eq _ _ _))).
    destruct (is_zero n); unfold bind; cbn [ret write fst snd files log];
      eexists; (split; [reflexivity |]); cbn [files];
      split; by simplify_map_eq. }
  rewrite Hrun. cbn [fst snd].
  exists (anharmonic_data ∪ delete "n_imaginary" thermal_data).
  repeat split; try done.
  intros key. rewrite lookup_union.
  destruct (anharmonic_data !! key) as [v|];
    [by destruct (delete _ _ !! key) |].
  rewrite (left_id None _). case_decide as Hkey.
  - subst key. apply lookup_delete_eq.
  - by rewrite lookup_delete_ne.
Qed.

(** X14. The samples are paired position by position: the fit receives
    one displaced supercell per pair, as many as the shorter of the two
    lists has entries, and the one at position [i] is made of the
    structure and of the forces at position [i]; what one list has beyond
    the length of the other never reaches the fit. *)
Theorem hiphive_fit_pairs (self : params) (structures : list Structure)
    (forces : list Forces) (sd : structure_data) :
  exists samples,
    fit self structures forces sd =
      fit_force_constants (sd_structure sd) (sd_supercell_matrix sd) samples
        (cutoffs_or get_cutoffs self (sd_supercell_structure sd))
        (default false (separate_fit self))
        (default IMAGINARY_TOL (imaginary_tol self))
        (default FIT_METHOD (fit_method self)) /\
    length samples = (length structures `min` length forces)%nat /\
    forall i structure f,
      structures !! i = Some structure ->
      forces !! i = Some f ->
      samples !! i =
        Some (with_positions_of (get_atoms (sd_supercell_structure sd))
                (new_array "forces" f
                   (new_array "displacements"
                      (get_displacements (get_atoms structure)
                         (get_atoms (sd_supercell_structure sd)))
                      (get_atoms structure)))).
Proof.
  eexists. split; [reflexivity |]. split.
  - by rewrite length_fmap, length_zip_with.
  - intros i structure f Hstructure Hf.
    rewrite list_lookup_fmap, lookup_zip_with, Hstructure. cbn.
    by rewrite Hf.
Qed.

End HiPhiveAtomic.

Section HiPhiveAtomicWitnesses.
Local Existing Instance Sample.domain.
Import RunHiPhive Sample.HiPhive.

Lemma hiphive_thermal_data_witness :
  exists stored,
    (run "Si2").1 = Returned tt /\
    files (run "Si2").2 !! "thermal_data_qha.json" = Some (DictJson stored) /\
    stored !! "n_imaginary" = None /\
    stored !! "heat_capacity" = Some heat_capacity.
Proof.
  destruct (@hiphive_thermal_data Sample.domain 0%Z "rfe" 300%Z get_cutoffs
              get_atoms get_displacements new_array with_positions_of
              fit_force_constants harmonic_properties anharmonic_properties
              self (directory "Si2") ["displaced"] [[1; -1]%Z] (context "Si2")
              "fcs:Si2" [1; 2]%Z "cs" diagnostics (thermal_data 0)
              (anharmonic_properties "phonopy" "fcs:Si2" 300%Z heat_capacity
                 (VInt 0) None).1
              "phonopy" "phonopy" heat_capacity (VInt 0))
    as (stored & Hrun & Hfile & _ & Hkeys).
  - repeat split; reflexivity.
  - reflexivity.
  - reflexivity.
  - reflexivity.
  - reflexivity.
  - reflexivity.
  - exists stored. rewrite !Hkeys. by repeat split.
Defined.

End HiPhiveAtomicWitnesses.

(** ** RunHiPhiveRenorm: what the task can leave behind *)

Section RenormOutcomes.
Import RunHiPhiveRenorm.
Context `{Domain}.
Variable IMAGINARY_TOL : Data.
Variable FIT_METHOD : string.
Variable T_RENORM : list Qc.
Variable get_atoms : Structure -> Atoms.
Variable renormalization :
  Structure -> Matrix -> ClusterSpace -> ForceConstants -> Parameters ->
  Qc -> Data -> Data -> Data -> option renorm_result.
Variable argsort : list Qc -> list nat.
Variable str : Qc -> string.

Local Abbreviation run_task :=
  (run_task IMAGINARY_TOL FIT_METHOD T_RENORM get_atoms renormalization
     argsort str).
Local Abbreviation first_pass := (first_pass renormalization).
Local Abbreviation second_pass := (second_pass renormalization).
Local Abbreviation renormalized_file := (renormalized_file str).

Lemma map_task_pure {S A B} (f : A -> task S B) (l : list A) :
  (forall x s, exists o, f x s = (o, s)) ->
  forall s, exists o, map_task f l s = (o, s).
Proof.
  intros Hf. induction l as [|x l IH]; intros s; cbn [map_task].
  - eexists. reflexivity.
  - unfold bind. destruct (Hf x s) as [[y | e] ->]; [| eexists; reflexivity].
    destruct (IH s) as [[ys | e] ->]; eexists; reflexivity.
Qed.

Lemma global_pure {S A} (name : string) (binding : option A) (s : S) :
  exists o, global name binding s = (o, s).
Proof. destruct binding; eexists; reflexivity. Qed.

Lemma index_pure {S A} (l : list A) (i : nat) (s : S) :
  exists o, index l i s = (o, s).
Proof. unfold index. destruct (l !! i); eexists; reflexivity. Qed.

Lemma first_pass_pure (g : globals) (self : params) (sd : structure_data)
    (tol : Data) (T : Qc) (w : world) :
  exists o, first_pass g self sd tol T w = (o, w).
Proof.
  unfold RunHiPhiveRenorm.first_pass, bind.
  destruct (nconfig g); [| eexists; reflexivity]. cbn.
  destruct (conv_thresh g); eexists; reflexivity.
Qed.

Lemma second_pass_pure (g : globals) (self : params) (sd : structure_data)
    (tol : Data)
    (TE : list Structure * list ClusterSpace * list ForceConstants)
    (tT : nat * Qc) (w : world) :
  exists o, second_pass g self sd tol TE tT w = (o, w).
Proof.
  unfold RunHiPhiveRenorm.second_pass, bind, index.
  destruct (TE.1.1 !! tT.1); [| eexists; reflexivity]. cbn.
  destruct (TE.1.2 !! tT.1); [| eexists; reflexivity]. cbn.
  destruct (TE.2 !! tT.1); [| eexists; reflexivity]. cbn.
  destruct (nconfig g); [| eexists; reflexivity]. cbn.
  destruct (conv_thresh g); eexists; reflexivity.
Qed.

(** The first loop never writes: it raises or goes on, with [T] unbound. *)
Lemma partition_loop_pure (bulk_modulus : option Data)
    (results : list (option renorm_result)) (l : locals) (w : world) :
  T l = None ->
  exists o,
    fold_task (partition_result str bulk_modulus) l results w = (o, w) /\
    forall l', o = Returned l' -> T l' = None.
Proof.
  revert l. induction results as [|res results IH]; intros l HT;
    cbn [fold_task].
  - eexists. split; [reflexivity |]. by intros ? [= <-].
  - destruct (partition_result_unbound str bulk_modulus l res w HT)
      as [[e He] | (l' & Hl' & HT' & _)].
    + rewrite (bind_raised _ _ _ _ _ He). eexists. split; [reflexivity | done].
    + rewrite (bind_returned _ _ _ _ _ Hl'). by apply IH.
Qed.

Lemma append_key_keeps (r : renorm_result) (d d' : gmap string (list value))
    (key : string) (w w' : world) :
  d !! "n_imaginary" = None ->
  append_key r d key w = (Returned d', w') ->
  d' !! "n_imaginary" = None.
Proof.
  intros Hd. unfold append_key, bind at 1, getitem.
  destruct (d !! key) as [column|] eqn:Hkey; [| discriminate]. cbn [ret].
  unfold bind at 1. destruct (item_pure r key w) as [[values | e] ->];
    [| discriminate].
  unfold bind, index. destruct (values !! 0%nat); [| discriminate].
  intros [= <- <-]. rewrite lookup_insert_ne; [done |]. by intros ->; simplify_eq.
Qed.

Lemma append_keys_keep (r : renorm_result) (keys : list string)
    (d d' : gmap string (list value)) (w w' : world) :
  d !! "n_imaginary" = None ->
  fold_task (append_key r) d keys w = (Returned d', w') ->
  d' !! "n_imaginary" = None.
Proof.
  revert d w. induction keys as [|key keys IH]; intros d w Hd; cbn [fold_task].
  - by intros [= <- <-].
  - unfold bind. destruct (append_key r d key w) as [[d1 | e] w1] eqn:Hstep;
      [| discriminate].
    apply IH. by eapply append_key_keeps.
Qed.

(** One record of the second pass: whatever happens, what is added to the
    log are files of the second pass, and a dict without ["n_imaginary"]
    stays without it. *)
Lemma write_renormalized_step (acc : option Qc * gmap string (list value))
    (res : option renorm_result) (w w' : world)
    (o : outcome (option Qc * gmap string (list value))) :
  acc.2 !! "n_imaginary" = None ->
  write_renormalized str acc res w = (o, w') ->
  exists added,
    log w' = log w ++ added /\
    Forall renormalized_file added /\
    forall acc', o = Returned acc' -> acc'.2 !! "n_imaginary" = None.
Proof.
  intros Hacc. unfold write_renormalized.
  destruct res as [r|];
    [| intros [= <- <-]; exists []; by rewrite app_nil_r].
  unfold bind, index, local, write.
  destruct (temperature r !! 0%nat) as [T0|];
    [| intros [= <- <-]; exists []; by rewrite app_nil_r].
  cbn [ret].
  destruct (r_fcs r !! 0%nat) as [fcs|];
    [| intros [= <- <-]; exists []; by rewrite app_nil_r].
  cbn [ret files log].
  assert (renormalized_file (Wrote (fcs_name str T0))) as Hfcs
    by (exists T0; auto).
  assert (renormalized_file (Wrote (parameters_name str T0))) as Hparam
    by (exists T0; auto).
  assert (renormalized_file (Wrote (phonopy_name str T0))) as Hphonopy
    by (exists T0; auto).
  destruct (r_param r !! 0%nat) as [p|];
    [| intros [= <- <-]; exists [Wrote (fcs_name str T0)]; cbn;
       by repeat constructor].
  cbn [ret files log].
  match goal with |- context [fold_task ?f ?a ?l ?s] =>
    destruct (fold_task_pure f l (append_key_pure r) a s)
      as [[thermal_data | e] Hfold];
    pose proof (append_keys_keep r l a) as Hkeep;
    rewrite Hfold
  end;
    [| intros [= <- <-];
       exists [Wrote (fcs_name str T0); Wrote (parameters_name str T0)];
       cbn; rewrite <- app_assoc; by repeat constructor].
  specialize (Hkeep thermal_data _ _ Hacc Hfold).
  destruct (bool_decide (0 < n_imaginary r)%Z); cbn; intros [= <- <-].
  - exists [Wrote (fcs_name str T0); Wrote (parameters_name str T0)].
    cbn. rewrite <- app_assoc. split; [done |].
    split; [by repeat constructor |]. by intros ? [= <-].
  - exists [Wrote (fcs_name str T0); Wrote (parameters_name str T0);
            Wrote (phonopy_name str T0)].
    cbn. rewrite <- !app_assoc. split; [done |].
    split; [by repeat constructor |]. by intros ? [= <-].
Qed.

Lemma write_renormalized_loop (results : list (option renorm_result))
    (acc : option Qc * gmap string (list value)) (w w' : world)
    (o : outcome (option Qc * gmap string (list value))) :
  acc.2 !! "n_imaginary" = None ->
  fold_task (write_renormalized str) acc results w = (o, w') ->
  exists added,
    log w' = log w ++ added /\
    Forall renormalized_file added /\
    forall acc', o = Returned acc' -> acc'.2 !! "n_imaginary" = None.
Proof.
  revert acc w. induction results as [|res results IH]; intros acc w Hacc;
    cbn [fold_task].
  - intros [= <- <-]. exists []. rewrite app_nil_r. split; [done |].
    split; [done |]. by intros ? [= <-].
  - unfold bind.
    destruct (write_renormalized str acc res w) as [[acc1 | e] w1] eqn:Hstep;
      destruct (write_renormalized_step acc res w _ _ Hacc Hstep)
        as (added & Hlog & Hadded & Hkeep).
    + intros Hrest.
      destruct (IH acc1 w1 (Hkeep acc1 eq_refl) Hrest)
        as (more & Hlog' & Hmore & Hkeep').
      exists (added ++ more). rewrite Hlog', Hlog, app_assoc.
      split; [done |]. split; [by apply Forall_app | done].
    + intros [= <- <-]. exists added. split; [done |]. split; [done | discriminate].
Qed.

Lemma not_renormalized_file :
  ~ renormalized_file (Wrote "thermal_data_renorm.json").
Proof.
  intros [T0 [Heq | [Heq | Heq]]]; discriminate.
Qed.

(** X16. The task never writes [thermal_data_renorm.json], and it returns
    only when it has written nothing at all: every run that reaches a
    write ends in an exception. *)
Theorem renorm_returns_empty_handed (g : globals) (self : params)
    (fs : gmap string artifact) :
  ~ written "thermal_data_renorm.json" (run_task g self (boot fs)).2 /\
  ((run_task g self (boot fs)).1 = Returned tt ->
   (run_task g self (boot fs)).2 = boot fs).
Proof.
  assert (~ written "thermal_data_renorm.json" (boot fs)) as Hboot.
  { unfold written. cbn. by intros ?%elem_of_nil. }
  unfold run_task, bind.
  destruct (load_structure_data_pure "structure_data.json" (boot fs))
    as [[sd | e] ->]; [| done].
  destruct (map_task_pure
              (first_pass g self sd (default IMAGINARY_TOL (imaginary_tol self)))
              (default T_RENORM (T_renorm self))
              (first_pass_pure g self sd _) (boot fs))
    as [[results | e] ->]; [| done].
  destruct (partition_loop_pure (bulk_modulus self) results
              {| T := None; result := None; T_real := []; cte_real := [];
                 fcs_real := []; param_real := [] |} (boot fs) eq_refl)
    as (o & -> & HT).
  destruct o as [l | e]; [| done].
  specialize (HT l eq_refl).
  case_decide; [done |].
  destruct (_ && _).
  - unfold local. destruct (result l) as [[r|]|]; try done.
    rewrite HT. cbn [ret].
    destruct (write_directly_unbound str r (boot fs)) as [e ->]. done.
  - unfold take_indices.
    destruct (map_task_pure (index (T_real l)) (argsort (T_real l))
                (index_pure _) (boot fs)) as [[T_sorted | e] ->]; [| done].
    destruct (map_task_pure (index (cte_real l)) (argsort (T_real l))
                (index_pure _) (boot fs)) as [[cte_sorted | e] ->]; [| done].
    destruct (global_pure "thermal_expansion" (thermal_expansion_fn g) (boot fs))
      as [[thermal_expansion | e] ->]; [| done].
    destruct (global_pure "setup_TE_renorm" (setup_TE_renorm g) (boot fs))
      as [[setup | e] ->]; [| done].
    match goal with |- context [map_task ?f ?l (boot fs)] =>
      destruct (map_task_pure f l (second_pass_pure g self sd _ _) (boot fs))
        as [[renormalized | e] ->]; [| done]
    end.
    destruct (fold_task _ _ renormalized (boot fs)) as [[acc | e] w] eqn:Hloop;
      match type of Hloop with
      | fold_task _ ?a _ _ = _ =>
          destruct (write_renormalized_loop _ a _ _ _ eq_refl Hloop)
            as (added & Hlog & Hadded & Hkeep)
      end.
    + unfold pop, bind, getitem. rewrite (Hkeep acc eq_refl). cbn [raise snd fst].
      split; [| done]. unfold written. rewrite Hlog. cbn.
      intros Hin. rewrite Forall_forall in Hadded.
      by apply not_renormalized_file, Hadded.
    + cbn [fst snd]. split; [| done]. unfold written. rewrite Hlog. cbn.
      intros Hin. rewrite Forall_forall in Hadded.
      by apply not_renormalized_file, Hadded.
Qed.

(** X17. With [nconfig] unbound, as the module leaves it, every run with a
    temperature to renormalize raises [NameError] on that name and writes
    nothing. *)
Theorem renorm_unbound_nconfig (g : globals) (self : params)
    (fs : gmap string artifact) (sd : structure_data) :
  fs !! "structure_data.json" = Some (StructureDataJson sd) ->
  nconfig g = None ->
  default T_RENORM (T_renorm self) <> [] ->
  run_task g self (boot fs) = (Raised (NameError "nconfig"), boot fs).
Proof.
  intros Hsd Hnconfig Hne. unfold run_task.
  rewrite (bind_returned _ _ _ _ _ (load_structure_data_some (boot fs) _ _ Hsd)).
  destruct (default T_RENORM (T_renorm self)) as [|T0 Ts]; [done |].
  cbn [map_task]. unfold bind, RunHiPhiveRenorm.first_pass, bind.
  by rewrite Hnconfig.
Qed.


End RenormOutcomes.

Section RenormOutcomesWitnesses.
Local Existing Instance Sample.domain.
Import RunHiPhiveRenorm Sample.Renorm.

Lemma renorm_returns_empty_handed_witness :
  ~ written "thermal_data_renorm.json"
      (run bound [Qc_of_Z 100; Qc_of_Z 200] (Some 100%Z)).2 /\
  (run bound [] None).2 = boot directory.
Proof.
  split.
  - apply (@renorm_returns_empty_handed Sample.domain 0%Z "rfe" []
             get_atoms renormalization argsort str bound
             (self [Qc_of_Z 100; Qc_of_Z 200] (Some 100%Z)) directory).
  - apply (@renorm_returns_empty_handed Sample.domain 0%Z "rfe" []
             get_atoms renormalization argsort str bound (self [] None)
             directory).
    reflexivity.
Defined.

Lemma renorm_unbound_nconfig_witness :
  run unbound [Qc_of_Z 300] None = (Raised (NameError "nconfig"), boot directory).
Proof.
  apply (@renorm_unbound_nconfig Sample.domain 0%Z "rfe" [] get_atoms
           renormalization argsort str unbound (self [Qc_of_Z 300] None)
           directory
           {| sd_structure := "Si2" : @Structure Sample.domain;
              sd_supercell_structure := "Si16" : @Structure Sample.domain;
              sd_supercell_matrix := [2; 2; 2]%Z : @Matrix Sample.domain |}).
  - reflexivity.
  - reflexivity.
  - discriminate.
Defined.


Lemma write_renormalized_names_witness :
  exists T0,
    temperature (record (Qc_of_Z 100)) !! 0%nat = Some T0 /\
    log (write_renormalized str
           (None, list_to_map ((fun key => (key, [])) <$> thermal_keys))
           (Some (record (Qc_of_Z 100))) (boot ∅)).2 =
      log (boot ∅) ++ [Wrote (fcs_name str T0); Wrote (parameters_name str T0)] ++
      (if bool_decide (0 < n_imaginary (record (Qc_of_Z 100)))%Z then []
       else [Wrote (phonopy_name str T0)]).
Proof.
  destruct (write_renormalized str
              (None, list_to_map ((fun key => (key, [])) <$> thermal_keys))
              (Some (record (Qc_of_Z 100))) (boot ∅))
    as [[acc' | e] w'] eqn:Hrun.
  - destruct (@write_renormalized_names Sample.domain str _ _ _ _ _ Hrun)
      as (T0 & HT & _ & Hlog).
    exists T0. split; [exact HT | exact Hlog].
  - vm_compute in Hrun. discriminate.
Defined.

End RenormOutcomesWitnesses.

(** ** ForceConstantsToDb: what reaches the database *)

Section ForceConstantsToDbFacts.
Import Database ForceConstantsToDb.
Context `{Domain}.
Context {Grid ObjectId FcArray : Type}.
Variable MESH_DENSITY : Data.
Variable insert_gridfs : string -> string -> Grid -> ObjectId * Grid.
Variable FObjectId : ObjectId -> @field _.
Variable get_fc_array : ForceConstants -> FcArray.
Variable uniform_bs_json : Structure -> Matrix -> FcArray -> string.
Variable lm_bs_json : Structure -> Matrix -> FcArray -> string.
Variable dos_json : Structure -> Matrix -> FcArray -> Data -> string.
Variable fc_json : ForceConstants -> string.
Variable as_dict : Structure -> Data.
Variable reduced_formula : Structure -> string.
Variable tolist : Forces -> Data.
Variable utcnow : Data.
Variable getcwd : string.
Variable sanitize : @field _ -> @field _.

Local Abbreviation _get_fc_fsid :=
  (_get_fc_fsid insert_gridfs get_fc_array uniform_bs_json lm_bs_json dos_json
     fc_json).
Local Abbreviation document :=
  (document FObjectId as_dict reduced_formula tolist utcnow).
Local Abbreviation metadata := (metadata getcwd).
Local Abbreviation run_task :=
  (run_task MESH_DENSITY insert_gridfs FObjectId get_fc_array uniform_bs_json
     lm_bs_json dos_json fc_json as_dict reduced_formula tolist utcnow getcwd
     sanitize).

Lemma in_cwd_pure {A} (m : task world A) (s : site Grid) :
  (exists o, m (cwd s) = (o, cwd s)) ->
  exists o, in_cwd m s = (o, s).
Proof.
  intros [o Hm]. exists o. unfold in_cwd. rewrite Hm. by destruct s.
Qed.

Lemma load_dict_pure (path : string) (w : world) :
  exists o, load_dict path w = (o, w).
Proof.
  unfold load_dict, bind, loadfn.
  destruct (files w !! path) as [a|]; [| eexists; reflexivity].
  destruct a; eexists; reflexivity.
Qed.

Lemma read_fcs_pure (path : string) (w : world) :
  exists o, read_fcs path w = (o, w).
Proof.
  unfold read_fcs, bind, loadfn.
  destruct (files w !! path) as [a|]; [| eexists; reflexivity].
  destruct a; eexists; reflexivity.
Qed.

(** A load that returns has found its file. *)
Lemma load_structure_data_reads (path : string) (w : world) :
  forall x, (load_structure_data path w).1 = Returned x ->
            is_Some (files w !! path).
Proof.
  intros x. unfold load_structure_data, bind, loadfn.
  destruct (files w !! path); [by eauto | discriminate].
Qed.

Lemma load_forces_reads (path : string) (w : world) :
  forall x, (load_forces path w).1 = Returned x -> is_Some (files w !! path).
Proof.
  intros x. unfold load_forces, bind, loadfn.
  destruct (files w !! path); [by eauto | discriminate].
Qed.

Lemma load_structures_reads (path : string) (w : world) :
  forall x, (load_structures path w).1 = Returned x ->
            is_Some (files w !! path).
Proof.
  intros x. unfold load_structures, bind, loadfn.
  destruct (files w !! path); [by eauto | discriminate].
Qed.

Lemma load_dict_reads (path : string) (w : world) :
  forall x, (load_dict path w).1 = Returned x -> is_Some (files w !! path).
Proof.
  intros x. unfold load_dict, bind, loadfn.
  destruct (files w !! path); [by eauto | discriminate].
Qed.

Lemma read_fcs_reads (path : string) (w : world) :
  forall x, (read_fcs path w).1 = Returned x -> is_Some (files w !! path).
Proof.
  intros x. unfold read_fcs, bind, loadfn.
  destruct (files w !! path); [by eauto | discriminate].
Qed.

Lemma in_cwd_loaded {A} (m : task world A) (s s' : site Grid) (x : A)
    (path : string) :
  (forall y, (m (cwd s)).1 = Returned y -> is_Some (files (cwd s) !! path)) ->
  in_cwd m s = (Returned x, s') ->
  is_Some (files (cwd s) !! path).
Proof.
  intros Hreads Hrun. apply (Hreads x). unfold in_cwd in Hrun.
  by injection Hrun as -> _.
Qed.

Lemma fc_fitting_id_next (c : FcFittingId.collection) :
  exists c',
    FcFittingId._get_fc_fitting_id c =
      (Returned (default 0 (FcFittingId.counter c) + 1)%Z, c') /\
    FcFittingId.counter c' = Some (default 0 (FcFittingId.counter c) + 1)%Z.
Proof.
  destruct (FcFittingId.counter c) as [n|] eqn:Hc.
  - destruct (next_allocation c n Hc) as (doc & _ & _ & Hget).
    eexists. split; [exact Hget |].
    rewrite counter_insert. by rewrite lookup_insert_eq.
  - eexists. split; [exact (first_allocation c Hc) |].
    by rewrite counter_insert.
Qed.

(** The store after the four objects went to grid storage. *)
Lemma fsid_returns (structure : Structure) (supercell_matrix : Matrix)
    (fcs : ForceConstants) (mesh_density : Data) (s : site Grid) :
  exists ids g,
    _get_fc_fsid structure supercell_matrix fcs mesh_density s =
      (Returned ids,
       {| cwd := cwd s;
          db := {| counter := counter (db s); inserted := inserted (db s);
                   grid := g |} |}).
Proof.
  unfold ForceConstantsToDb._get_fc_fsid, bind, gridfs, ret.
  cbn [cwd db counter inserted grid]. eexists _, _. reflexivity.
Qed.

(** Either an input is missing and nothing happened, or the task went
    through and the store is the one described. *)
Lemma run_task_cases (self : params) (fw_spec : gmap string field)
    (s : site Grid) :
  (exists e, run_task self fw_spec s = (Raised e, s)) \/
  (exists (c' : FcFittingId.collection) (g : Grid)
          (computed : gmap string field),
     Forall (fun path => is_Some (files (cwd s) !! path)) inputs /\
     FcFittingId.counter c' = Some (next_id s) /\
     run_task self fw_spec s =
       (Returned (metadata (next_id s)),
        {| cwd := cwd s;
           db := {| counter := c';
                    inserted :=
                      inserted (db s) ++
                      [("lattice_dynamics",
                        sanitize <$>
                          (metadata (next_id s) ∪
                             (default ∅ (additional_fields self) ∪ computed)))];
                    grid := g |} |})).
Proof.
  unfold ForceConstantsToDb.run_task.
  destruct (in_cwd_pure _ s (load_structure_data_pure "structure_data.json" _))
    as [[sd | e] H1];
    [| left; exists e; unfold bind at 1; by rewrite H1].
  destruct (in_cwd_pure _ s (load_forces_pure "perturbed_forces.json" _))
    as [[forces | e] H2];
    [| left; exists e; unfold bind at 1; rewrite H1; unfold bind at 1;
       by rewrite H2].
  destruct (in_cwd_pure _ s (load_structures_pure "perturbed_structures.json" _))
    as [[structures | e] H3];
    [| left; exists e; unfold bind at 1; rewrite H1; unfold bind at 1;
       rewrite H2; unfold bind at 1; by rewrite H3].
  destruct (in_cwd_pure _ s (load_dict_pure "fitting_data.json" _))
    as [[fitting_data | e] H4];
    [| left; exists e; unfold bind at 1; rewrite H1; unfold bind at 1;
       rewrite H2; unfold bind at 1; rewrite H3; unfold bind at 1;
       by rewrite H4].
  destruct (in_cwd_pure _ s (load_dict_pure "thermal_data_qha.json" _))
    as [[thermal_data | e] H5];
    [| left; exists e; unfold bind at 1; rewrite H1; unfold bind at 1;
       rewrite H2; unfold bind at 1; rewrite H3; unfold bind at 1;
       rewrite H4; unfold bind at 1; by rewrite H5].
  destruct (in_cwd_pure _ s (read_fcs_pure "force_constants.fcs" _))
    as [[fcs | e] H6];
    [| left; exists e; unfold bind at 1; rewrite H1; unfold bind at 1;
       rewrite H2; unfold bind at 1; rewrite H3; unfold bind at 1;
       rewrite H4; unfold bind at 1; rewrite H5; unfold bind at 1;
       by rewrite H6].
  right.
  destruct (fsid_returns (sd_structure sd) (sd_supercell_matrix sd) fcs
              (default MESH_DENSITY (mesh_density self)) s)
    as (ids & g & H7).
  destruct (fc_fitting_id_next (counter (db s))) as (c' & H8 & Hc').
  exists c', g. eexists. split.
  { unfold inputs. repeat apply Forall_cons_2; [| | | | | | done].
    - by apply (in_cwd_loaded _ _ _ _ _ (load_structure_data_reads _ _) H1).
    - by apply (in_cwd_loaded _ _ _ _ _ (load_forces_reads _ _) H2).
    - by apply (in_cwd_loaded _ _ _ _ _ (load_structures_reads _ _) H3).
    - by apply (in_cwd_loaded _ _ _ _ _ (load_dict_reads _ _) H4).
    - by apply (in_cwd_loaded _ _ _ _ _ (load_dict_reads _ _) H5).
    - by apply (in_cwd_loaded _ _ _ _ _ (read_fcs_reads _ _) H6). }
  split; [exact Hc' |].
  unfold bind at 1; rewrite H1; unfold bind at 1; rewrite H2;
    unfold bind at 1; rewrite H3; unfold bind at 1; rewrite H4;
    unfold bind at 1; rewrite H5; unfold bind at 1; rewrite H6.
  unfold bind at 1. rewrite H7.
  unfold bind, in_counter, insert_one, ret.
  cbn [cwd db counter inserted grid]. rewrite H8. cbn [fst snd].
  reflexivity.
Qed.

Lemma metadata_id (fitting_id : Z) :
  metadata fitting_id !! "fc_fitting_id" = Some (FInt fitting_id).
Proof. unfold ForceConstantsToDb.metadata. by rewrite lookup_insert_eq. Qed.

Lemma metadata_dir (fitting_id : Z) :
  metadata fitting_id !! "fc_fitting_dir" = Some (FStr getcwd).
Proof.
  unfold ForceConstantsToDb.metadata.
  rewrite lookup_insert_ne by done. by rewrite lookup_singleton_eq.
Qed.

Lemma metadata_other (fitting_id : Z) (key : string) :
  key <> "fc_fitting_id" -> key <> "fc_fitting_dir" ->
  metadata fitting_id !! key = None.
Proof.
  intros Hid Hdir. unfold ForceConstantsToDb.metadata.
  rewrite lookup_insert_ne by done. by rewrite lookup_singleton_ne.
Qed.

(** X20. The task reads its six input files before it stores anything:
    when one of them is missing it raises with the working directory and
    the database exactly as they were, no object in grid storage and no id
    used up.  When it returns, it wrote no file, the [update_spec] it
    returns holds the next value of the counter and the working directory,
    the counter holds that value, and exactly one document was added, to
    [lattice_dynamics]. *)
Theorem fc_to_db_all_or_nothing (self : params) (fw_spec : gmap string field)
    (s : site Grid) :
  (forall path,
     path ∈ ["structure_data.json"; "perturbed_forces.json";
             "perturbed_structures.json"; "fitting_data.json";
             "thermal_data_qha.json"; "force_constants.fcs"] ->
     files (cwd s) !! path = None ->
     exists e, run_task self fw_spec s = (Raised e, s)) /\
  (forall update_spec s',
     run_task self fw_spec s = (Returned update_spec, s') ->
     cwd s' = cwd s /\
     update_spec =
       <["fc_fitting_id" := FInt (next_id s)]>
         {[ "fc_fitting_dir" := FStr getcwd ]} /\
     FcFittingId.counter (counter (db s')) = Some (next_id s) /\
     exists data,
       inserted (db s') = inserted (db s) ++ [("lattice_dynamics", data)]).
Proof.
  destruct (run_task_cases self fw_spec s)
    as [[e He] | (c' & g & computed & Hfiles & Hc' & Hrun)].
  - split; [by eauto |]. intros update_spec s'. by rewrite He.
  - split.
    + intros path Hpath Hnone. rewrite Forall_forall in Hfiles.
      destruct (Hfiles path Hpath) as [a Ha]. by rewrite Hnone in Ha.
    + intros update_spec s'. rewrite Hrun. intros [= <- <-].
      cbn [cwd db counter inserted]. repeat split; [exact Hc' |].
      eexists. reflexivity.
Qed.

(** X21. In the document stored by a run that returned, the keys
    [fc_fitting_id] and [fc_fitting_dir] hold the allocated id and the
    working directory (sanitized) whatever [additional_fields] says, and
    every other key of [additional_fields] holds the value given there
    (sanitized), whatever the task computed for it. *)
Theorem fc_to_db_field_precedence (self : params)
    (fw_spec update_spec : gmap string field) (s s' : site Grid) :
  run_task self fw_spec s = (Returned update_spec, s') ->
  exists data,
    last (inserted (db s')) = Some ("lattice_dynamics", data) /\
    data !! "fc_fitting_id" = Some (sanitize (FInt (next_id s))) /\
    data !! "fc_fitting_dir" = Some (sanitize (FStr getcwd)) /\
    forall key v,
      default ∅ (additional_fields self) !! key = Some v ->
      key <> "fc_fitting_id" -> key <> "fc_fitting_dir" ->
      data !! key = Some (sanitize v).
Proof.
  destruct (run_task_cases self fw_spec s)
    as [[e ->] | (c' & g & computed & _ & Hc' & ->)]; [done |].
  intros [= <- <-]. cbn [db inserted]. eexists. split; [apply last_snoc |].
  rewrite !lookup_fmap.
  rewrite (lookup_union_Some_l _ _ _ _ (metadata_id _)).
  rewrite (lookup_union_Some_l _ _ _ _ (metadata_dir _)).
  repeat split. intros key v Hkey Hid Hdir.
  rewrite lookup_fmap, (lookup_union_r _ _ _ (metadata_other _ _ Hid Hdir)).
  by rewrite (lookup_union_Some_l _ _ _ _ Hkey).
Qed.

End ForceConstantsToDbFacts.

(** ** ShengBTEToDb: the file it reads and the document it stores *)

Section ShengBTEToDbFacts.
Import Database ShengBTEToDbTask.
Context `{Domain}.
Context {Grid : Type}.
Variable get_structure : Control -> Structure.
Variable scell_matrix : Control -> Data.
Variable control_as_dict : Control -> Data.
Variable loadtxt : artifact -> outcome (ShengBTEToDb.ndarray Qc).
Variable as_dict : Structure -> Data.
Variable reduced_formula : Structure -> string.
Variable utcnow : Data.
Variable getcwd : string.

Local Abbreviation document :=
  (document get_structure scell_matrix control_as_dict as_dict reduced_formula
     utcnow getcwd).
Local Abbreviation run_task :=
  (run_task (Grid := Grid) get_structure scell_matrix control_as_dict loadtxt
     as_dict reduced_formula utcnow getcwd).

(** The outcome of the parse is the same in every state, and the parse
    leaves the state as it is. *)
Lemma column_0_uniform {A} (rows : list (list A)) :
  exists o, forall S (s : S),
    Loops.map_task (fun row => index row 0) rows s = (o, s).
Proof.
  induction rows as [|row rows [o IH]]; cbn [Loops.map_task].
  - eexists. intros S s. reflexivity.
  - unfold bind, index.
    destruct (row !! 0%nat) as [x|].
    + destruct o as [xs | e]; eexists; intros S s; cbn; by rewrite IH.
    + eexists. intros S s. reflexivity.
Qed.

Lemma parse_uniform {A} (bte_data : ShengBTEToDb.ndarray A) :
  exists o, forall S (s : S), ShengBTEToDb.parse bte_data s = (o, s).
Proof.
  unfold ShengBTEToDb.parse.
  assert (forall a : ShengBTEToDb.ndarray A,
            exists o, forall S (s : S),
              (temperatures <~ ShengBTEToDb.column_0 a ;;
               block <~ ShengBTEToDb.columns_1_10 a ;;
               kappa <~ ShengBTEToDb.reshape block ;;
               ret (temperatures, kappa)) s = (o, s)) as Hshape.
  { intros [x | v | rows]; cbn [ShengBTEToDb.column_0];
      try (eexists; intros S s; reflexivity).
    destruct (column_0_uniform rows) as [[temperatures | e] Hcol].
    - unfold bind, ShengBTEToDb.columns_1_10, ShengBTEToDb.reshape, ret.
      destruct (ShengBTEToDb.reshape_3_3
                  (concat ((fun row => take 9 (drop 1 row)) <$> rows)))
        as [tensors|] eqn:Hre;
        eexists; intros S s; rewrite Hcol; cbn; reflexivity.
    - eexists. intros S s. unfold bind. by rewrite Hcol. }
  apply Hshape.
Qed.

Lemma from_file_pure (path : string) (w : world) :
  exists o, from_file path w = (o, w).
Proof.
  unfold from_file, bind, loadfn.
  destruct (files w !! path) as [a|]; [| eexists; reflexivity].
  destruct a; eexists; reflexivity.
Qed.

Lemma output_file_pure (w : world) :
  exists o, output_file w = (o, w).
Proof.
  unfold output_file, bind, exists_.
  destruct (bool_decide (is_Some (files w !! "BTE.KappaTensorVsT_CONV")));
    [eexists; reflexivity |].
  destruct (bool_decide (is_Some (files w !! "BTE.KappaTensorVsT_RTA")));
    eexists; reflexivity.
Qed.

Lemma loadfn_pure (path : string) (w : world) :
  exists o, loadfn path w = (o, w).
Proof. unfold loadfn. destruct (files w !! path); eexists; reflexivity. Qed.

Lemma in_cwd_same {A} (m : task world A) (s : site Grid) (o : outcome A) :
  m (cwd s) = (o, cwd s) -> in_cwd m s = (o, s).
Proof. intros Hm. unfold in_cwd. rewrite Hm. by destruct s. Qed.

(** The task as a function of what the three reads and the parse give. *)
Lemma run_task_eq (self : params) (fw_spec : gmap string field)
    (s : site Grid) :
  run_task self fw_spec s =
    match (from_file "CONTROL" (cwd s)).1 with
    | Raised e => (Raised e, s)
    | Returned control =>
        match (output_file (cwd s)).1 with
        | Raised e => (Raised e, s)
        | Returned filename =>
            match (loadfn filename (cwd s)).1 with
            | Raised e => (Raised e, s)
            | Returned content =>
                match loadtxt content with
                | Raised e => (Raised e, s)
                | Returned bte_data =>
                    match (ShengBTEToDb.parse bte_data tt).1 with
                    | Raised e => (Raised e, s)
                    | Returned parsed =>
                        (Returned tt,
                         {| cwd := cwd s;
                            db :=
                              {| counter := counter (db s);
                                 inserted :=
                                   inserted (db s) ++
                                   [("lattice_thermal_conductivity",
                                     default ∅ (additional_fields self) ∪
                                       document control parsed.1 parsed.2
                                         fw_spec)];
                                 grid := grid (db s) |} |})
                    end
                end
            end
        end
    end.
Proof.
  unfold ShengBTEToDbTask.run_task.
  destruct (from_file_pure "CONTROL" (cwd s)) as [o1 H1].
  unfold bind at 1. rewrite (in_cwd_same _ _ _ H1), H1. cbn [fst].
  destruct o1 as [control | e]; [| reflexivity].
  destruct (output_file_pure (cwd s)) as [o2 H2].
  unfold bind at 1. rewrite (in_cwd_same _ _ _ H2), H2. cbn [fst].
  destruct o2 as [filename | e]; [| reflexivity].
  destruct (loadfn_pure filename (cwd s)) as [o3 H3].
  unfold bind at 1. rewrite (in_cwd_same _ _ _ H3), H3. cbn [fst].
  destruct o3 as [content | e]; [| reflexivity].
  unfold bind at 1, lift.
  destruct (loadtxt content) as [bte_data | e]; [| reflexivity].
  destruct (parse_uniform bte_data) as [o5 H5].
  unfold bind. rewrite !H5. cbn [fst].
  destruct o5 as [parsed | e]; reflexivity.
Qed.

Lemma from_file_reads (path : string) (w1 w2 : world) :
  files w1 !! path = files w2 !! path ->
  (from_file path w1).1 = (from_file path w2).1.
Proof.
  intros Hsame. unfold from_file, bind, loadfn. rewrite Hsame.
  destruct (files w2 !! path) as [a|]; [| reflexivity].
  by destruct a.
Qed.

Lemma loadfn_reads (path : string) (w1 w2 : world) :
  files w1 !! path = files w2 !! path ->
  (loadfn path w1).1 = (loadfn path w2).1.
Proof.
  intros Hsame. unfold loadfn. rewrite Hsame.
  by destruct (files w2 !! path).
Qed.

Lemma output_file_conv (w : world) :
  is_Some (files w !! "BTE.KappaTensorVsT_CONV") ->
  output_file w = (Returned "BTE.KappaTensorVsT_CONV", w).
Proof.
  intros Hconv. unfold output_file, bind, exists_.
  by rewrite bool_decide_eq_true_2.
Qed.

Lemma output_file_rta (w : world) :
  files w !! "BTE.KappaTensorVsT_CONV" = None ->
  is_Some (files w !! "BTE.KappaTensorVsT_RTA") ->
  output_file w = (Returned "BTE.KappaTensorVsT_RTA", w).
Proof.
  intros Hconv Hrta. unfold output_file, bind, exists_.
  rewrite bool_decide_eq_false_2 by (rewrite Hconv; by intros [? ?]).
  by rewrite bool_decide_eq_true_2.
Qed.

Lemma output_file_none (w : world) :
  files w !! "BTE.KappaTensorVsT_CONV" = None ->
  files w !! "BTE.KappaTensorVsT_RTA" = None ->
  output_file w =
    (Raised (RuntimeError "Could not find ShengBTE output files."), w).
Proof.
  intros Hconv Hrta. unfold output_file, bind, exists_.
  rewrite bool_decide_eq_false_2 by (rewrite Hconv; by intros [? ?]).
  by rewrite bool_decide_eq_false_2 by (rewrite Hrta; by intros [? ?]).
Qed.

(** X22. With a [CONTROL] file in the directory and neither
    [BTE.KappaTensorVsT_CONV] nor [BTE.KappaTensorVsT_RTA], the task raises
    [RuntimeError("Could not find ShengBTE output files.")] and stores
    nothing; without [CONTROL] it raises [FileNotFoundError] for it, even
    when the output files are there. *)
Theorem shengbte_to_db_missing_files (self : params)
    (fw_spec : gmap string field) (s : site Grid) :
  (files (cwd s) !! "CONTROL" = None ->
   run_task self fw_spec s = (Raised (FileNotFoundError "CONTROL"), s)) /\
  (forall control,
     files (cwd s) !! "CONTROL" = Some (ControlFile control) ->
     files (cwd s) !! "BTE.KappaTensorVsT_CONV" = None ->
     files (cwd s) !! "BTE.KappaTensorVsT_RTA" = None ->
     run_task self fw_spec s =
       (Raised (RuntimeError "Could not find ShengBTE output files."), s)).
Proof.
  split.
  - intros Hcontrol. rewrite run_task_eq.
    unfold from_file, bind, loadfn. by rewrite Hcontrol.
  - intros control Hcontrol Hconv Hrta. rewrite run_task_eq.
    unfold from_file, bind, loadfn. rewrite Hcontrol. cbn [fst].
    by rewrite (output_file_none _ Hconv Hrta).
Qed.

(** X24. Whenever the task raises, the working directory and the database
    are as they were. When it returns, it wrote no file, left the counter
    and the grid storage alone, and added exactly one document, to
    [lattice_thermal_conductivity]; in it every key of [additional_fields]
    holds the value given there, [fc_fitting_id] included, and without
    such a key [fc_fitting_id] is the one of [fw_spec], or [None]. *)
Theorem shengbte_to_db_document (self : params) (fw_spec : gmap string field)
    (s : site Grid) :
  match run_task self fw_spec s with
  | (Raised _, s') => s' = s
  | (Returned _, s') =>
      cwd s' = cwd s /\ counter (db s') = counter (db s) /\
      grid (db s') = grid (db s) /\
      exists data,
        inserted (db s') =
          inserted (db s) ++ [("lattice_thermal_conductivity", data)] /\
        (forall key v,
           default ∅ (additional_fields self) !! key = Some v ->
           data !! key = Some v) /\
        (default ∅ (additional_fields self) !! "fc_fitting_id" = None ->
         data !! "fc_fitting_id" =
           Some (default FNone (fw_spec !! "fc_fitting_id")))
  end.
Proof.
  rewrite run_task_eq.
  destruct (from_file "CONTROL" (cwd s)).1 as [control | e]; [| done].
  destruct (output_file (cwd s)).1 as [filename | e]; [| done].
  destruct (loadfn filename (cwd s)).1 as [content | e]; [| done].
  destruct (loadtxt content) as [bte_data | e]; [| done].
  destruct (ShengBTEToDb.parse bte_data tt).1 as [parsed | e]; [| done].
  cbn [cwd db counter inserted grid]. repeat split.
  eexists. split; [reflexivity |]. split.
  - intros key v Hkey. by apply lookup_union_Some_l.
  - intros Hnone. rewrite (lookup_union_r _ _ _ Hnone).
    unfold ShengBTEToDbTask.document.
    do 8 (rewrite lookup_insert_ne by done).
    by rewrite lookup_insert_eq.
Qed.

End ShengBTEToDbFacts.

Section ShengBTEToDbReads.
Import Database ShengBTEToDbTask.
Context `{Domain}.
Context {Grid : Type}.
Variable get_structure : Control -> Structure.
Variable scell_matrix : Control -> Data.
Variable control_as_dict : Control -> Data.
Variable loadtxt : artifact -> outcome (ShengBTEToDb.ndarray Qc).
Variable as_dict : Structure -> Data.
Variable reduced_formula : Structure -> string.
Variable utcnow utcnow' : Data.
Variable getcwd getcwd' : string.

Local Abbreviation run_task :=
  (run_task (Grid := Grid) get_structure scell_matrix control_as_dict loadtxt
     as_dict reduced_formula utcnow getcwd).
Local Abbreviation run_task' :=
  (ShengBTEToDbTask.run_task (Grid := Grid) get_structure scell_matrix control_as_dict loadtxt
     as_dict reduced_formula utcnow' getcwd').

(** The directory and the time of the run reach two keys only. *)
Lemma document_agree (control : Control) (temperatures : list Qc)
    (kappa : list (list (list Qc))) (fw_spec : gmap string field)
    (key : string) :
  key <> "shengbte_dir" -> key <> "created_at" ->
  document get_structure scell_matrix control_as_dict as_dict reduced_formula
    utcnow getcwd control temperatures kappa fw_spec !! key =
  document get_structure scell_matrix control_as_dict as_dict reduced_formula
    utcnow' getcwd' control temperatures kappa fw_spec !! key.
Proof.
  intros Hdir Hat. unfold document. rewrite !lookup_insert.
  repeat case_decide; congruence.
Qed.

(** X23. The task reads [CONTROL], then [BTE.KappaTensorVsT_CONV] if it
    exists and [BTE.KappaTensorVsT_RTA] only if it does not, and nothing
    else: two runs, each in its own directory, at its own time and on its
    own database, whose directories agree on [CONTROL], on the converged
    file and, where that one is absent, on the relaxation-time file, have
    the same outcome, and the documents they add agree on every key but
    [shengbte_dir] and [created_at]. *)
Theorem shengbte_to_db_prefers_conv (self : params)
    (fw_spec : gmap string field) (s1 s2 : site Grid) :
  files (cwd s1) !! "CONTROL" = files (cwd s2) !! "CONTROL" ->
  files (cwd s1) !! "BTE.KappaTensorVsT_CONV" =
    files (cwd s2) !! "BTE.KappaTensorVsT_CONV" ->
  (files (cwd s1) !! "BTE.KappaTensorVsT_CONV" = None ->
   files (cwd s1) !! "BTE.KappaTensorVsT_RTA" =
     files (cwd s2) !! "BTE.KappaTensorVsT_RTA") ->
  (run_task self fw_spec s1).1 = (run_task' self fw_spec s2).1 /\
  ((run_task self fw_spec s1).1 = Returned tt ->
   exists data1 data2,
     inserted (db (run_task self fw_spec s1).2) =
       inserted (db s1) ++ [("lattice_thermal_conductivity", data1)] /\
     inserted (db (run_task' self fw_spec s2).2) =
       inserted (db s2) ++ [("lattice_thermal_conductivity", data2)] /\
     forall key,
       key <> "shengbte_dir" -> key <> "created_at" ->
       data1 !! key = data2 !! key).
Proof.
  intros Hcontrol Hconv Hrta. rewrite !run_task_eq.
  rewrite (from_file_reads _ _ _ Hcontrol).
  destruct (from_file "CONTROL" (cwd s2)).1 as [control | e]; [| done].
  assert (exists o,
            (output_file (cwd s1)).1 = o /\ (output_file (cwd s2)).1 = o /\
            forall filename, o = Returned filename ->
              files (cwd s1) !! filename = files (cwd s2) !! filename)
    as (o & -> & -> & Hfile).
  { destruct (files (cwd s1) !! "BTE.KappaTensorVsT_CONV") as [conv|] eqn:H1.
    - rewrite output_file_conv by (rewrite H1; eauto).
      rewrite output_file_conv by (rewrite <- Hconv; eauto).
      eexists. repeat split. intros filename [= <-]. by rewrite H1, <- Hconv.
    - specialize (Hrta eq_refl).
      destruct (files (cwd s1) !! "BTE.KappaTensorVsT_RTA") as [rta|] eqn:H2.
      + rewrite output_file_rta by (rewrite ?H2; eauto).
        rewrite output_file_rta by (rewrite <- ?Hconv, <- ?Hrta; eauto).
        eexists. repeat split. intros filename [= <-]. by rewrite H2, <- Hrta.
      + rewrite output_file_none by done.
        rewrite output_file_none by (by rewrite <- ?Hconv, <- ?Hrta).
        eexists. repeat split. intros filename [=]. }
  destruct o as [filename | e]; [| done].
  rewrite (loadfn_reads _ _ _ (Hfile filename eq_refl)).
  destruct (loadfn filename (cwd s2)).1 as [content | e]; [| done].
  destruct (loadtxt content) as [bte_data | e]; [| done].
  destruct (ShengBTEToDb.parse bte_data tt).1 as [parsed | e]; [| done].
  cbn [fst snd db inserted]. split; [done |]. intros _.
  eexists _, _. split; [reflexivity |]. split; [reflexivity |].
  intros key Hdir Hat. rewrite !lookup_union.
  by rewrite (document_agree _ _ _ _ key Hdir Hat).
Qed.

End ShengBTEToDbReads.

Section ForceConstantsToDbWitnesses.
Local Existing Instance Sample.domain.
Import Database ForceConstantsToDb Sample.Persist.

Lemma fc_to_db_field_precedence_witness :
  exists data,
    last (inserted (db run.2)) = Some ("lattice_dynamics", data) /\
    data !! "fc_fitting_id" = Some (FInt 42) /\
    data !! "fc_fitting_dir" = Some (FStr "/fit") /\
    data !! "structure" = Some (FStr "mine").
Proof.
  destruct run as [[update_spec | e] s'] eqn:Hrun;
    [| vm_compute in Hrun; discriminate].
  destruct (@fc_to_db_field_precedence Sample.domain _ _ _ 100%Z insert_gridfs
              FObjectId get_fc_array uniform_bs_json lm_bs_json dos_json
              fc_json as_dict reduced_formula tolist utcnow getcwd sanitize
              self ∅ update_spec start s' Hrun)
    as (data & Hlast & Hid & Hdir & Hfields).
  exists data. split; [exact Hlast |]. split; [exact Hid |].
  split; [exact Hdir |].
  apply (Hfields "structure" (FStr "mine")); [reflexivity | done | done].
Defined.

Lemma fc_to_db_all_or_nothing_witness :
  (exists e,
     run_task 100%Z insert_gridfs FObjectId get_fc_array uniform_bs_json
       lm_bs_json dos_json fc_json as_dict reduced_formula tolist utcnow
       getcwd sanitize self ∅ unfitted = (Raised e, unfitted)) /\
  FcFittingId.counter (counter (db run.2)) = Some 42%Z.
Proof.
  split.
  - apply (proj1 (@fc_to_db_all_or_nothing Sample.domain _ _ _ 100%Z
                    insert_gridfs FObjectId get_fc_array uniform_bs_json
                    lm_bs_json dos_json fc_json as_dict reduced_formula tolist
                    utcnow getcwd sanitize self ∅ unfitted)
             "force_constants.fcs").
    + rewrite !elem_of_cons. auto 10.
    + reflexivity.
  - assert (run = (Returned update_spec, run.2)) as Hrun
      by (vm_compute; reflexivity).
    destruct (proj2 (@fc_to_db_all_or_nothing Sample.domain _ _ _ 100%Z
                       insert_gridfs FObjectId get_fc_array uniform_bs_json
                       lm_bs_json dos_json fc_json as_dict reduced_formula
                       tolist utcnow getcwd sanitize self ∅ start)
                update_spec run.2 Hrun) as (_ & _ & Hcounter & _).
    exact Hcounter.
Defined.

End ForceConstantsToDbWitnesses.

Section ShengBTEToDbWitnesses.
Local Existing Instance Sample.domain.
Import Database ShengBTEToDbTask Sample.Conductivity.

Lemma shengbte_to_db_missing_files_witness :
  run ∅ ∅ = (Raised (FileNotFoundError "CONTROL"), start ∅) /\
  run ∅ only_control =
    (Raised (RuntimeError "Could not find ShengBTE output files."),
     start only_control).
Proof.
  split.
  - apply (proj1 (@shengbte_to_db_missing_files Sample.domain unit
                    get_structure scell_matrix control_as_dict loadtxt as_dict
                    reduced_formula utcnow getcwd self ∅ (start ∅))).
    reflexivity.
  - apply (proj2 (@shengbte_to_db_missing_files Sample.domain unit
                    get_structure scell_matrix control_as_dict loadtxt as_dict
                    reduced_formula utcnow getcwd self ∅ (start only_control))
             "CONTROL of Si2"); reflexivity.
Defined.

Lemma shengbte_to_db_prefers_conv_witness :
  (run ∅ both).1 = (run' ∅ converged).1 /\
  ((run ∅ both).1 = Returned tt ->
   exists data1 data2,
     inserted (db (run ∅ both).2) =
       inserted (db (start both)) ++
       [("lattice_thermal_conductivity", data1)] /\
     inserted (db (run' ∅ converged).2) =
       inserted (db (start converged)) ++
       [("lattice_thermal_conductivity", data2)] /\
     forall key,
       key <> "shengbte_dir" -> key <> "created_at" ->
       data1 !! key = data2 !! key).
Proof.
  apply (@shengbte_to_db_prefers_conv Sample.domain unit get_structure
           scell_matrix control_as_dict loadtxt as_dict reduced_formula utcnow
           1%Z getcwd "/bte/again" self ∅ (start both) (start converged)).
  - reflexivity.
  - reflexivity.
  - intros Hnone. vm_compute in Hnone. discriminate.
Defined.

End ShengBTEToDbWitnesses.

(** ** From the stored fit to the stored conductivity *)

Section FittingIdLink.
Import Database.
Context `{Domain}.
Context {Grid Grid' ObjectId FcArray : Type}.
Variable MESH_DENSITY : Data.
Variable insert_gridfs : string -> string -> Grid -> ObjectId * Grid.
Variable FObjectId : ObjectId -> @field _.
Variable get_fc_array : ForceConstants -> FcArray.
Variable uniform_bs_json : Structure -> Matrix -> FcArray -> string.
Variable lm_bs_json : Structure -> Matrix -> FcArray -> string.
Variable dos_json : Structure -> Matrix -> FcArray -> Data -> string.
Variable fc_json : ForceConstants -> string.
Variable as_dict : Structure -> Data.
Variable reduced_formula : Structure -> string.
Variable tolist : Forces -> Data.
Variable utcnow utcnow' : Data.
Variable getcwd getcwd' : string.
Variable sanitize : @field _ -> @field _.
Variable get_structure : Control -> Structure.
Variable scell_matrix : Control -> Data.
Variable control_as_dict : Control -> Data.
Variable loadtxt : artifact -> outcome (ShengBTEToDb.ndarray Qc).

Local Abbreviation store_fit :=
  (ForceConstantsToDb.run_task (Grid := Grid) MESH_DENSITY insert_gridfs
     FObjectId get_fc_array uniform_bs_json lm_bs_json dos_json fc_json as_dict
     reduced_formula tolist utcnow getcwd sanitize).
Local Abbreviation store_conductivity :=
  (ShengBTEToDbTask.run_task (Grid := Grid') get_structure scell_matrix
     control_as_dict loadtxt as_dict reduced_formula utcnow' getcwd').

(** X25. When a later ShengBTEToDb runs with a [fw_spec] that holds, under
    [fc_fitting_id] and [fc_fitting_dir], what ForceConstantsToDb returned
    in its [update_spec], and its [additional_fields] name neither key,
    the conductivity document carries the id and the directory of the fit:
    the id is the one under which the [lattice_dynamics] document was
    stored (there sanitized) and the directory is the one the fit ran
    in. *)
Theorem fitting_id_reaches_conductivity
    (self : ForceConstantsToDb.params) (fw_spec update_spec : gmap string field)
    (s s' : site Grid)
    (self' : ShengBTEToDbTask.params) (fw_spec' : gmap string field)
    (t t' : site Grid') :
  store_fit self fw_spec s = (Returned update_spec, s') ->
  fw_spec' !! "fc_fitting_id" = update_spec !! "fc_fitting_id" ->
  fw_spec' !! "fc_fitting_dir" = update_spec !! "fc_fitting_dir" ->
  default ∅ (ShengBTEToDbTask.additional_fields self') !! "fc_fitting_id" = None ->
  default ∅ (ShengBTEToDbTask.additional_fields self') !! "fc_fitting_dir" = None ->
  store_conductivity self' fw_spec' t = (Returned tt, t') ->
  exists fit conductivity,
    last (inserted (db s')) = Some ("lattice_dynamics", fit) /\
    last (inserted (db t')) =
      Some ("lattice_thermal_conductivity", conductivity) /\
    fit !! "fc_fitting_id" = Some (sanitize (FInt (next_id s))) /\
    conductivity !! "fc_fitting_id" = Some (FInt (next_id s)) /\
    conductivity !! "fc_fitting_dir" = Some (FStr getcwd).
Proof.
  intros Hfit Hid Hdir Hnoid Hnodir Hbte.
  pose proof (run_task_cases MESH_DENSITY insert_gridfs FObjectId get_fc_array
                uniform_bs_json lm_bs_json dos_json fc_json as_dict
                reduced_formula tolist utcnow getcwd sanitize self fw_spec s)
    as [[e He] | (c' & g & computed & _ & Hc' & Hrun)];
    [rewrite He in Hfit; discriminate |].
  rewrite Hrun in Hfit. injection Hfit as <- <-.
  rewrite metadata_id in Hid. rewrite metadata_dir in Hdir.
  rewrite run_task_eq in Hbte.
  destruct (ShengBTEToDbTask.from_file "CONTROL" (cwd t)).1
    as [control | e]; [| discriminate].
  destruct (ShengBTEToDbTask.output_file (cwd t)).1
    as [filename | e]; [| discriminate].
  destruct (loadfn filename (cwd t)).1 as [content | e]; [| discriminate].
  destruct (loadtxt content) as [bte_data | e]; [| discriminate].
  destruct (ShengBTEToDb.parse bte_data tt).1 as [parsed | e];
    [| discriminate].
  injection Hbte as <-. cbn [db inserted].
  eexists _, _. split; [apply last_snoc |]. split; [apply last_snoc |].
  split.
  - rewrite lookup_fmap.
    by rewrite (lookup_union_Some_l _ _ _ _ (metadata_id getcwd _)).
  - rewrite (lookup_union_r _ _ _ Hnoid), (lookup_union_r _ _ _ Hnodir).
    unfold ShengBTEToDbTask.document, get_or_none.
    split.
    + do 8 (rewrite lookup_insert_ne by done).
      by rewrite lookup_insert_eq, Hid.
    + do 9 (rewrite lookup_insert_ne by done).
      by rewrite lookup_insert_eq, Hdir.
Qed.

End FittingIdLink.

Section FittingIdLinkWitnesses.
Local Existing Instance Sample.domain.
Import Database.

Lemma fitting_id_reaches_conductivity_witness :
  exists fit conductivity,
    last (inserted (db Sample.Persist.run.2)) = Some ("lattice_dynamics", fit) /\
    last (inserted
            (db (Sample.Conductivity.run Sample.Persist.update_spec
                   Sample.Conductivity.converged).2)) =
      Some ("lattice_thermal_conductivity", conductivity) /\
    fit !! "fc_fitting_id" = Some (FInt 42) /\
    conductivity !! "fc_fitting_id" = Some (FInt 42) /\
    conductivity !! "fc_fitting_dir" = Some (FStr "/fit").
Proof.
  assert (Sample.Persist.run =
          (Returned Sample.Persist.update_spec, Sample.Persist.run.2))
    as Hfit by (vm_compute; reflexivity).
  assert (Sample.Conductivity.run Sample.Persist.update_spec
            Sample.Conductivity.converged =
          (Returned tt,
           (Sample.Conductivity.run Sample.Persist.update_spec
              Sample.Conductivity.converged).2))
    as Hbte by (vm_compute; reflexivity).
  exact (@fitting_id_reaches_conductivity Sample.domain _ _ _ _ 100%Z
           Sample.Persist.insert_gridfs Sample.Persist.FObjectId
           Sample.Persist.get_fc_array Sample.Persist.uniform_bs_json
           Sample.Persist.lm_bs_json Sample.Persist.dos_json
           Sample.Persist.fc_json Sample.Persist.as_dict
           Sample.Persist.reduced_formula Sample.Persist.tolist
           Sample.Persist.utcnow Sample.Conductivity.utcnow
           Sample.Persist.getcwd Sample.Conductivity.getcwd
           Sample.Persist.sanitize Sample.Conductivity.get_structure
           Sample.Conductivity.scell_matrix
           Sample.Conductivity.control_as_dict Sample.Conductivity.loadtxt
           Sample.Persist.self ∅ Sample.Persist.update_spec
           Sample.Persist.start Sample.Persist.run.2
           Sample.Conductivity.self Sample.Persist.update_spec
           (Sample.Conductivity.start Sample.Conductivity.converged)
           (Sample.Conductivity.run Sample.Persist.update_spec
              Sample.Conductivity.converged).2
           Hfit eq_refl eq_refl eq_refl eq_refl Hbte).
Defined.

End FittingIdLinkWitnesses.
